(** * trains/utilities/resource_monitor.py: the ResourceMonitor daemon

    A shallow embedding of [ResourceMonitor] and the properties of its
    sampling and reporting steps.

    Conventions of the embedding
    - Python [int] is [Z]; Python [float] is read as an exact rational [Q]
      (rounding of binary floating point is not modelled; the exceptions of
      float arithmetic, i.e. [ZeroDivisionError], are).
    - A Python [dict] is an insertion-ordered association list with unique
      keys ([Dict.t]): [items()] iterates in insertion order, which decides
      what a loop has already done when it raises.
    - A Python exception is a [Raise] result; [try/except Exception] is a
      [match] on the result.
    - The answers of the collaborators ([time()], psutil, gpustat, the
      tensorboard probe, [get_last_iteration()]) are inputs of the steps. *)

From Stdlib Require Import ZArith QArith Qround Qabs List String Ascii Bool Lia.
From Stdlib Require Import DecimalString DecimalNat Lqa.
Import ListNotations.

Open Scope string_scope.
Open Scope Z_scope.
Open Scope Q_scope.

(** ** Exceptions and results *)

Inductive exn : Type :=
| ZeroDivisionError
| TypeError
| ProviderError.

Inductive result (A : Type) : Type :=
| Ok (a : A)
| Raise (e : exn).

Arguments Ok {A} a.
Arguments Raise {A} e.

Definition bind {A B : Type} (r : result A) (k : A -> result B) : result B :=
  match r with
  | Ok a => k a
  | Raise e => Raise e
  end.

Notation "x <- r ;; k" := (bind r (fun x => k))
  (at level 61, r at next level, right associativity).
Notation "' p <- r ;; k" := (bind r (fun p => k))
  (at level 61, p pattern, r at next level, right associativity).

(** ** Python dictionaries *)

Module Dict.

Definition t (V : Type) : Type := list (string * V).

Definition empty {V : Type} : t V := [].

(** [d.get(k)] *)
Fixpoint get {V : Type} (d : t V) (k : string) : option V :=
  match d with
  | [] => None
  | (k', v) :: r => if String.eqb k' k then Some v else get r k
  end.

(** [d.get(k, dflt)] *)
Definition get_default {V : Type} (d : t V) (k : string) (dflt : V) : V :=
  match get d k with
  | Some v => v
  | None => dflt
  end.

(** [d[k] = v]: an existing key keeps its place, a new key goes last. *)
Fixpoint set {V : Type} (d : t V) (k : string) (v : V) : t V :=
  match d with
  | [] => [(k, v)]
  | (k', v') :: r =>
      if String.eqb k' k then (k', v) :: r else (k', v') :: set r k v
  end.

Definition keys {V : Type} (d : t V) : list string := map fst d.

End Dict.

(** ** Numbers *)

(** [float(x) / float(y)], also [x / y] of Python 3 on numbers. *)
Definition py_div (x y : Q) : result Q :=
  if Qeq_bool y 0 then Raise ZeroDivisionError else Ok (x / y).

(** [int(x)] on a float: truncation towards zero. *)
Definition py_int (x : Q) : Z :=
  if Qle_bool 0 x then Qfloor x else Qceiling x.

(** [round(x)] of Python 3: the nearest integer, a tie going to the even
    one. *)
Definition py_round (x : Q) : Z :=
  let f := Qfloor x in
  let r := x - inject_Z f in
  match Qcompare r (1 # 2) with
  | Lt => f
  | Gt => (f + 1)%Z
  | Eq => if Z.even f then f else (f + 1)%Z
  end.

(** [sum(l)] and [max(x :: r)] on floats. *)
Definition py_sum (l : list Q) : Q := fold_left Qplus l 0.

Definition Qmax (x y : Q) : Q := if Qle_bool x y then y else x.

Definition py_max (x : Q) (r : list Q) : Q := fold_left Qmax r x.

(** [float(x)] on an [int] or on [None]. *)
Definition py_float (x : option Z) : result Q :=
  match x with
  | Some z => Ok (inject_Z z)
  | None => Raise TypeError
  end.

(** [x - y] on [int]s or [None]. *)
Definition py_sub (x y : option Z) : result (option Z) :=
  match x, y with
  | Some a, Some b => Ok (Some (a - b)%Z)
  | _, _ => Raise TypeError
  end.

(** ["%d" % i] *)
Definition format_d (i : nat) : string :=
  NilEmpty.string_of_uint (Nat.to_uint i).

(** [k.startswith(p)] and [k.endswith(p)] *)
Definition startswith (k p : string) : bool := String.prefix p k.

Fixpoint rev_string (s acc : string) : string :=
  match s with
  | EmptyString => acc
  | String c r => rev_string r (String c acc)
  end.

Definition endswith (k p : string) : bool :=
  String.prefix (rev_string p EmptyString) (rev_string k EmptyString).

(** ** The monitor object *)

(** The answers of psutil during one call of [_machine_stats], in the order
    of the calls. [sensors_coretemp] is the ["coretemp"] entry of
    [psutil.sensors_temperatures()], empty when the platform has none. *)
Record psutil_answers : Type := {
  cpu_percent : result (list Q);
  virtual_memory : result (Z * Z);      (* used, available *)
  disk_usage_percent : result Q;
  sensors_coretemp : result (list Q);
  net_io_counters : result (Z * Z);     (* bytes_sent, bytes_recv *)
  disk_io_counters : result (Z * Z)     (* read_bytes, write_bytes *)
}.

(** One entry of [gpustat.new_query().gpus]; a field the driver does not
    report is [None]. *)
Record gpu_entry : Type := {
  temperature_gpu : option Z;
  utilization_gpu : option Z;
  memory_used : option Z;
  memory_total : option Z
}.

Record ResourceMonitor : Type := {
  _sample_frequency : Q;
  _report_frequency : Q;
  _first_report_sec : Q;
  _wait_for_first_iteration : Q;
  _num_readouts : Z;
  _readouts : Dict.t Q;
  _previous_readouts : Dict.t Q;
  _previous_readouts_ts : Q;
  _gpustat_fail : Z;
  _gpustat : bool;               (* the gpustat module, or None *)
  console : list string          (* lines written to the task logger *)
}.

Definition with_accumulator (m : ResourceMonitor) (n : Z) (r : Dict.t Q)
  : ResourceMonitor :=
  {| _sample_frequency := _sample_frequency m;
     _report_frequency := _report_frequency m;
     _first_report_sec := _first_report_sec m;
     _wait_for_first_iteration := _wait_for_first_iteration m;
     _num_readouts := n;
     _readouts := r;
     _previous_readouts := _previous_readouts m;
     _previous_readouts_ts := _previous_readouts_ts m;
     _gpustat_fail := _gpustat_fail m;
     _gpustat := _gpustat m;
     console := console m |}.

Definition with_previous (m : ResourceMonitor) (p : Dict.t Q) : ResourceMonitor :=
  {| _sample_frequency := _sample_frequency m;
     _report_frequency := _report_frequency m;
     _first_report_sec := _first_report_sec m;
     _wait_for_first_iteration := _wait_for_first_iteration m;
     _num_readouts := _num_readouts m;
     _readouts := _readouts m;
     _previous_readouts := p;
     _previous_readouts_ts := _previous_readouts_ts m;
     _gpustat_fail := _gpustat_fail m;
     _gpustat := _gpustat m;
     console := console m |}.

Definition with_previous_ts (m : ResourceMonitor) (ts : Q) : ResourceMonitor :=
  {| _sample_frequency := _sample_frequency m;
     _report_frequency := _report_frequency m;
     _first_report_sec := _first_report_sec m;
     _wait_for_first_iteration := _wait_for_first_iteration m;
     _num_readouts := _num_readouts m;
     _readouts := _readouts m;
     _previous_readouts := _previous_readouts m;
     _previous_readouts_ts := ts;
     _gpustat_fail := _gpustat_fail m;
     _gpustat := _gpustat m;
     console := console m |}.

Definition with_gpu (m : ResourceMonitor) (fail : Z) (g : bool)
  (lines : list string) : ResourceMonitor :=
  {| _sample_frequency := _sample_frequency m;
     _report_frequency := _report_frequency m;
     _first_report_sec := _first_report_sec m;
     _wait_for_first_iteration := _wait_for_first_iteration m;
     _num_readouts := _num_readouts m;
     _readouts := _readouts m;
     _previous_readouts := _previous_readouts m;
     _previous_readouts_ts := _previous_readouts_ts m;
     _gpustat_fail := fail;
     _gpustat := g;
     console := lines |}.

Definition log (m : ResourceMonitor) (line : string) : ResourceMonitor :=
  with_gpu m (_gpustat_fail m) (_gpustat m) (console m ++ [line]).

Definition dquote : string := String (ascii_of_nat 34) EmptyString.

Definition msg_no_gpustat : string :=
  "TRAINS Monitor: GPU monitoring is not available, run "
    ++ dquote ++ "pip install gpustat" ++ dquote.
Definition msg_fallback : string :=
  "TRAINS Monitor: Could not detect iteration reporting, falling back to iterations as seconds-from-start".
Definition msg_gpu_off : string :=
  "TRAINS Monitor: GPU monitoring failed getting GPU reading, switching off GPU monitoring".

(** [ResourceMonitor.__init__]; [gpustat] tells whether [import gpustat]
    succeeded and [now] is the answer of [time()]. *)
Definition __init__ (gpustat : bool) (now : Q)
  (sample_frequency_per_sec report_frequency_sec : Q)
  (first_report_sec : option Q)
  (wait_for_first_iteration_to_start_sec : Q) : ResourceMonitor :=
  let m :=
    {| _sample_frequency := sample_frequency_per_sec;
       _report_frequency := report_frequency_sec;
       _first_report_sec :=
         match first_report_sec with
         | Some f => if Qeq_bool f 0 then report_frequency_sec else f
         | None => report_frequency_sec
         end;
       _wait_for_first_iteration := wait_for_first_iteration_to_start_sec;
       _num_readouts := 0;
       _readouts := Dict.empty;
       _previous_readouts := Dict.empty;
       _previous_readouts_ts := now;
       _gpustat_fail := 0;
       _gpustat := gpustat;
       console := [] |} in
  if gpustat then m else log m msg_no_gpustat.

(** ** Raw snapshot collection: [_machine_stats] *)

Definition bytes_per_megabyte : Q := inject_Z (1024 ^ 2).

Definition bytes_to_megabytes (x : Z) : Q := inject_Z x / bytes_per_megabyte.

(** The keys every snapshot has: cpu, memory, disk and the four cumulative
    byte counters. *)
Definition host_keys : list string :=
  ["cpu_usage"; "memory_used_gb"; "memory_free_gb"; "disk_free_percent";
   "network_tx_mbs"; "network_rx_mbs"; "io_read_mbs"; "io_write_mbs"].

(** The host part of [_machine_stats], up to the gpu block. An exception of
    a psutil call leaves the function at once; [stats] is a local. *)
Definition host_stats (a : psutil_answers) : result (Dict.t Q) :=
  cpu_usage <- cpu_percent a ;;
  avg <- py_div (py_sum cpu_usage) (inject_Z (Z.of_nat (List.length cpu_usage))) ;;
  let stats := Dict.set Dict.empty "cpu_usage" avg in
  '(used, available) <- virtual_memory a ;;
  let stats := Dict.set stats "memory_used_gb" (bytes_to_megabytes used / 1024) in
  let stats := Dict.set stats "memory_free_gb" (bytes_to_megabytes available / 1024) in
  disk_use_percentage <- disk_usage_percent a ;;
  let stats := Dict.set stats "disk_free_percent" (100 - disk_use_percentage) in
  coretemp <- sensors_coretemp a ;;
  let stats :=
    match coretemp with
    | [] => stats
    | t :: ts => Dict.set stats "cpu_temperature" (py_max t ts)
    end in
  '(bytes_sent, bytes_recv) <- net_io_counters a ;;
  let stats := Dict.set stats "network_tx_mbs" (bytes_to_megabytes bytes_sent) in
  let stats := Dict.set stats "network_rx_mbs" (bytes_to_megabytes bytes_recv) in
  '(read_bytes, write_bytes) <- disk_io_counters a ;;
  let stats := Dict.set stats "io_read_mbs" (bytes_to_megabytes read_bytes) in
  let stats := Dict.set stats "io_write_mbs" (bytes_to_megabytes write_bytes) in
  Ok stats.

(** Statements that update a dictionary in place and may raise: what was
    written before the exception stays written. *)
Definition stmt : Type := Dict.t Q -> Dict.t Q * result unit.

Definition skip : stmt := fun d => (d, Ok tt).

Definition assign (k : string) (e : result Q) : stmt :=
  fun d =>
    match e with
    | Ok v => (Dict.set d k v, Ok tt)
    | Raise x => (d, Raise x)
    end.

Definition seq (c1 c2 : stmt) : stmt :=
  fun d =>
    match c1 d with
    | (d', Ok _) => c2 d'
    | (d', Raise x) => (d', Raise x)
    end.

Definition gpu_key (i : nat) (name : string) : string :=
  "gpu_" ++ format_d i ++ "_" ++ name.

(** The body of [for i, g in enumerate(gpu_stat.gpus)]. *)
Definition gpu_body (i : nat) (g : gpu_entry) : stmt :=
  seq (assign (gpu_key i "temperature") (py_float (temperature_gpu g)))
 (seq (assign (gpu_key i "utilization") (py_float (utilization_gpu g)))
 (seq (assign (gpu_key i "mem_usage")
         (u <- py_float (memory_used g) ;;
          t <- py_float (memory_total g) ;;
          py_div (100 * u) t))
 (seq (assign (gpu_key i "mem_free_gb")
         (d <- py_sub (memory_total g) (memory_used g) ;;
          f <- py_float d ;;
          Ok (f / 1024)))
      (assign (gpu_key i "mem_used_gb")
         (u <- py_float (memory_used g) ;;
          Ok (u / 1024)))))).

Fixpoint gpu_loop (i : nat) (gpus : list gpu_entry) : stmt :=
  match gpus with
  | [] => skip
  | g :: rest => seq (gpu_body i g) (gpu_loop (S i) rest)
  end.

(** The [try] block of the gpu part: the query, then the loop. *)
Definition gpu_try (new_query : result (list gpu_entry)) : stmt :=
  fun stats =>
    match new_query with
    | Ok gpus => gpu_loop 0 gpus stats
    | Raise x => (stats, Raise x)
    end.

(** [_machine_stats]; [a] and [new_query] are the answers of psutil and of
    [gpustat.new_query()] ([new_query] is only asked while [_gpustat] is
    set). Returns the monitor after the call with the result. *)
Definition _machine_stats (a : psutil_answers)
  (new_query : result (list gpu_entry)) (m : ResourceMonitor)
  : ResourceMonitor * result (Dict.t Q) :=
  match host_stats a with
  | Raise e => (m, Raise e)
  | Ok stats =>
      if _gpustat m then
        match gpu_try new_query stats with
        | (stats', Ok _) => (m, Ok stats')
        | (stats', Raise _) =>
            let fail := (_gpustat_fail m + 1)%Z in
            if (3 <=? fail)%Z
            then (with_gpu m fail false (console m ++ [msg_gpu_off]), Ok stats')
            else (with_gpu m fail (_gpustat m) (console m), Ok stats')
        end
      else (m, Ok stats)
  end.

(** ** The sample fold: [_update_readouts] *)

(** The value folded for key [k]: the rate since the previous raw reading
    for a cumulative counter, the reading itself otherwise. *)
Definition fold_value (prev : Dict.t Q) (elapsed : Q) (k : string) (v : Q)
  : result Q :=
  if endswith k "_mbs"
  then py_div (v - Dict.get_default prev k v) elapsed
  else Ok v.

(** [for k, v in readouts.items(): ...] on [self._readouts]. *)
Fixpoint fold_readouts (items : list (string * Q)) (prev : Dict.t Q)
  (elapsed : Q) : stmt :=
  match items with
  | [] => skip
  | (k, v) :: rest =>
      fun acc =>
        match fold_value prev elapsed k v with
        | Raise e => (acc, Raise e)
        | Ok v' =>
            fold_readouts rest prev elapsed
              (Dict.set acc k (Dict.get_default acc k 0 + v'))
        end
  end.

(** [_update_readouts]; [t1] and [t2] are the answers of its two calls of
    [time()]. *)
Definition _update_readouts (a : psutil_answers)
  (new_query : result (list gpu_entry)) (t1 t2 : Q) (m : ResourceMonitor)
  : ResourceMonitor * result unit :=
  match _machine_stats a new_query m with
  | (m1, Raise e) => (m1, Raise e)
  | (m1, Ok readouts) =>
      let elapsed := t1 - _previous_readouts_ts m1 in
      let m2 := with_previous_ts m1 t2 in
      match fold_readouts readouts (_previous_readouts m2) elapsed (_readouts m2) with
      | (acc, Raise e) => (with_accumulator m2 (_num_readouts m2) acc, Raise e)
      | (acc, Ok _) =>
          (with_previous (with_accumulator m2 (_num_readouts m2 + 1)%Z acc) readouts,
           Ok tt)
      end
  end.

Definition _get_num_readouts (m : ResourceMonitor) : Z := _num_readouts m.

(** [_get_average_readouts]: the division is evaluated once per key. *)
Fixpoint average_items (items : list (string * Q)) (n : Z)
  : result (Dict.t Q) :=
  match items with
  | [] => Ok Dict.empty
  | (k, v) :: rest =>
      a <- py_div v (inject_Z n) ;;
      d <- average_items rest n ;;
      Ok ((k, a) :: d)
  end.

Definition _get_average_readouts (m : ResourceMonitor) : result (Dict.t Q) :=
  average_items (_readouts m) (_num_readouts m).

Definition _clear_readouts (m : ResourceMonitor) : ResourceMonitor :=
  with_accumulator m 0 Dict.empty.

(** ** The daemon loop: [_daemon] *)

Definition _title_machine : string := ":monitor:machine".
Definition _title_gpu : string := ":monitor:gpu".

(** The locals of [_daemon]. *)
Record daemon_locals : Type := {
  seconds_since_started : Z;
  reported : Z;
  last_iteration : Z;
  last_iteration_ts : Z;
  last_iteration_interval : option (Z * Z);
  repeated_iterations : Z;
  fallback_to_sec_as_iterations : option bool;
  last_report : Q
}.

Record daemon : Type := {
  self : ResourceMonitor;
  locals : daemon_locals
}.

(** One call [logger.report_scalar(title, series, iteration, value)]. *)
Record scalar : Type := {
  title : string;
  series : string;
  iteration : Z;
  value : Q
}.

(** What one report boundary computes: the iteration it settled on and the
    calls of [report_scalar] it made, in order. *)
Record report : Type := {
  report_iteration : Z;
  scalars : list scalar
}.

(** The answers of the collaborators at one report boundary. *)
Record boundary_answers : Type := {
  elapsed : Q;                 (* time() - last_report, line 72 *)
  tensorboard_used : bool;     (* IsTensorboardInit.tensorboard_used() *)
  get_last_iteration : Z       (* self._task.get_last_iteration() *)
}.

(** The locals on entry of [_daemon], up to the first [last_report = time()]. *)
Definition daemon_entry (t58 : Q) : daemon_locals :=
  {| seconds_since_started := 0;
     reported := 0;
     last_iteration := 0;
     last_iteration_ts := 0;
     last_iteration_interval := None;
     repeated_iterations := 0;
     fallback_to_sec_as_iterations := None;
     last_report := t58 |}.

Definition current_report_frequency (d : daemon) : Q :=
  if (reported (locals d) =? 0)%Z
  then _first_report_sec (self d)
  else _report_frequency (self d).

(** [try: self._update_readouts() except Exception: pass] *)
Definition sample_tick (a : psutil_answers) (new_query : result (list gpu_entry))
  (t1 t2 : Q) (d : daemon) : daemon :=
  {| self := fst (_update_readouts a new_query t1 t2 (self d));
     locals := locals d |}.

(** Lines 74-80: the fallback decision, taken while it is still [None]. *)
Definition decide_fallback (b : boundary_answers) (seconds : Z)
  (m : ResourceMonitor) (fallback : option bool)
  : ResourceMonitor * option bool :=
  match fallback with
  | None =>
      if tensorboard_used b then (m, Some false)
      else if Qle_bool (_wait_for_first_iteration m) (inject_Z seconds)
           then (log m msg_fallback, Some true)
           else (m, None)
  | Some _ => (m, fallback)
  end.

(** The extrapolation of line 91:
    [int(0.95*interval[0] * (seconds - last_ts) / interval[1])]. *)
Definition extrapolate (interval : Z * Z) (seconds last_ts : Z) : result Z :=
  x <- py_div ((95 # 100) * inject_Z (fst interval) * inject_Z (seconds - last_ts))
              (inject_Z (snd interval)) ;;
  Ok (py_int x).

(** Lines 83-100: the iteration of this boundary and the locals after it.
    [l] already holds the new [seconds_since_started] and the decided
    [fallback_to_sec_as_iterations]. *)
Definition select_iteration (b : boundary_answers) (l : daemon_locals)
  : result (Z * daemon_locals) :=
  match fallback_to_sec_as_iterations l with
  | Some true => Ok (seconds_since_started l, l)
  | _ =>
      let iteration := get_last_iteration b in
      if (iteration =? last_iteration l)%Z then
        let l' :=
          {| seconds_since_started := seconds_since_started l;
             reported := reported l;
             last_iteration := last_iteration l;
             last_iteration_ts := last_iteration_ts l;
             last_iteration_interval := last_iteration_interval l;
             repeated_iterations := (repeated_iterations l + 1)%Z;
             fallback_to_sec_as_iterations := fallback_to_sec_as_iterations l;
             last_report := last_report l |} in
        match last_iteration_interval l with
        | Some interval =>
            x <- extrapolate interval (seconds_since_started l) (last_iteration_ts l) ;;
            Ok ((iteration + x)%Z, l')
        | None => Ok ((iteration + 1)%Z, l')
        end
      else
        Ok (iteration,
            {| seconds_since_started := seconds_since_started l;
               reported := reported l;
               last_iteration := iteration;
               last_iteration_ts := seconds_since_started l;
               last_iteration_interval :=
                 Some ((iteration - last_iteration l)%Z,
                       (seconds_since_started l - last_iteration_ts l)%Z);
               repeated_iterations := 0;
               fallback_to_sec_as_iterations := Some false;
               last_report := last_report l |})
  end.

(** [round(v*1000) / 1000.] *)
Definition round3 (v : Q) : Q := inject_Z (py_round (v * 1000)) / 1000.

(** The calls of [report_scalar] of lines 104-112, one per averaged key. *)
Definition emit (it : Z) (average_readouts : Dict.t Q) : list scalar :=
  map (fun kv =>
         {| title := if startswith (fst kv) "gpu_" then _title_gpu else _title_machine;
            series := fst kv;
            iteration := it;
            value := round3 (snd kv) |})
      average_readouts.

(** The locals once lines 70-80 have run: one more report, the new
    [seconds_since_started], the decided fallback. *)
Definition at_boundary (l : daemon_locals) (seconds : Z)
  (fallback : option bool) : daemon_locals :=
  {| seconds_since_started := seconds;
     reported := (reported l + 1)%Z;
     last_iteration := last_iteration l;
     last_iteration_ts := last_iteration_ts l;
     last_iteration_interval := last_iteration_interval l;
     repeated_iterations := repeated_iterations l;
     fallback_to_sec_as_iterations := fallback;
     last_report := last_report l |}.

(** Lines 70-113: one report boundary. An exception here is not caught: it
    ends the thread. *)
Definition report_boundary (b : boundary_answers) (d : daemon)
  : result (daemon * report) :=
  let l := locals d in
  average_readouts <- _get_average_readouts (self d) ;;
  let seconds := (seconds_since_started l + py_round (elapsed b))%Z in
  let (m, fallback) :=
    decide_fallback b seconds (self d) (fallback_to_sec_as_iterations l) in
  '(it, l') <- select_iteration b (at_boundary l seconds fallback) ;;
  match fallback_to_sec_as_iterations l' with
  | Some _ =>
      Ok ({| self := _clear_readouts m; locals := l' |},
          {| report_iteration := it; scalars := emit it average_readouts |})
  | None =>
      Ok ({| self := m; locals := l' |},
          {| report_iteration := it; scalars := [] |})
  end.

(** What the environment does between two observations of the loop.
    - [Sample]: the check of line 60 at time [t60] lets the loop go on, the
      wait times out and one fold is attempted.
    - [Report]: the check of line 60 at time [t60] ends the window; [t72] is
      the [time()] of line 72 and [t58] the one of line 58 that opens the
      next window.
    - [Stop]: the exit event is set during the wait. *)
Inductive event : Type :=
| Sample (t60 : Q) (a : psutil_answers) (new_query : result (list gpu_entry))
    (t117 t118 : Q)
| Report (t60 t72 : Q) (tensorboard : bool) (last_iter : Z) (t58 : Q)
| Stop (t60 : Q).

Inductive thread : Type :=
| Running (d : daemon)
| Returned (d : daemon)
| Died (e : exn).

Definition is_sample (ev : event) : bool :=
  match ev with
  | Sample _ _ _ _ _ => true
  | _ => false
  end.

(** The daemon state a thread is in, unless an exception ended it. *)
Definition thread_daemon (th : thread) : option daemon :=
  match th with
  | Running d | Returned d => Some d
  | Died _ => None
  end.

Definition window_open (t60 : Q) (d : daemon) : bool :=
  negb (Qle_bool (current_report_frequency d) (t60 - last_report (locals d))).

Definition reopen (t58 : Q) (d : daemon) : daemon :=
  let l := locals d in
  {| self := self d;
     locals :=
       {| seconds_since_started := seconds_since_started l;
          reported := reported l;
          last_iteration := last_iteration l;
          last_iteration_ts := last_iteration_ts l;
          last_iteration_interval := last_iteration_interval l;
          repeated_iterations := repeated_iterations l;
          fallback_to_sec_as_iterations := fallback_to_sec_as_iterations l;
          last_report := t58 |} |}.

(** One event of the loop; [None] when the event does not fit the control
    flow of the code in this state. *)
Definition daemon_step (ev : event) (d : daemon)
  : option (thread * list report) :=
  match ev with
  | Sample t60 a new_query t117 t118 =>
      if window_open t60 d
      then Some (Running (sample_tick a new_query t117 t118 d), [])
      else None
  | Stop t60 =>
      if window_open t60 d then Some (Returned d, []) else None
  | Report t60 t72 tensorboard last_iter t58 =>
      if window_open t60 d then None
      else
        match report_boundary
                {| elapsed := t72 - last_report (locals d);
                   tensorboard_used := tensorboard;
                   get_last_iteration := last_iter |} d with
        | Ok (d', r) => Some (Running (reopen t58 d'), [r])
        | Raise e => Some (Died e, [])
        end
  end.

(** [_daemon] along a list of events: the thread after them and the reports
    made, oldest first. *)
Fixpoint _daemon (evs : list event) (d : daemon)
  : option (thread * list report) :=
  match evs with
  | [] => Some (Running d, [])
  | ev :: rest =>
      match daemon_step ev d with
      | Some (Running d', out) =>
          match _daemon rest d' with
          | Some (th, out') => Some (th, (out ++ out')%list)
          | None => None
          end
      | Some (th, out) =>
          match rest with
          | [] => Some (th, out)
          | _ :: _ => None
          end
      | None => None
      end
  end.

(** [start()] after [__init__]: the thread enters [_daemon] at time [t58]. *)
Definition start (t58 : Q) (m : ResourceMonitor) : daemon :=
  {| self := m; locals := daemon_entry t58 |}.

(** ** Concrete answers of the collaborators, used in the examples *)

(** psutil on a one-core host: [cpu] percent busy, 2 GiB used, 1 GiB free,
    40% of the disk used, no temperature sensor, the given byte counters. *)
Definition host_answers (cpu : Q) (sent recv : Z) : psutil_answers :=
  {| cpu_percent := Ok [cpu];
     virtual_memory := Ok (2147483648, 1073741824)%Z;
     disk_usage_percent := Ok 40;
     sensors_coretemp := Ok [];
     net_io_counters := Ok (sent, recv);
     disk_io_counters := Ok (0, 0)%Z |}.

(** psutil failing at its first call. *)
Definition host_failing : psutil_answers :=
  {| cpu_percent := Raise ProviderError;
     virtual_memory := Ok (0, 0)%Z;
     disk_usage_percent := Ok 0;
     sensors_coretemp := Ok [];
     net_io_counters := Ok (0, 0)%Z;
     disk_io_counters := Ok (0, 0)%Z |}.

(** One healthy gpu: 50 degrees, 10% busy, 100 of 1000 MB used. *)
Definition gpu_healthy : gpu_entry :=
  {| temperature_gpu := Some 50%Z;
     utilization_gpu := Some 10%Z;
     memory_used := Some 100%Z;
     memory_total := Some 1000%Z |}.

(** The monitor with the default parameters, built at time 1000. *)
Definition default_monitor : ResourceMonitor :=
  __init__ true 1000 2 30 None 180.

(** Three sample ticks, half a second apart, at each of which the gpu query
    raises. *)
Definition three_gpu_failures : list event :=
  [Sample 1000 (host_answers 25 0 0) (Raise ProviderError) (2001 # 2) (2001 # 2);
   Sample (2001 # 2) (host_answers 25 0 0) (Raise ProviderError) 1001 1001;
   Sample 1001 (host_answers 25 0 0) (Raise ProviderError) (2003 # 2) (2003 # 2)].

(** The monitor after a first fold half a second after its construction,
    with 1 MB sent so far. *)
Definition after_first_fold : ResourceMonitor :=
  fst (_update_readouts (host_answers 25 1048576 2097152) (Ok [])
         (2001 # 2) (2001 # 2) default_monitor).

(** A monitor reporting every second, and the daemon after the two sample
    ticks of its first window. *)
Definition one_second_monitor : ResourceMonitor :=
  __init__ true 1000 2 1 None 180.

Definition first_window : list event :=
  [Sample 1000 (host_answers 25 0 0) (Ok []) (2001 # 2) (2001 # 2);
   Sample (2001 # 2) (host_answers 75 0 0) (Ok []) 1001 1001].

Definition after_first_window : daemon :=
  sample_tick (host_answers 75 0 0) (Ok []) 1001 1001
    (sample_tick (host_answers 25 0 0) (Ok []) (2001 # 2) (2001 # 2)
       (start 1000 one_second_monitor)).

(** The boundary one second after the start, with tensorboard in use and
    the task at iteration 7 (external mode). *)
Definition boundary_external : boundary_answers :=
  {| elapsed := 1; tensorboard_used := true; get_last_iteration := 7 |}.

(** The same window closed by a boundary without tensorboard and with the
    task still at iteration 0: the mode stays unresolved. *)
Definition first_window_unresolved : list event :=
  (first_window ++ [Report 1001 1001 false 0 1001])%list.

(** A monitor sampling and reporting every ten seconds, watching a task
    that reports iteration 5 at three boundaries in a row. *)
Definition ten_second_monitor : ResourceMonitor :=
  __init__ true 1000 (1 # 10) 10 None 180.

Definition stalled_run : list event :=
  [Sample 1000 (host_answers 25 0 0) (Ok []) 1010 1010;
   Report 1010 1010 false 5 1010;
   Sample 1010 (host_answers 25 0 0) (Ok []) 1020 1020;
   Report 1020 1020 false 5 1020;
   Sample 1020 (host_answers 25 0 0) (Ok []) 1030 1030;
   Report 1030 1030 false 5 1030].

(** The locals at the second of these boundaries, lines 70-80 done. *)
Definition stalled_locals : daemon_locals :=
  {| seconds_since_started := 20;
     reported := 2;
     last_iteration := 5;
     last_iteration_ts := 10;
     last_iteration_interval := Some (5, 10)%Z;
     repeated_iterations := 0;
     fallback_to_sec_as_iterations := Some false;
     last_report := 1010 |}.

Definition boundary_stalled : boundary_answers :=
  {| elapsed := 10; tensorboard_used := false; get_last_iteration := 5 |}.

(** A monitor sampling ten times a second and reporting every quarter of a
    second, told not to wait for a first iteration; its first two windows,
    three ticks each. *)
Definition quarter_second_monitor : ResourceMonitor :=
  __init__ true 1000 10 (1 # 4) None 0.

Definition quarter_second_run : list event :=
  [Sample 1000 (host_answers 25 0 0) (Ok []) (10001 # 10) (10001 # 10);
   Sample (10001 # 10) (host_answers 25 0 0) (Ok []) (10002 # 10) (10002 # 10);
   Sample (10002 # 10) (host_answers 25 0 0) (Ok []) (10003 # 10) (10003 # 10);
   Report (10003 # 10) (10003 # 10) false 0 (10003 # 10);
   Sample (10003 # 10) (host_answers 25 0 0) (Ok []) (10004 # 10) (10004 # 10);
   Sample (10004 # 10) (host_answers 25 0 0) (Ok []) (10005 # 10) (10005 # 10);
   Sample (10005 # 10) (host_answers 25 0 0) (Ok []) (10006 # 10) (10006 # 10);
   Report (10006 # 10) (10006 # 10) false 0 (10006 # 10)].

(** The default monitor once it has fallen back to seconds, 180 seconds
    after the start, and the boundary 30 seconds later. *)
Definition seconds_mode_daemon : daemon :=
  {| self := default_monitor;
     locals :=
       {| seconds_since_started := 180;
          reported := 6;
          last_iteration := 0;
          last_iteration_ts := 0;
          last_iteration_interval := None;
          repeated_iterations := 5;
          fallback_to_sec_as_iterations := Some true;
          last_report := 1180 |} |}.

Definition boundary_30s : boundary_answers :=
  {| elapsed := 30; tensorboard_used := false; get_last_iteration := 0 |}.

(** A monitor reporting every second and a half; the three ticks of its
    first window see the one core 1%, 0% and 0% busy. *)
Definition three_halves_monitor : ResourceMonitor :=
  __init__ true 1000 2 (3 # 2) None 180.

Definition three_folds : list event :=
  [Sample 1000 (host_answers 1 0 0) (Ok []) (2001 # 2) (2001 # 2);
   Sample (2001 # 2) (host_answers 0 0 0) (Ok []) 1001 1001;
   Sample 1001 (host_answers 0 0 0) (Ok []) (2003 # 2) (2003 # 2)].

Definition boundary_three_halves : boundary_answers :=
  {| elapsed := 3 # 2; tensorboard_used := true; get_last_iteration := 7 |}.

(** A monitor sampling a thousand times a second and reporting every
    hundredth of a second, on a clock that advances in steps of 1/64 s: the
    clock reads 1000 at construction, at the start of the thread and inside
    the first fold, and 1000 + 1/64 at the next check of the window. *)
Definition coarse_clock_monitor : ResourceMonitor :=
  __init__ true 1000 1000 (1 # 100) None 180.

Definition coarse_clock_fold : event :=
  Sample 1000 (host_answers 25 0 0) (Ok []) 1000 1000.

Definition coarse_clock_report : event :=
  Report (64001 # 64) (64001 # 64) false 0 (64001 # 64).

(** ** Predicates used in the statements *)

(** A statement that only writes keys satisfying [p] leaves the others. *)
Definition writes_only (p : string -> bool) (c : stmt) : Prop :=
  forall d d' r, c d = (d', r) ->
    forall k, p k = false -> Dict.get d' k = Dict.get d k.

(** A statement that keeps the keys of a dictionary unique. *)
Definition keeps_nodup (c : stmt) : Prop :=
  forall d d' r, c d = (d', r) -> NoDup (Dict.keys d) -> NoDup (Dict.keys d').

(** Three failures of the accelerator query switch it off. *)
Definition gpu_inv (m : ResourceMonitor) : Prop :=
  (3 <= _gpustat_fail m)%Z -> _gpustat m = false.

(** The fold count is zero exactly when the accumulator is empty. *)
Definition accumulator_inv (m : ResourceMonitor) : Prop :=
  (0 <= _num_readouts m)%Z /\
  (_num_readouts m = 0%Z <-> _readouts m = Dict.empty).

(** ** Measures of a run *)

(** The lengths of the windows that the [Report] events of a run close: the
    [time()] of line 72 minus the [last_report] of the window, which is the
    [time()] of line 58 of the boundary before (or of the start). *)
Fixpoint window_lengths (evs : list event) (last : Q) : list Q :=
  match evs with
  | [] => []
  | Report _ t72 _ _ t58 :: rest => (t72 - last) :: window_lengths rest t58
  | _ :: rest => window_lengths rest last
  end.

Definition Zsum (l : list Z) : Z := fold_right Z.add 0%Z l.

Definition Qsum (l : list Q) : Q := fold_right Qplus 0 l.

(** How often a line was written to the console. *)
Definition count_lines (line : string) (lines : list string) : nat :=
  List.length (filter (String.eqb line) lines).

(** ** More concrete runs *)

(** A monitor sampling ten times a second and reporting every quarter of a
    second while tensorboard is in use; the task is at iteration 3 at the
    end of the first window, 0.3 s after the start, and still there at the
    end of the second. *)
Definition quarter_second_external_monitor : ResourceMonitor :=
  __init__ true 1000 10 (1 # 4) None 180.

Definition quarter_second_first_window : list event :=
  [Sample 1000 (host_answers 25 0 0) (Ok []) (10001 # 10) (10001 # 10);
   Sample (10001 # 10) (host_answers 25 0 0) (Ok []) (10002 # 10) (10002 # 10);
   Sample (10002 # 10) (host_answers 25 0 0) (Ok []) (10003 # 10) (10003 # 10);
   Report (10003 # 10) (10003 # 10) true 3 (10003 # 10)].

Definition boundary_still_at_3 : boundary_answers :=
  {| elapsed := 3 # 10; tensorboard_used := true; get_last_iteration := 3 |}.

(** ** The accelerator along a run *)

(** Whether the gpu block of [_machine_stats] raises on these answers, when
    it is run: the query raises or the reading of some device does. *)
Definition gpu_block_fails (a : psutil_answers)
  (new_query : result (list gpu_entry)) : bool :=
  match host_stats a with
  | Ok h =>
      match gpu_try new_query h with
      | (_, Raise _) => true
      | (_, Ok _) => false
      end
  | Raise _ => false
  end.

(** The sample ticks of a run on whose answers the gpu block raises. *)
Definition gpu_failures (evs : list event) : nat :=
  List.length
    (filter (fun ev =>
               match ev with
               | Sample _ a new_query _ _ => gpu_block_fails a new_query
               | _ => false
               end) evs).

(** What the accelerator fields and the console look like after [n] failures
    of the gpu block, starting with [gpustat] available. *)
Definition gpu_state_after (n : nat) (m : ResourceMonitor) : Prop :=
  _gpustat_fail m = Z.min 3 (Z.of_nat n) /\
  _gpustat m = (n <? 3)%nat /\
  count_lines msg_gpu_off (console m) = (if (3 <=? n)%nat then 1 else 0)%nat.

(** A run in which the gpu query fails twice, succeeds, and fails again. *)
Definition gpu_flaky_run : list event :=
  [Sample 1000 (host_answers 25 0 0) (Raise ProviderError) (2001 # 2) (2001 # 2);
   Sample (2001 # 2) (host_answers 25 0 0) (Raise ProviderError) 1001 1001;
   Sample 1001 (host_answers 25 0 0) (Ok [gpu_healthy]) (2003 # 2) (2003 # 2);
   Sample (2003 # 2) (host_answers 25 0 0) (Raise ProviderError) 1002 1002].

(** The four readings of a device, when all are there and the device has
    memory: what the body of the gpu loop needs in order not to raise. *)
Definition gpu_readings (g : gpu_entry) : option (Z * Z * Z * Z) :=
  match temperature_gpu g, utilization_gpu g, memory_used g, memory_total g with
  | Some t, Some u, Some used, Some total =>
      if (total =? 0)%Z then None else Some (t, u, used, total)
  | _, _, _, _ => None
  end.

(** A statement that leaves every key outside [P] as it is. *)
Definition writes_within (P : string -> Prop) (c : stmt) : Prop :=
  forall d d' r, c d = (d', r) ->
    forall k, ~ P k -> Dict.get d' k = Dict.get d k.

(** ** Snapshots and windows *)

(** psutil answers every call and reports at least one core. *)
Definition psutil_ok (a : psutil_answers) : bool :=
  match cpu_percent a, virtual_memory a, disk_usage_percent a,
        sensors_coretemp a, net_io_counters a, disk_io_counters a with
  | Ok (_ :: _), Ok _, Ok _, Ok _, Ok _, Ok _ => true
  | _, _, _, _, _, _ => false
  end.

(** The reading of key [k] at each sample tick of a window; [None] when the
    window holds something else than sample ticks, psutil raises at a tick
    or a snapshot lacks the key. *)
Fixpoint window_readings (k : string) (evs : list event) : option (list Q) :=
  match evs with
  | [] => Some []
  | Sample _ a _ _ _ :: rest =>
      match host_stats a with
      | Ok h =>
          match Dict.get h k, window_readings k rest with
          | Some v, Some vs => Some (v :: vs)
          | _, _ => None
          end
      | Raise _ => None
      end
  | _ :: _ => None
  end.

(** At each fold of the window the clock has moved since the timestamp the
    fold before has left ([ts] for the first one). *)
Fixpoint clock_moves (ts : Q) (evs : list event) : bool :=
  match evs with
  | [] => true
  | Sample _ _ _ t117 t118 :: rest =>
      negb (Qeq_bool (t117 - ts) 0) && clock_moves t118 rest
  | _ :: rest => clock_moves ts rest
  end.

(** The sample ticks of the first window of [three_halves_monitor]. *)
Definition steady_window : list event :=
  [Sample 1000 (host_answers 25 0 0) (Ok []) (2001 # 2) (2001 # 2);
   Sample (2001 # 2) (host_answers 25 0 0) (Ok []) 1001 1001;
   Sample 1001 (host_answers 25 0 0) (Ok []) (2003 # 2) (2003 # 2)].

(** The accumulator has each key once and, as soon as one fold has
    completed since it was emptied, all the host keys. *)
Definition accumulator_keys_inv (m : ResourceMonitor) : Prop :=
  (0 <= _num_readouts m)%Z /\
  NoDup (Dict.keys (_readouts m)) /\
  ((0 < _num_readouts m)%Z ->
   forall k, In k host_keys -> In k (Dict.keys (_readouts m))).

(** A report is empty, or it has every host metric; no metric twice. *)
Definition report_complete (r : report) : Prop :=
  NoDup (map series (scalars r)) /\
  (scalars r = [] \/
   forall k, In k host_keys -> In k (map series (scalars r))).

(** The folds of the window are [e] seconds apart, the first one [e]
    seconds after the timestamp [ts]. *)
Fixpoint evenly_spaced (e ts : Q) (evs : list event) : bool :=
  match evs with
  | [] => true
  | Sample _ _ _ t117 t118 :: rest =>
      Qeq_bool (t117 - ts) e && evenly_spaced e t118 rest
  | _ :: rest => evenly_spaced e ts rest
  end.

(** The default monitor after its first fold (1 MB sent so far) with the
    accumulator emptied, at the start of a window, and two ticks of that
    window half a second apart, with 2 MB and 4 MB sent. *)
Definition after_first_report : daemon :=
  {| self := _clear_readouts after_first_fold;
     locals := daemon_entry (2001 # 2) |}.

Definition busy_window : list event :=
  [Sample (2001 # 2) (host_answers 25 2097152 2097152) (Ok []) 1001 1001;
   Sample 1001 (host_answers 25 4194304 2097152) (Ok []) (2003 # 2) (2003 # 2)].

(** * Properties *)

(** ** Dictionaries *)

Section DictFacts.

Context {V : Type}.
Implicit Types (d : Dict.t V) (k : string) (v : V).

Lemma get_set_same d k v : Dict.get (Dict.set d k v) k = Some v.
Proof.
  induction d as [|[k' v'] r IH]; simpl.
  - now rewrite String.eqb_refl.
  - destruct (String.eqb k' k) eqn:E; simpl; now rewrite E.
Qed.

Lemma get_set_other d k k' v :
  k <> k' -> Dict.get (Dict.set d k v) k' = Dict.get d k'.
Proof.
  intros Hne. induction d as [|[k0 v0] r IH]; simpl.
  - destruct (String.eqb k k') eqn:E; [|reflexivity].
    apply String.eqb_eq in E. contradiction.
  - destruct (String.eqb k0 k) eqn:E; simpl.
    + apply String.eqb_eq in E. subst k0.
      destruct (String.eqb k k') eqn:E'; [|reflexivity].
      apply String.eqb_eq in E'. contradiction.
    + now rewrite IH.
Qed.

Lemma keys_set_incl d k v k' :
  In k' (Dict.keys (Dict.set d k v)) -> k' = k \/ In k' (Dict.keys d).
Proof.
  induction d as [|[k0 v0] r IH]; simpl.
  - intros [H|[]]. now left.
  - destruct (String.eqb k0 k); simpl; intros [H|H]; auto.
    destruct (IH H); auto.
Qed.

Lemma keys_set_keep d k v k' :
  In k' (Dict.keys d) -> In k' (Dict.keys (Dict.set d k v)).
Proof.
  induction d as [|[k0 v0] r IH]; simpl; [tauto|].
  destruct (String.eqb k0 k); simpl; intros [H|H]; auto.
Qed.

Lemma keys_set_new d k v : In k (Dict.keys (Dict.set d k v)).
Proof.
  induction d as [|[k0 v0] r IH]; simpl; [now left|].
  destruct (String.eqb k0 k) eqn:E; simpl; auto.
  apply String.eqb_eq in E. now left.
Qed.

Lemma get_none_iff d k : Dict.get d k = None <-> ~ In k (Dict.keys d).
Proof.
  induction d as [|[k0 v0] r IH]; simpl; [tauto|].
  destruct (String.eqb k0 k) eqn:E.
  - apply String.eqb_eq in E. split; [discriminate|]. intros H. exfalso. auto.
  - apply String.eqb_neq in E. rewrite IH. tauto.
Qed.

Lemma get_in d k v : Dict.get d k = Some v -> In (k, v) d.
Proof.
  induction d as [|[k0 v0] r IH]; simpl; [discriminate|].
  destruct (String.eqb k0 k) eqn:E.
  - apply String.eqb_eq in E. intros [= ->]. subst. now left.
  - auto.
Qed.

Lemma in_get d k v :
  NoDup (Dict.keys d) -> In (k, v) d -> Dict.get d k = Some v.
Proof.
  induction d as [|[k0 v0] r IH]; simpl; [tauto|].
  intros Hnd [H|H].
  - injection H as -> ->. now rewrite String.eqb_refl.
  - inversion Hnd as [|? ? Hnotin Hnd']; subst.
    destruct (String.eqb k0 k) eqn:E; [|auto].
    apply String.eqb_eq in E. subst k0.
    exfalso. apply Hnotin. change k with (fst (k, v)). now apply in_map.
Qed.

Lemma NoDup_keys_set d k v :
  NoDup (Dict.keys d) -> NoDup (Dict.keys (Dict.set d k v)).
Proof.
  induction d as [|[k0 v0] r IH]; simpl; intros Hnd.
  - constructor; [tauto|constructor].
  - inversion Hnd as [|? ? Hnotin Hnd']; subst.
    destruct (String.eqb k0 k) eqn:E; simpl.
    + now constructor.
    + constructor; [|auto].
      intros Hin. apply keys_set_incl in Hin as [->|Hin]; [|auto].
      now rewrite String.eqb_refl in E.
Qed.

Lemma set_nonempty d k v : Dict.set d k v <> [].
Proof. destruct d as [|[k0 v0] r]; simpl; [|destruct (String.eqb k0 k)]; discriminate. Qed.

End DictFacts.

(** ** Raw snapshot collection *)

Lemma machine_stats_raise a q m m' e :
  _machine_stats a q m = (m', Raise e) -> m' = m /\ host_stats a = Raise e.
Proof.
  unfold _machine_stats.
  destruct (host_stats a) as [stats|e0].
  - destruct (_gpustat m); [|discriminate].
    destruct (gpu_try q stats) as [stats' [u|x]]; [discriminate|].
    destruct (3 <=? _gpustat_fail m + 1)%Z; discriminate.
  - intros [= <- <-]. auto.
Qed.

Lemma machine_stats_host_raise a q m e :
  host_stats a = Raise e -> _machine_stats a q m = (m, Raise e).
Proof. intros H. unfold _machine_stats. now rewrite H. Qed.

(** C3. When collection raises during a sample fold, [_update_readouts]
    raises the same exception, the [try/except] of the loop swallows it, and
    the whole state of the daemon (so the accumulator sums, the fold count,
    the previous readings and their timestamp) is what it was before. *)
Theorem C3_collection_failure_leaves_state a q t1 t2 d e :
  snd (_machine_stats a q (self d)) = Raise e ->
  _update_readouts a q t1 t2 (self d) = (self d, Raise e) /\
  sample_tick a q t1 t2 d = d /\
  _readouts (self (sample_tick a q t1 t2 d)) = _readouts (self d) /\
  _num_readouts (self (sample_tick a q t1 t2 d)) = _num_readouts (self d) /\
  _previous_readouts (self (sample_tick a q t1 t2 d)) = _previous_readouts (self d) /\
  _previous_readouts_ts (self (sample_tick a q t1 t2 d)) = _previous_readouts_ts (self d).
Proof.
  intros H.
  destruct (_machine_stats a q (self d)) as [m' r] eqn:E. simpl in H. subst r.
  apply machine_stats_raise in E as [-> Hhost].
  assert (U : _update_readouts a q t1 t2 (self d) = (self d, Raise e)).
  { unfold _update_readouts. now rewrite (machine_stats_host_raise a q (self d) e Hhost). }
  assert (S : sample_tick a q t1 t2 d = d).
  { unfold sample_tick. rewrite U. now destruct d. }
  rewrite S. repeat split; auto.
Qed.

Lemma C3_witness :
  snd (_machine_stats host_failing (Raise ProviderError) (self (start 1000 default_monitor)))
    = Raise ProviderError /\
  sample_tick host_failing (Raise ProviderError) (2001 # 2) (2001 # 2)
    (start 1000 default_monitor) = start 1000 default_monitor.
Proof.
  split; [reflexivity|].
  apply (C3_collection_failure_leaves_state host_failing (Raise ProviderError)
           (2001 # 2) (2001 # 2) (start 1000 default_monitor) ProviderError).
  reflexivity.
Defined.

Lemma machine_stats_gpu_off a q m :
  _gpustat m = false -> _machine_stats a q m = (m, host_stats a).
Proof.
  intros H. unfold _machine_stats. rewrite H. now destruct (host_stats a).
Qed.

(** The keys of a host snapshot, in insertion order. *)
Lemma host_stats_keys a h :
  host_stats a = Ok h ->
  Dict.keys h =
    (["cpu_usage"; "memory_used_gb"; "memory_free_gb"; "disk_free_percent"]
     ++ match sensors_coretemp a with
        | Ok (_ :: _) => ["cpu_temperature"]
        | _ => []
        end
     ++ ["network_tx_mbs"; "network_rx_mbs"; "io_read_mbs"; "io_write_mbs"])%list.
Proof.
  unfold host_stats.
  destruct (cpu_percent a) as [cpu|]; [simpl|discriminate].
  destruct (py_div _ _) as [avg|]; [simpl|discriminate].
  destruct (virtual_memory a) as [[used available]|]; [simpl|discriminate].
  destruct (disk_usage_percent a) as [p|]; [simpl|discriminate].
  destruct (sensors_coretemp a) as [[|t ts]|]; [simpl|simpl|discriminate].
  all: destruct (net_io_counters a) as [[sent recv]|]; [simpl|discriminate].
  all: destruct (disk_io_counters a) as [[rd wr]|]; [simpl|discriminate].
  all: intros [= <-]; reflexivity.
Qed.

Lemma host_stats_has_host_keys a h k :
  host_stats a = Ok h -> In k host_keys -> In k (Dict.keys h).
Proof.
  intros H Hk. rewrite (host_stats_keys a h H).
  unfold host_keys in Hk. simpl in Hk.
  rewrite !in_app_iff. simpl.
  repeat (destruct Hk as [<-|Hk]; [tauto|]). contradiction.
Qed.

Lemma host_stats_no_gpu_key a h k :
  host_stats a = Ok h -> In k (Dict.keys h) -> startswith k "gpu_" = false.
Proof.
  intros H Hk. rewrite (host_stats_keys a h H) in Hk.
  rewrite !in_app_iff in Hk. simpl in Hk.
  destruct Hk as [Hk|[Hk|Hk]].
  - repeat (destruct Hk as [<-|Hk]; [reflexivity|]). contradiction.
  - destruct (sensors_coretemp a) as [[|t ts]|]; simpl in Hk; try contradiction.
    destruct Hk as [<-|[]]. reflexivity.
  - repeat (destruct Hk as [<-|Hk]; [reflexivity|]). contradiction.
Qed.

Lemma host_keys_not_gpu k : In k host_keys -> startswith k "gpu_" = false.
Proof.
  unfold host_keys. simpl. intros Hk.
  repeat (destruct Hk as [<-|Hk]; [reflexivity|]). contradiction.
Qed.

Lemma gpu_key_startswith i name : startswith (gpu_key i name) "gpu_" = true.
Proof.
  unfold startswith, gpu_key. simpl.
  now destruct (format_d i ++ String "_" name)%string.
Qed.

Lemma writes_only_skip p : writes_only p skip.
Proof. intros d d' r [= <- _] k _. reflexivity. Qed.

Lemma writes_only_assign p k e : p k = true -> writes_only p (assign k e).
Proof.
  intros Hk d d' r H k' Hk'. unfold assign in H.
  destruct e as [v|x]; injection H as <- _; [|reflexivity].
  apply get_set_other. intros ->. congruence.
Qed.

Lemma writes_only_seq p c1 c2 :
  writes_only p c1 -> writes_only p c2 -> writes_only p (seq c1 c2).
Proof.
  intros H1 H2 d d' r H k Hk. unfold seq in H.
  destruct (c1 d) as [d1 [u|x]] eqn:E1.
  - rewrite (H2 _ _ _ H k Hk). exact (H1 _ _ _ E1 k Hk).
  - injection H as <- _. exact (H1 _ _ _ E1 k Hk).
Qed.

Lemma writes_only_gpu_body i g : writes_only (fun k => startswith k "gpu_") (gpu_body i g).
Proof.
  unfold gpu_body.
  repeat (apply writes_only_seq; [apply writes_only_assign, gpu_key_startswith|]).
  apply writes_only_assign, gpu_key_startswith.
Qed.

Lemma writes_only_gpu_loop gpus :
  forall i, writes_only (fun k => startswith k "gpu_") (gpu_loop i gpus).
Proof.
  induction gpus as [|g rest IH]; intros i; simpl.
  - apply writes_only_skip.
  - apply writes_only_seq; [apply writes_only_gpu_body|apply IH].
Qed.

Lemma writes_only_gpu_try q : writes_only (fun k => startswith k "gpu_") (gpu_try q).
Proof.
  destruct q as [gpus|x]; simpl.
  - apply writes_only_gpu_loop.
  - intros d d' r [= <- _] k _. reflexivity.
Qed.

(** C10. A failing accelerator query does not abort [_machine_stats] and
    drops no host metric: once psutil has answered, a raising gpu block
    still yields a snapshot in which each of the eight host keys has its
    host reading; when it is the query itself that raises, the snapshot is
    the host snapshot, without any gpu-prefixed key. *)
Theorem C10_gpu_failure_keeps_host_metrics a q m h stats' e :
  host_stats a = Ok h ->
  _gpustat m = true ->
  gpu_try q h = (stats', Raise e) ->
  snd (_machine_stats a q m) = Ok stats' /\
  (forall k, In k host_keys ->
     exists v, Dict.get h k = Some v /\ Dict.get stats' k = Some v) /\
  (forall x, q = Raise x ->
     stats' = h /\
     forall k, In k (Dict.keys stats') -> startswith k "gpu_" = false).
Proof.
  intros Hh Hg Ht. split; [|split].
  - unfold _machine_stats. rewrite Hh, Hg, Ht.
    now destruct (3 <=? _gpustat_fail m + 1)%Z.
  - intros k Hk.
    destruct (Dict.get h k) as [v|] eqn:E.
    + exists v. split; [reflexivity|].
      rewrite <- E. apply (writes_only_gpu_try q h stats' (Raise e) Ht).
      now apply host_keys_not_gpu.
    + exfalso. apply get_none_iff in E. apply E.
      now apply (host_stats_has_host_keys a).
  - intros x ->. simpl in Ht. injection Ht as <- _.
    split; [reflexivity|]. intros k. now apply (host_stats_no_gpu_key a).
Qed.

Lemma C10_witness :
  exists h,
    host_stats (host_answers 25 1048576 2097152) = Ok h /\
    snd (_machine_stats (host_answers 25 1048576 2097152) (Raise ProviderError)
           default_monitor) = Ok h /\
    Dict.keys h = host_keys.
Proof.
  eexists. split; [reflexivity|]. split; [|reflexivity].
  eapply (C10_gpu_failure_keeps_host_metrics (host_answers 25 1048576 2097152)
            (Raise ProviderError) default_monitor);
    reflexivity.
Defined.

(** *** Snapshots have unique keys *)

Lemma keeps_nodup_assign k e : keeps_nodup (assign k e).
Proof.
  intros d d' r H Hnd. unfold assign in H.
  destruct e as [v|x]; injection H as <- _; [|exact Hnd].
  now apply NoDup_keys_set.
Qed.

Lemma keeps_nodup_seq c1 c2 :
  keeps_nodup c1 -> keeps_nodup c2 -> keeps_nodup (seq c1 c2).
Proof.
  intros H1 H2 d d' r H Hnd. unfold seq in H.
  destruct (c1 d) as [d1 [u|x]] eqn:E1.
  - eapply H2; eauto.
  - injection H as <- _. eapply H1; eauto.
Qed.

Lemma keeps_nodup_gpu_loop gpus : forall i, keeps_nodup (gpu_loop i gpus).
Proof.
  induction gpus as [|g rest IH]; intros i; simpl.
  - intros d d' r [= <- _] H. exact H.
  - apply keeps_nodup_seq; [|apply IH].
    unfold gpu_body.
    repeat (apply keeps_nodup_seq; [apply keeps_nodup_assign|]).
    apply keeps_nodup_assign.
Qed.

Lemma host_stats_nodup a h : host_stats a = Ok h -> NoDup (Dict.keys h).
Proof.
  intros H. rewrite (host_stats_keys a h H).
  destruct (sensors_coretemp a) as [[|t ts]|]; simpl;
    repeat (constructor; [simpl; intros Hin;
                          repeat (destruct Hin as [Hin|Hin]; [discriminate|]);
                          contradiction|]);
    constructor.
Qed.

Lemma machine_stats_nodup a q m m' stats :
  _machine_stats a q m = (m', Ok stats) -> NoDup (Dict.keys stats).
Proof.
  unfold _machine_stats.
  destruct (host_stats a) as [h|] eqn:Eh; [|discriminate].
  pose proof (host_stats_nodup a h Eh) as Hnd.
  assert (Ht : forall stats' r, gpu_try q h = (stats', r) -> NoDup (Dict.keys stats')).
  { intros stats' r Ht. destruct q as [gpus|x]; simpl in Ht.
    - exact (keeps_nodup_gpu_loop gpus 0%nat h stats' r Ht Hnd).
    - now injection Ht as <- _. }
  destruct (_gpustat m).
  - destruct (gpu_try q h) as [stats' [u|x]] eqn:Et.
    + intros [= _ <-]. eapply Ht; eauto.
    + destruct (3 <=? _gpustat_fail m + 1)%Z; intros [= _ <-]; eapply Ht; eauto.
  - now intros [= _ <-].
Qed.

(** [_machine_stats] touches the accelerator fields and the console only. *)
Lemma machine_stats_sampling_state a q m :
  let m' := fst (_machine_stats a q m) in
  _readouts m' = _readouts m /\
  _num_readouts m' = _num_readouts m /\
  _previous_readouts m' = _previous_readouts m /\
  _previous_readouts_ts m' = _previous_readouts_ts m.
Proof.
  unfold _machine_stats.
  destruct (host_stats a) as [h|]; [|simpl; auto].
  destruct (_gpustat m); [|simpl; auto].
  destruct (gpu_try q h) as [stats' [u|x]]; [simpl; auto|].
  destruct (3 <=? _gpustat_fail m + 1)%Z; simpl; auto.
Qed.

(** ** The sample fold *)

(** What a fold loop that completes has written: each key of the snapshot
    got its folded value added, the other keys are as before. *)
Lemma fold_readouts_ok items prev e :
  forall acc acc',
    NoDup (Dict.keys items) ->
    fold_readouts items prev e acc = (acc', Ok tt) ->
    (forall k v, In (k, v) items ->
       exists x, fold_value prev e k v = Ok x /\
                 Dict.get acc' k = Some (Dict.get_default acc k 0 + x)) /\
    (forall k, ~ In k (Dict.keys items) -> Dict.get acc' k = Dict.get acc k).
Proof.
  induction items as [|[k0 v0] rest IH]; intros acc acc' Hnd H; simpl in H.
  - injection H as <-. split; [intros k v []|reflexivity].
  - simpl in Hnd. inversion Hnd as [|? ? Hnotin Hnd']; subst.
    destruct (fold_value prev e k0 v0) as [x0|] eqn:E0; [|discriminate].
    destruct (IH _ _ Hnd' H) as [Hin Hout]. split.
    + intros k v [Heq|Hkv].
      * injection Heq as -> ->. exists x0. split; [exact E0|].
        rewrite (Hout k Hnotin). apply get_set_same.
      * destruct (Hin k v Hkv) as [x [Hx Hget]]. exists x. split; [exact Hx|].
        rewrite Hget. unfold Dict.get_default.
        rewrite get_set_other; [reflexivity|].
        intros ->. apply Hnotin. change k with (fst (k, v)). now apply in_map.
    + intros k Hk. simpl in Hk. rewrite (Hout k) by tauto.
      apply get_set_other. tauto.
Qed.

Lemma py_div_ok x y z : py_div x y = Ok z -> ~ y == 0 /\ z = x / y.
Proof.
  unfold py_div. destruct (Qeq_bool y 0) eqn:E; [discriminate|].
  intros [= <-]. split; [|reflexivity].
  intros H. apply Qeq_bool_iff in H. congruence.
Qed.

(** C4. In a sample fold that completes, the value added to the accumulator
    for a cumulative counter (a key ending in [_mbs]) is
    [(current - previous) / elapsed]: [previous] is the reading of that key
    in [_previous_readouts] and [elapsed] is the time since
    [_previous_readouts_ts]; a fold that completes stores its raw snapshot
    and its own timestamp there for the next one. When the key has no
    previous reading the current one is its own baseline and the added value
    is 0. *)
Theorem C4_rate_of_cumulative_counter a q t1 t2 m m' readouts k current :
  snd (_machine_stats a q m) = Ok readouts ->
  _update_readouts a q t1 t2 m = (m', Ok tt) ->
  endswith k "_mbs" = true ->
  Dict.get readouts k = Some current ->
  let elapsed := t1 - _previous_readouts_ts m in
  exists added,
    Dict.get (_readouts m') k = Some (Dict.get_default (_readouts m) k 0 + added) /\
    (forall previous, Dict.get (_previous_readouts m) k = Some previous ->
       added = (current - previous) / elapsed) /\
    (Dict.get (_previous_readouts m) k = None -> added == 0) /\
    ~ elapsed == 0 /\
    _previous_readouts m' = readouts /\
    _previous_readouts_ts m' = t2.
Proof.
  intros Hs Hu Hk Hget elapsed. subst elapsed.
  pose proof (machine_stats_sampling_state a q m) as (Hr & Hn & Hp & Hts).
  unfold _update_readouts in Hu.
  destruct (_machine_stats a q m) as [m1 [stats|e]] eqn:Em; [|discriminate].
  simpl in Hs, Hr, Hn, Hp, Hts. injection Hs as ->.
  simpl in Hu. rewrite Hr, Hp, Hts in Hu.
  destruct (fold_readouts _ _ _ _) as [acc [[]|e]] eqn:Ef; [|discriminate].
  injection Hu as <-. simpl.
  destruct (fold_readouts_ok _ _ _ _ _ (machine_stats_nodup _ _ _ _ _ Em) Ef) as [Hin _].
  destruct (Hin k current (get_in _ _ _ Hget)) as [x [Hx Hacc]].
  unfold fold_value in Hx. rewrite Hk in Hx.
  apply py_div_ok in Hx as [Hne ->].
  eexists. split; [exact Hacc|]. repeat split; auto.
  - intros previous Hprev. unfold Dict.get_default. now rewrite Hprev.
  - intros Hprev. unfold Dict.get_default. rewrite Hprev.
    unfold Qminus. rewrite Qplus_opp_r. unfold Qdiv. apply Qmult_0_l.
Qed.

Lemma C4_witness :
  exists added,
    Dict.get
      (_readouts
         (fst (_update_readouts (host_answers 25 3145728 2097152)
                 (Ok []) 1001 1001 after_first_fold)))
      "network_tx_mbs"
    = Some (Dict.get_default (_readouts after_first_fold) "network_tx_mbs" 0 + added) /\
    added == 4.
Proof.
  destruct (snd (_machine_stats (host_answers 25 3145728 2097152)
                   (Ok []) after_first_fold))
    as [readouts|e] eqn:S; [|vm_compute in S; discriminate].
  destruct (C4_rate_of_cumulative_counter (host_answers 25 3145728 2097152)
              (Ok []) 1001 1001 after_first_fold
              (fst (_update_readouts (host_answers 25 3145728 2097152)
                      (Ok []) 1001 1001 after_first_fold))
              readouts "network_tx_mbs" (3145728 # 1048576))
    as [added (Hacc & Hprev & _)].
  - exact S.
  - vm_compute; reflexivity.
  - reflexivity.
  - vm_compute in S. injection S as <-. reflexivity.
  - exists added. split; [exact Hacc|].
    rewrite (Hprev (1048576 # 1048576)) by (vm_compute; reflexivity).
    vm_compute; reflexivity.
Defined.

(** ** Invariants along the daemon loop *)

(** A property of the daemon state kept by a fold attempt, by a completed
    report boundary and by the opening of a window holds along every run. *)
Lemma daemon_preserves (P : daemon -> Prop) :
  (forall a q t1 t2 d, P d -> P (sample_tick a q t1 t2 d)) ->
  (forall b d d' r, P d -> report_boundary b d = Ok (d', r) -> P d') ->
  (forall t d, P d -> P (reopen t d)) ->
  forall evs d th out d',
    P d -> _daemon evs d = Some (th, out) -> thread_daemon th = Some d' -> P d'.
Proof.
  intros Hs Hr Ho evs.
  induction evs as [|ev rest IH]; intros d th out d' HP Hrun Hth; simpl in Hrun.
  - injection Hrun as <- _. simpl in Hth. now injection Hth as <-.
  - destruct (daemon_step ev d) as [[th1 out1]|] eqn:Estep; [|discriminate].
    assert (Hd1 : forall d1, thread_daemon th1 = Some d1 -> P d1).
    { intros d1 Hd1. destruct ev as [t60 a q t117 t118|t60 t72 tb it t58|t60];
        simpl in Estep; destruct (window_open _ d); try discriminate.
      - injection Estep as <- _. simpl in Hd1. injection Hd1 as <-. now apply Hs.
      - destruct (report_boundary _ d) as [[d2 r]|e] eqn:Eb.
        + injection Estep as <- _. simpl in Hd1. injection Hd1 as <-.
          apply Ho. eapply Hr; eauto.
        + injection Estep as <- _. discriminate.
      - injection Estep as <- _. simpl in Hd1. now injection Hd1 as <-. }
    destruct th1 as [d1|d1|e].
    + destruct (_daemon rest d1) as [[th2 out2]|] eqn:Erest; [|discriminate].
      injection Hrun as <- _. exact (IH d1 th2 out2 d' (Hd1 d1 eq_refl) Erest Hth).
    + destruct rest; [|discriminate]. injection Hrun as <- _. now apply Hd1.
    + destruct rest; [|discriminate]. injection Hrun as <- _. discriminate.
Qed.

(** *** The accelerator switch *)

Lemma machine_stats_gpu_inv a q m :
  gpu_inv m -> gpu_inv (fst (_machine_stats a q m)).
Proof.
  unfold gpu_inv, _machine_stats. intros H.
  destruct (host_stats a) as [stats|]; [|exact H].
  destruct (_gpustat m) eqn:Eg; [|simpl; now rewrite Eg].
  destruct (gpu_try q stats) as [stats' [u|x]]; [simpl; now rewrite Eg|].
  destruct (3 <=? _gpustat_fail m + 1)%Z eqn:E3; simpl; [reflexivity|].
  apply Z.leb_gt in E3. lia.
Qed.

Lemma machine_stats_gpu_stays_off a q m :
  _gpustat m = false -> _gpustat (fst (_machine_stats a q m)) = false.
Proof. intros H. now rewrite machine_stats_gpu_off. Qed.

Lemma update_readouts_gpu a q t1 t2 m :
  _gpustat_fail (fst (_update_readouts a q t1 t2 m))
    = _gpustat_fail (fst (_machine_stats a q m)) /\
  _gpustat (fst (_update_readouts a q t1 t2 m))
    = _gpustat (fst (_machine_stats a q m)).
Proof.
  unfold _update_readouts.
  destruct (_machine_stats a q m) as [m1 [readouts|e]]; simpl; [|auto].
  destruct (fold_readouts _ _ _ _) as [acc [u|e]]; simpl; auto.
Qed.

Lemma report_boundary_gpu b d d' r :
  report_boundary b d = Ok (d', r) ->
  _gpustat_fail (self d') = _gpustat_fail (self d) /\
  _gpustat (self d') = _gpustat (self d).
Proof.
  unfold report_boundary.
  destruct (_get_average_readouts (self d)) as [avg|]; [simpl|discriminate].
  assert (Hm : forall s fb,
             _gpustat_fail (fst (decide_fallback b s (self d) fb)) = _gpustat_fail (self d) /\
             _gpustat (fst (decide_fallback b s (self d) fb)) = _gpustat (self d)).
  { intros s fb. unfold decide_fallback.
    destruct fb; [simpl; auto|].
    destruct (tensorboard_used b); [simpl; auto|].
    destruct (Qle_bool _ _); simpl; auto. }
  match goal with |- context [decide_fallback b ?s (self d) ?fb] =>
    specialize (Hm s fb); destruct (decide_fallback b s (self d) fb) as [m fb'] end.
  simpl in Hm.
  destruct (select_iteration b _) as [[it l']|]; [simpl|discriminate].
  destruct (fallback_to_sec_as_iterations l'); intros [= <- _]; simpl; exact Hm.
Qed.

Lemma daemon_gpu_inv evs d th out d' :
  gpu_inv (self d) -> _daemon evs d = Some (th, out) ->
  thread_daemon th = Some d' -> gpu_inv (self d').
Proof.
  apply (daemon_preserves (fun d => gpu_inv (self d))).
  - intros a q t1 t2 d0 H. unfold sample_tick, gpu_inv. simpl.
    destruct (update_readouts_gpu a q t1 t2 (self d0)) as [-> ->].
    now apply machine_stats_gpu_inv.
  - intros b d0 d1 r H Hb. unfold gpu_inv.
    destruct (report_boundary_gpu b d0 d1 r Hb) as [-> ->]. exact H.
  - intros t d0 H. exact H.
Qed.

Lemma daemon_gpu_stays_off evs d th out d' :
  _gpustat (self d) = false -> _daemon evs d = Some (th, out) ->
  thread_daemon th = Some d' -> _gpustat (self d') = false.
Proof.
  apply (daemon_preserves (fun d => _gpustat (self d) = false)).
  - intros a q t1 t2 d0 H. unfold sample_tick. simpl.
    destruct (update_readouts_gpu a q t1 t2 (self d0)) as [_ ->].
    now apply machine_stats_gpu_stays_off.
  - intros b d0 d1 r H Hb.
    destruct (report_boundary_gpu b d0 d1 r Hb) as [_ ->]. exact H.
  - intros t d0 H. exact H.
Qed.

Lemma init_gpu_inv gpustat now sf rf fr w : gpu_inv (__init__ gpustat now sf rf fr w).
Proof. unfold gpu_inv, __init__. destruct gpustat; simpl; lia. Qed.

(** C7. In every state the daemon reaches from [__init__], a failure counter
    of 3 or more means that accelerator querying is switched off; from then
    on it stays off along every continuation of the run, and every snapshot
    taken there is without a gpu-prefixed key and leaves it off, whatever
    the provider would now answer. *)
Theorem C7_gpu_disabled_for_good gpustat now sf rf fr w t58 evs th out d :
  _daemon evs (start t58 (__init__ gpustat now sf rf fr w)) = Some (th, out) ->
  thread_daemon th = Some d ->
  (3 <= _gpustat_fail (self d))%Z ->
  _gpustat (self d) = false /\
  forall evs' th' out' d',
    _daemon evs' d = Some (th', out') ->
    thread_daemon th' = Some d' ->
    _gpustat (self d') = false /\
    forall a q,
      _gpustat (fst (_machine_stats a q (self d'))) = false /\
      forall stats k,
        snd (_machine_stats a q (self d')) = Ok stats ->
        In k (Dict.keys stats) -> startswith k "gpu_" = false.
Proof.
  intros Hrun Hth H3.
  assert (Hoff : _gpustat (self d) = false).
  { apply (daemon_gpu_inv evs (start t58 (__init__ gpustat now sf rf fr w)) th out d
             (init_gpu_inv gpustat now sf rf fr w) Hrun Hth).
    exact H3. }
  split; [exact Hoff|].
  intros evs' th' out' d' Hrun' Hth'.
  assert (Hoff' : _gpustat (self d') = false)
    by exact (daemon_gpu_stays_off evs' d th' out' d' Hoff Hrun' Hth').
  split; [exact Hoff'|].
  intros a q. split; [now apply machine_stats_gpu_stays_off|].
  intros stats k Hs. rewrite machine_stats_gpu_off in Hs by exact Hoff'.
  simpl in Hs. now apply (host_stats_no_gpu_key a).
Qed.

Lemma C7_witness :
  exists d,
    _daemon three_gpu_failures (start 1000 default_monitor) = Some (Running d, []) /\
    _gpustat_fail (self d) = 3%Z /\
    _gpustat (self d) = false /\
    forall stats k,
      snd (_machine_stats (host_answers 25 0 0) (Ok [gpu_healthy]) (self d)) = Ok stats ->
      In k (Dict.keys stats) -> startswith k "gpu_" = false.
Proof.
  eexists. split; [vm_compute; reflexivity|]. split; [reflexivity|].
  match goal with |- _ (self ?d0) = false /\ _ =>
    destruct (C7_gpu_disabled_for_good true 1000 2 30 None 180 1000
                three_gpu_failures (Running d0) [] d0)
      as [Hoff Hnext]
  end.
  - vm_compute; reflexivity.
  - reflexivity.
  - simpl. lia.
  - split; [exact Hoff|].
    intros stats k.
    match goal with |- context [self ?d0] =>
      destruct (Hnext [] (Running d0) [] d0 eq_refl eq_refl) as [_ Hsnap] end.
    destruct (Hsnap (host_answers 25 0 0) (Ok [gpu_healthy])) as [_ Hkeys].
    apply Hkeys.
Defined.

(** ** The report boundary *)

Lemma decide_fallback_sampling_state b s m fb :
  let m' := fst (decide_fallback b s m fb) in
  _readouts m' = _readouts m /\ _num_readouts m' = _num_readouts m /\
  _previous_readouts m' = _previous_readouts m /\
  _previous_readouts_ts m' = _previous_readouts_ts m.
Proof.
  unfold decide_fallback. destruct fb; [simpl; auto|].
  destruct (tensorboard_used b); [simpl; auto|].
  destruct (Qle_bool _ _); simpl; auto.
Qed.

(** What [select_iteration] does to the mode and to the seconds. *)
Lemma select_iteration_locals b l it l' :
  select_iteration b l = Ok (it, l') ->
  seconds_since_started l' = seconds_since_started l /\
  reported l' = reported l /\
  last_report l' = last_report l /\
  match fallback_to_sec_as_iterations l with
  | Some true => fallback_to_sec_as_iterations l' = Some true /\ it = seconds_since_started l
  | Some false => fallback_to_sec_as_iterations l' = Some false
  | None => fallback_to_sec_as_iterations l' = None \/
            fallback_to_sec_as_iterations l' = Some false
  end.
Proof.
  unfold select_iteration.
  destruct (fallback_to_sec_as_iterations l) as [[|]|] eqn:Ef.
  - intros [= <- <-]. rewrite Ef. auto.
  - destruct (get_last_iteration b =? last_iteration l)%Z.
    + destruct (last_iteration_interval l) as [iv|].
      * destruct (extrapolate _ _ _) as [x|]; [simpl|discriminate].
        intros [= <- <-]. simpl. auto.
      * intros [= <- <-]. simpl. auto.
    + intros [= <- <-]. simpl. auto.
  - destruct (get_last_iteration b =? last_iteration l)%Z.
    + destruct (last_iteration_interval l) as [iv|].
      * destruct (extrapolate _ _ _) as [x|]; [simpl|discriminate].
        intros [= <- <-]. simpl. auto.
      * intros [= <- <-]. simpl. auto.
    + intros [= <- <-]. simpl. auto.
Qed.

(** The pieces of a report boundary that completes. *)
Lemma report_boundary_inv b d d' r :
  report_boundary b d = Ok (d', r) ->
  let seconds := (seconds_since_started (locals d) + py_round (elapsed b))%Z in
  let dec := decide_fallback b seconds (self d)
               (fallback_to_sec_as_iterations (locals d)) in
  exists average_readouts,
    _get_average_readouts (self d) = Ok average_readouts /\
    select_iteration b (at_boundary (locals d) seconds (snd dec))
      = Ok (report_iteration r, locals d') /\
    match fallback_to_sec_as_iterations (locals d') with
    | Some _ => self d' = _clear_readouts (fst dec) /\
                scalars r = emit (report_iteration r) average_readouts
    | None => self d' = fst dec /\ scalars r = []
    end.
Proof.
  intros H seconds dec. unfold report_boundary in H.
  destruct (_get_average_readouts (self d)) as [avg|]; [simpl in H|discriminate].
  exists avg. split; [reflexivity|].
  fold seconds in H. fold dec in H.
  destruct dec as [m fb]. simpl.
  destruct (select_iteration b _) as [[it l']|]; [simpl in H|discriminate].
  destruct (fallback_to_sec_as_iterations l') eqn:Ef;
    injection H as <- <-; simpl; rewrite Ef; auto.
Qed.

(** What a completed boundary does to the accumulator: emptied when the
    mode is resolved by the end of the boundary, untouched otherwise. *)
Lemma boundary_accumulator b d d' r :
  report_boundary b d = Ok (d', r) ->
  match fallback_to_sec_as_iterations (locals d') with
  | Some _ =>
      _readouts (self d') = Dict.empty /\ _num_readouts (self d') = 0%Z
  | None =>
      _readouts (self d') = _readouts (self d) /\
      _num_readouts (self d') = _num_readouts (self d)
  end.
Proof.
  intros H. apply report_boundary_inv in H as (avg & _ & _ & H).
  destruct (fallback_to_sec_as_iterations (locals d')).
  - destruct H as [-> _]. simpl. auto.
  - destruct H as [-> _].
    match goal with |- context [decide_fallback ?b ?s ?m ?fb] =>
      destruct (decide_fallback_sampling_state b s m fb) as (-> & -> & _) end.
    auto.
Qed.

(** C1 (as the code has it). A report boundary that completes resets the
    accumulator, sums and fold count, exactly when the fallback mode is
    resolved by the end of that boundary; while the mode is still
    unresolved the accumulator is left as it was and keeps growing. *)
Theorem C1_accumulator_reset_when_resolved b d d' r :
  report_boundary b d = Ok (d', r) ->
  (fallback_to_sec_as_iterations (locals d') <> None ->
   _readouts (self d') = Dict.empty /\ _num_readouts (self d') = 0%Z) /\
  (fallback_to_sec_as_iterations (locals d') = None ->
   _readouts (self d') = _readouts (self d) /\
   _num_readouts (self d') = _num_readouts (self d)).
Proof.
  intros H. pose proof (boundary_accumulator b d d' r H) as Hacc.
  destruct (fallback_to_sec_as_iterations (locals d')).
  - split; [intros _; exact Hacc|discriminate].
  - split; [congruence|intros _; exact Hacc].
Qed.

Lemma C1_witness :
  exists d' r,
    report_boundary boundary_external after_first_window = Ok (d', r) /\
    _readouts (self d') = Dict.empty /\ _num_readouts (self d') = 0%Z.
Proof.
  destruct (report_boundary boundary_external after_first_window)
    as [[d' r]|e] eqn:E; [|vm_compute in E; discriminate].
  exists d', r. split; [reflexivity|].
  destruct (C1_accumulator_reset_when_resolved _ _ _ _ E) as [H _].
  apply H. vm_compute in E. injection E as <- _. discriminate.
Defined.

(** C1, as stated, fails: after the two folds of the first window, a
    boundary at which the mode stays unresolved (no tensorboard, grace
    period not over, the task still at iteration 0) emits nothing and
    leaves the sums of two folds in the accumulator. *)
Lemma C1_counterexample :
  exists d r,
    _daemon first_window_unresolved (start 1000 one_second_monitor)
      = Some (Running d, [r]) /\
    fallback_to_sec_as_iterations (locals d) = None /\
    scalars r = [] /\
    _num_readouts (self d) = 2%Z /\
    Dict.keys (_readouts (self d)) = host_keys /\
    ~ (_readouts (self d) = Dict.empty /\ _num_readouts (self d) = 0%Z).
Proof.
  do 2 eexists. split; [vm_compute; reflexivity|].
  repeat (split; [reflexivity|]). intros [H _]. discriminate.
Qed.

(** *** The stalled counter *)

Lemma inject_Z_pos z : (0 < z)%Z -> 0 < inject_Z z.
Proof. intros H. unfold Qlt. simpl. lia. Qed.






(** *** The fallback mode *)

Lemma emit_iteration it avg : Forall (fun s => iteration s = it) (emit it avg).
Proof. unfold emit. apply Forall_forall. intros s Hs. apply in_map_iff in Hs as [kv [<- _]]. reflexivity. Qed.

(** A completed boundary keeps a resolved mode; in seconds mode it reports
    at the new [seconds_since_started]. *)
Lemma report_boundary_mode b d d' r mode :
  report_boundary b d = Ok (d', r) ->
  fallback_to_sec_as_iterations (locals d) = Some mode ->
  fallback_to_sec_as_iterations (locals d') = Some mode /\
  seconds_since_started (locals d')
    = (seconds_since_started (locals d) + py_round (elapsed b))%Z /\
  (mode = true ->
   report_iteration r = seconds_since_started (locals d') /\
   Forall (fun s => iteration s = seconds_since_started (locals d')) (scalars r)).
Proof.
  intros H Hmode. apply report_boundary_inv in H as (avg & _ & Hsel & Hemit).
  rewrite Hmode in Hsel. simpl snd in Hsel.
  apply select_iteration_locals in Hsel as (Hsec & _ & _ & Hfb). simpl in Hsec, Hfb.
  destruct mode.
  - destruct Hfb as [Hfb Hit]. rewrite Hfb in Hemit. destruct Hemit as [_ Hemit].
    split; [exact Hfb|]. split; [exact Hsec|]. intros _.
    split; [congruence|].
    rewrite Hemit, Hsec, <- Hit. apply emit_iteration.
  - split; [exact Hfb|]. split; [exact Hsec|]. discriminate.
Qed.

Lemma daemon_mode_frozen evs d th out d' mode :
  fallback_to_sec_as_iterations (locals d) = Some mode ->
  _daemon evs d = Some (th, out) -> thread_daemon th = Some d' ->
  fallback_to_sec_as_iterations (locals d') = Some mode.
Proof.
  apply (daemon_preserves
           (fun d => fallback_to_sec_as_iterations (locals d) = Some mode)).
  - intros a q t1 t2 d0 H. exact H.
  - intros b d0 d1 r H Hb. now apply (report_boundary_mode b d0 d1 r mode Hb).
  - intros t d0 H. exact H.
Qed.

(** C5. Once the fallback mode is resolved it is the same in every later
    state of the run. For two boundaries b1 before b2, with [d1] the state
    b1 leaves, [evs] what happens in between and [d] the state b2 starts
    from: the mode after b2 is the mode after b1; if that is seconds mode,
    b2 reports at [seconds_since_started]; if it is external mode, seconds
    mode is not active after b2. *)
Theorem C5_resolved_mode_is_frozen d1 mode evs th out d :
  fallback_to_sec_as_iterations (locals d1) = Some mode ->
  _daemon evs d1 = Some (th, out) ->
  thread_daemon th = Some d ->
  fallback_to_sec_as_iterations (locals d) = Some mode /\
  forall b d2 r,
    report_boundary b d = Ok (d2, r) ->
    fallback_to_sec_as_iterations (locals d2) = Some mode /\
    (mode = true ->
     report_iteration r = seconds_since_started (locals d2) /\
     Forall (fun s => iteration s = seconds_since_started (locals d2)) (scalars r)) /\
    (mode = false ->
     fallback_to_sec_as_iterations (locals d2) <> Some true).
Proof.
  intros Hmode Hrun Hth.
  pose proof (daemon_mode_frozen evs d1 th out d mode Hmode Hrun Hth) as Hd.
  split; [exact Hd|].
  intros b d2 r Hb.
  destruct (report_boundary_mode b d d2 r mode Hb Hd) as (H2 & _ & Hsec).
  repeat split; auto; try (now apply Hsec).
  intros -> E. congruence.
Qed.

Lemma C5_witness :
  exists d2 r,
    report_boundary boundary_30s seconds_mode_daemon = Ok (d2, r) /\
    fallback_to_sec_as_iterations (locals d2) = Some true /\
    report_iteration r = 210%Z.
Proof.
  destruct (report_boundary boundary_30s seconds_mode_daemon) as [[d2 r]|e] eqn:E;
    [|vm_compute in E; discriminate].
  exists d2, r. split; [reflexivity|].
  destruct (C5_resolved_mode_is_frozen seconds_mode_daemon true []
              (Running seconds_mode_daemon) [] seconds_mode_daemon
              eq_refl eq_refl eq_refl) as [_ H].
  destruct (H boundary_30s d2 r E) as (Hm & Hs & _).
  split; [exact Hm|].
  destruct (Hs eq_refl) as [-> _].
  vm_compute in E. injection E as <- _. reflexivity.
Defined.

(** *** Seconds as iterations *)

Lemma py_round_pos x : (0 < py_round x)%Z <-> 1 # 2 < x.
Proof.
  unfold py_round.
  pose proof (Qfloor_le x) as Hlo. pose proof (Qlt_floor x) as Hhi.
  set (f := Qfloor x) in *.
  rewrite inject_Z_plus in Hhi.
  destruct (Qcompare (x - inject_Z f) (1 # 2)) eqn:E.
  - apply Qeq_alt in E.
    assert (Hx : x == inject_Z f + (1 # 2)) by (rewrite <- E; ring).
    rewrite Hx. clear E Hlo Hhi Hx.
    destruct (Z.even f) eqn:Ev.
    + split; intros H.
      * rewrite <- (Qplus_0_l (1 # 2)) at 1. apply Qplus_lt_l.
        change 0 with (inject_Z 0). now rewrite <- Zlt_Qlt.
      * rewrite <- (Qplus_0_l (1 # 2)) in H at 1. apply Qplus_lt_l in H.
        change 0 with (inject_Z 0) in H. now rewrite <- Zlt_Qlt in H.
    + assert (f <> 0)%Z by (intros ->; discriminate).
      split; intros H0.
      * rewrite <- (Qplus_0_l (1 # 2)) at 1. apply Qplus_lt_l.
        change 0 with (inject_Z 0). rewrite <- Zlt_Qlt. lia.
      * rewrite <- (Qplus_0_l (1 # 2)) in H0 at 1. apply Qplus_lt_l in H0.
        change 0 with (inject_Z 0) in H0. rewrite <- Zlt_Qlt in H0. lia.
  - apply Qlt_alt in E.
    split; intros H.
    + apply Qlt_le_trans with (inject_Z 1); [reflexivity|].
      apply Qle_trans with (inject_Z f); [|exact Hlo]. rewrite <- Zle_Qle. lia.
    + assert (0 < inject_Z f).
      { apply Qlt_trans with (x - (1 # 2)).
        - setoid_replace 0 with ((1 # 2) - (1 # 2)) by ring. now apply Qplus_lt_l.
        - apply Qplus_lt_l with (- inject_Z f + (1#2)).
          ring_simplify. ring_simplify in E. exact E. }
      change 0 with (inject_Z 0) in H0. now rewrite <- Zlt_Qlt in H0.
  - apply Qgt_alt in E.
    split; intros H.
    + assert (0 <= f)%Z by lia.
      apply Qlt_le_trans with (x - inject_Z f); [exact E|].
      setoid_replace x with (x - 0) at 2 by ring.
      apply Qplus_le_r. apply Qopp_le_compat.
      change 0 with (inject_Z 0). rewrite <- Zle_Qle. lia.
    + assert (0 < inject_Z f + 1).
      { apply Qlt_trans with x; [|exact Hhi].
        apply Qlt_trans with (1 # 2); [reflexivity|exact H]. }
      change 1 with (inject_Z 1) in H0. rewrite <- inject_Z_plus in H0.
      change 0 with (inject_Z 0) in H0. now rewrite <- Zlt_Qlt in H0.
Qed.

(** Sample ticks alone leave the locals of the daemon alone. *)
Lemma samples_keep_locals evs :
  forall d th out d',
    forallb is_sample evs = true ->
    _daemon evs d = Some (th, out) -> thread_daemon th = Some d' ->
    locals d' = locals d.
Proof.
  induction evs as [|ev rest IH]; intros d th out d' Hs Hrun Hth; simpl in Hrun.
  - injection Hrun as <- _. simpl in Hth. now injection Hth as <-.
  - simpl in Hs. apply andb_prop in Hs as [Hev Hrest].
    destruct ev as [t60 a q t117 t118| |]; try discriminate. simpl in Hrun.
    destruct (window_open t60 d); [|discriminate].
    destruct (_daemon rest _) as [[th2 out2]|] eqn:E; [|discriminate].
    injection Hrun as <- _.
    now rewrite (IH _ _ _ _ Hrest E Hth).
Qed.

(** C6 (as the code has it). In seconds mode the iteration reported at a
    boundary is the one reported at the previous boundary plus the rounded
    wall seconds elapsed since the window was opened; it is strictly greater
    exactly when more than half a second has elapsed. [d1] is the state the
    previous boundary leaves, [t58] the time at which the next window opens
    and [evs] the sample ticks of that window. *)
Theorem C6_seconds_mode_step b1 d0 d1 r1 t58 evs th out d b2 d2 r2 :
  report_boundary b1 d0 = Ok (d1, r1) ->
  fallback_to_sec_as_iterations (locals d1) = Some true ->
  forallb is_sample evs = true ->
  _daemon evs (reopen t58 d1) = Some (th, out) ->
  thread_daemon th = Some d ->
  report_boundary b2 d = Ok (d2, r2) ->
  report_iteration r2 = (report_iteration r1 + py_round (elapsed b2))%Z /\
  ((report_iteration r1 < report_iteration r2)%Z <-> 1 # 2 < elapsed b2).
Proof.
  intros Hb1 Hmode Hs Hrun Hth Hb2.
  assert (Hit1 : report_iteration r1 = seconds_since_started (locals d1)).
  { apply report_boundary_inv in Hb1 as (avg & _ & Hsel & _).
    apply select_iteration_locals in Hsel as (Hsec & _ & _ & Hfb).
    simpl fallback_to_sec_as_iterations in Hfb.
    destruct (snd (decide_fallback _ _ _ _)) as [[|]|].
    - destruct Hfb as [_ ->]. now rewrite Hsec.
    - congruence.
    - destruct Hfb; congruence. }
  pose proof (samples_keep_locals evs _ _ _ _ Hs Hrun Hth) as Hl.
  assert (Hmode' : fallback_to_sec_as_iterations (locals d) = Some true)
    by (rewrite Hl; exact Hmode).
  destruct (report_boundary_mode b2 d d2 r2 true Hb2 Hmode') as (_ & Hsec & Hit2).
  destruct (Hit2 eq_refl) as [Hit _].
  assert (E : report_iteration r2 = (report_iteration r1 + py_round (elapsed b2))%Z).
  { rewrite Hit, Hsec, Hl, Hit1. reflexivity. }
  split; [exact E|].
  rewrite <- py_round_pos, E. lia.
Qed.

Lemma C6_witness :
  exists d1 r1 d2 r2,
    report_boundary boundary_30s seconds_mode_daemon = Ok (d1, r1) /\
    report_boundary boundary_30s (reopen 1210 d1) = Ok (d2, r2) /\
    report_iteration r2 = (report_iteration r1 + 30)%Z /\
    (report_iteration r1 < report_iteration r2)%Z.
Proof.
  destruct (report_boundary boundary_30s seconds_mode_daemon) as [[d1 r1]|e] eqn:E1;
    [|vm_compute in E1; discriminate].
  destruct (report_boundary boundary_30s (reopen 1210 d1)) as [[d2 r2]|e] eqn:E2;
    [|vm_compute in E1; injection E1 as <- _; vm_compute in E2; discriminate].
  exists d1, r1, d2, r2. split; [reflexivity|]. split; [exact E2|].
  destruct (C6_seconds_mode_step boundary_30s seconds_mode_daemon d1 r1 1210 []
              (Running (reopen 1210 d1)) [] (reopen 1210 d1) boundary_30s d2 r2)
    as [Hstep Hlt]; try reflexivity; try assumption.
  - vm_compute in E1. injection E1 as <- _. reflexivity.
  - split; [exact Hstep|]. apply Hlt. reflexivity.
Defined.

(** C6, as stated, fails: with a report interval of a quarter of a second
    and ten ticks a second, each window ends 0.3 s after it was opened,
    which rounds to 0 seconds; the daemon is in seconds mode from the first
    boundary on and reports both boundaries at iteration 0. *)
Lemma C6_counterexample :
  exists d r1 r2,
    _daemon quarter_second_run (start 1000 quarter_second_monitor)
      = Some (Running d, [r1; r2]) /\
    fallback_to_sec_as_iterations (locals d) = Some true /\
    scalars r1 <> [] /\ scalars r2 <> [] /\
    report_iteration r1 = 0%Z /\
    report_iteration r2 = 0%Z /\
    ~ (report_iteration r1 < report_iteration r2)%Z.
Proof.
  do 3 eexists. split; [vm_compute; reflexivity|].
  split; [reflexivity|]. split; [discriminate|]. split; [discriminate|].
  split; [reflexivity|]. split; [reflexivity|]. simpl. lia.
Qed.

(** *** Averages *)

Lemma average_items_ok items n avg :
  average_items items n = Ok avg ->
  avg = map (fun kv => (fst kv, snd kv / inject_Z n)) items /\
  (items <> [] -> n <> 0%Z).
Proof.
  revert avg. induction items as [|[k v] rest IH]; intros avg; simpl.
  - intros [= <-]. split; [reflexivity|congruence].
  - destruct (py_div v (inject_Z n)) as [a|] eqn:Ea; [simpl|discriminate].
    destruct (average_items rest n) as [dd|]; [simpl|discriminate].
    intros [= <-]. apply py_div_ok in Ea as [Hn ->].
    destruct (IH dd eq_refl) as [-> _]. split; [reflexivity|].
    intros _ ->. apply Hn. reflexivity.
Qed.

(** C8 (as the code has it). At a report boundary that completes, the
    average of every accumulated key is its sum divided by the fold count,
    and the scalar emitted for it, once the mode is resolved, is that
    average rounded to three decimals; when the fold count is 0, no scalar
    is emitted and the accumulator is empty, with count 0, afterwards. *)
Theorem C8_emitted_averages b d d' r :
  report_boundary b d = Ok (d', r) ->
  _get_average_readouts (self d)
    = Ok (map (fun kv => (fst kv, snd kv / inject_Z (_num_readouts (self d))))
              (_readouts (self d))) /\
  scalars r
    = match fallback_to_sec_as_iterations (locals d') with
      | Some _ =>
          map (fun kv =>
                 {| title := if startswith (fst kv) "gpu_"
                             then _title_gpu else _title_machine;
                    series := fst kv;
                    iteration := report_iteration r;
                    value := round3 (snd kv / inject_Z (_num_readouts (self d))) |})
              (_readouts (self d))
      | None => []
      end /\
  (_num_readouts (self d) = 0%Z ->
   scalars r = [] /\
   _readouts (self d') = Dict.empty /\ _num_readouts (self d') = 0%Z).
Proof.
  intros H.
  pose proof (boundary_accumulator b d d' r H) as Hreset.
  apply report_boundary_inv in H as (avg & Havg & _ & Hemit).
  pose proof Havg as Havg'. unfold _get_average_readouts in Havg'.
  apply average_items_ok in Havg' as [-> Hn].
  assert (Hscalars :
            scalars r
            = match fallback_to_sec_as_iterations (locals d') with
              | Some _ =>
                  map (fun kv =>
                         {| title := if startswith (fst kv) "gpu_"
                                     then _title_gpu else _title_machine;
                            series := fst kv;
                            iteration := report_iteration r;
                            value := round3 (snd kv / inject_Z (_num_readouts (self d))) |})
                      (_readouts (self d))
              | None => []
              end).
  { destruct (fallback_to_sec_as_iterations (locals d')).
    - destruct Hemit as [_ ->]. unfold emit. rewrite map_map. reflexivity.
    - now destruct Hemit as [_ ->]. }
  split; [exact Havg|]. split; [exact Hscalars|].
  intros H0.
  assert (Hempty : _readouts (self d) = [])
    by (destruct (_readouts (self d)); [reflexivity|exfalso; apply Hn; congruence]).
  rewrite Hscalars, Hempty.
  destruct (fallback_to_sec_as_iterations (locals d')); simpl.
  - destruct Hreset as [-> ->]. auto.
  - destruct Hreset as [-> ->]. auto.
Qed.

Lemma C8_witness :
  exists d' r,
    report_boundary boundary_external after_first_window = Ok (d', r) /\
    map series (scalars r) = host_keys /\
    map value (scalars r)
      = map (fun kv => round3 (snd kv / 2)) (_readouts (self after_first_window)).
Proof.
  destruct (report_boundary boundary_external after_first_window)
    as [[d' r]|e] eqn:E; [|vm_compute in E; discriminate].
  exists d', r. split; [reflexivity|].
  destruct (C8_emitted_averages _ _ _ _ E) as (_ & Hscalars & _).
  assert (F : fallback_to_sec_as_iterations (locals d') = Some false).
  { vm_compute in E. injection E as <- _. reflexivity. }
  rewrite F in Hscalars. rewrite Hscalars, !map_map. split; reflexivity.
Defined.

(** C8, as stated, fails: after three folds whose cpu readings sum to 1, the
    boundary emits 0.333 for [cpu_usage], not 1/3. *)
Lemma C8_counterexample :
  exists d sum d' r s,
    _daemon three_folds (start 1000 three_halves_monitor) = Some (Running d, []) /\
    Dict.get (_readouts (self d)) "cpu_usage" = Some sum /\
    sum == 1 /\
    _num_readouts (self d) = 3%Z /\
    report_boundary boundary_three_halves d = Ok (d', r) /\
    In s (scalars r) /\
    series s = "cpu_usage" /\
    value s == 333 # 1000 /\
    ~ value s == sum / inject_Z (_num_readouts (self d)).
Proof.
  do 5 eexists. split; [vm_compute; reflexivity|].
  split; [vm_compute; reflexivity|]. split; [vm_compute; reflexivity|].
  split; [reflexivity|]. split; [vm_compute; reflexivity|].
  split; [left; reflexivity|]. split; [reflexivity|].
  split; [vm_compute; reflexivity|]. vm_compute. discriminate.
Qed.

(** ** The accumulator and its fold count *)

Lemma init_accumulator_inv gpustat now sf rf fr w :
  accumulator_inv (__init__ gpustat now sf rf fr w).
Proof. unfold accumulator_inv, __init__. destruct gpustat; simpl; split; try lia; tauto. Qed.

Lemma clear_accumulator_inv m : accumulator_inv (_clear_readouts m).
Proof. unfold accumulator_inv. simpl. split; [lia|tauto]. Qed.

Lemma boundary_accumulator_inv b d d' r :
  report_boundary b d = Ok (d', r) ->
  accumulator_inv (self d) -> accumulator_inv (self d').
Proof.
  intros H Hinv. apply boundary_accumulator in H.
  unfold accumulator_inv in *.
  destruct (fallback_to_sec_as_iterations (locals d')); destruct H as [-> ->].
  - split; [lia|tauto].
  - exact Hinv.
Qed.

Lemma fold_readouts_nonempty items prev e acc acc' r :
  items <> [] -> fold_readouts items prev e acc = (acc', Ok r) -> acc' <> [].
Proof.
  revert acc. induction items as [|[k v] rest IH]; intros acc Hne H; [congruence|].
  simpl in H. destruct (fold_value prev e k v) as [x|]; [|discriminate].
  destruct rest as [|kv rest'].
  - simpl in H. injection H as <- _. apply set_nonempty.
  - eapply IH; [discriminate|exact H].
Qed.

Lemma fold_readouts_total items prev e acc :
  ~ e == 0 -> exists acc', fold_readouts items prev e acc = (acc', Ok tt).
Proof.
  intros He. revert acc. induction items as [|[k v] rest IH]; intros acc; simpl.
  - now exists acc.
  - unfold fold_value, py_div.
    destruct (Qeq_bool e 0) eqn:E; [apply Qeq_bool_iff in E; contradiction|].
    destruct (endswith k "_mbs"); apply IH.
Qed.

Lemma machine_stats_nonempty a q m m' stats :
  _machine_stats a q m = (m', Ok stats) -> stats <> [].
Proof.
  intros H Hempty. subst stats.
  unfold _machine_stats in H.
  destruct (host_stats a) as [h|] eqn:Eh; [|discriminate].
  pose proof (host_stats_has_host_keys a h "cpu_usage" Eh (or_introl eq_refl)) as Hin.
  apply get_none_iff in Hin; [exact Hin|]. clear Hin.
  assert (Ht : forall stats' r, gpu_try q h = (stats', r) ->
                                Dict.get stats' "cpu_usage" = Dict.get h "cpu_usage").
  { intros stats' r Ht. now apply (writes_only_gpu_try q h stats' r Ht). }
  destruct (_gpustat m).
  - destruct (gpu_try q h) as [stats' [u|x]] eqn:Et.
    + injection H as _ ->. now rewrite <- (Ht _ _ eq_refl).
    + destruct (3 <=? _gpustat_fail m + 1)%Z; injection H as _ ->;
        now rewrite <- (Ht _ _ eq_refl).
  - injection H as _ ->. reflexivity.
Qed.

(** A fold attempt keeps the invariant unless the two clock readings that
    make [elapsed] coincide. *)
Lemma update_readouts_accumulator_inv a q t1 t2 m :
  ~ t1 - _previous_readouts_ts m == 0 ->
  accumulator_inv m ->
  accumulator_inv (fst (_update_readouts a q t1 t2 m)).
Proof.
  intros He [Hpos Hinv].
  pose proof (machine_stats_sampling_state a q m) as (Hr & Hn & Hp & Hts).
  unfold _update_readouts.
  destruct (_machine_stats a q m) as [m1 [stats|e]] eqn:Em; simpl in *.
  - rewrite Hts.
    destruct (fold_readouts_total stats (_previous_readouts m1) _ (_readouts m1) He)
      as [acc' Hf].
    rewrite Hf. unfold accumulator_inv. simpl. rewrite Hn.
    split; [lia|]. split; [lia|].
    intros Hacc. exfalso.
    exact (fold_readouts_nonempty _ _ _ _ _ _
             (machine_stats_nonempty _ _ _ _ _ Em) Hf Hacc).
  - unfold accumulator_inv. now rewrite Hr, Hn.
Qed.

(** C9 (what the code does at the failing input). On a clock that has not
    advanced since the monitor was built, the first fold stops with
    [ZeroDivisionError] at the first cumulative counter: four sums are
    already in the accumulator and the fold count is still 0. The exception
    is swallowed; at the report boundary that follows,
    [_get_average_readouts] divides by that 0 and the exception ends the
    thread. *)
Theorem C9_zero_elapsed_leaves_sums_without_count :
  exists d,
    _daemon [coarse_clock_fold] (start 1000 coarse_clock_monitor)
      = Some (Running d, []) /\
    _num_readouts (self d) = 0%Z /\
    Dict.keys (_readouts (self d))
      = ["cpu_usage"; "memory_used_gb"; "memory_free_gb"; "disk_free_percent"] /\
    ~ accumulator_inv (self d) /\
    _get_average_readouts (self d) = Raise ZeroDivisionError /\
    _daemon [coarse_clock_fold; coarse_clock_report] (start 1000 coarse_clock_monitor)
      = Some (Died ZeroDivisionError, []).
Proof.
  eexists. split; [vm_compute; reflexivity|].
  split; [reflexivity|]. split; [reflexivity|].
  split; [|split; [vm_compute; reflexivity|vm_compute; reflexivity]].
  intros [_ [H _]]. specialize (H eq_refl). discriminate.
Qed.

(** * Further properties *)

(** ** Rounding *)

(** [round] is a nearest integer. *)
Lemma py_round_near x : Qabs (inject_Z (py_round x) - x) <= 1 # 2.
Proof.
  apply Qabs_Qle_condition. unfold py_round.
  pose proof (Qfloor_le x) as Hlo. pose proof (Qlt_floor x) as Hhi.
  rewrite inject_Z_plus in Hhi. change (inject_Z 1) with 1 in Hhi.
  destruct (Qcompare (x - inject_Z (Qfloor x)) (1 # 2)) eqn:E;
    [apply Qeq_alt in E; destruct (Z.even (Qfloor x))
    |apply Qlt_alt in E|apply Qgt_alt in E];
    rewrite ?inject_Z_plus; change (inject_Z 1) with 1;
    remember (inject_Z (Qfloor x)) as q; clear Heqq; split; lra.
Qed.

(** [round] and [int] leave an integer as it is. *)
Lemma py_round_Z z : py_round (inject_Z z) = z.
Proof.
  unfold py_round. rewrite Qfloor_Z.
  assert (E : Qcompare (inject_Z z - inject_Z z) (1 # 2) = Lt).
  { rewrite <- Qlt_alt. remember (inject_Z z) as q. clear Heqq. lra. }
  now rewrite E.
Qed.

(** [int] of a float that is not negative is its floor. *)
Lemma py_int_nonneg x : 0 <= x -> (0 <= py_int x)%Z /\ inject_Z (py_int x) <= x.
Proof.
  intros H. unfold py_int.
  assert (E : Qle_bool 0 x = true) by now apply Qle_bool_iff.
  rewrite E. split; [|apply Qfloor_le].
  change 0%Z with (Qfloor 0). now apply Qfloor_resp_le.
Qed.

(** Rounding to three decimals moves a value by at most 0.0005. *)
Lemma round3_near v : Qabs (round3 v - v) <= 1 # 2000.
Proof.
  pose proof (py_round_near (v * 1000)) as H.
  apply Qabs_Qle_condition in H. apply Qabs_Qle_condition.
  unfold round3. remember (inject_Z (py_round (v * 1000))) as q. clear Heqq.
  assert (E : q / 1000 == q * (1 # 1000)) by reflexivity.
  rewrite E. split; lra.
Qed.

(** X1. Every scalar a report boundary emits is the average of its metric,
    sum over fold count, up to the rounding to three decimals: the two
    differ by at most 0.0005. *)
Theorem emitted_value_close_to_average b d d' r s :
  report_boundary b d = Ok (d', r) ->
  In s (scalars r) ->
  exists sum,
    In (series s, sum) (_readouts (self d)) /\
    Qabs (value s - sum / inject_Z (_num_readouts (self d))) <= 1 # 2000.
Proof.
  intros H Hs.
  apply report_boundary_inv in H as (avg & Havg & _ & Hemit).
  unfold _get_average_readouts in Havg.
  apply average_items_ok in Havg as [-> _].
  destruct (fallback_to_sec_as_iterations (locals d')).
  - destruct Hemit as [_ Hemit]. rewrite Hemit in Hs. unfold emit in Hs.
    rewrite map_map in Hs. apply in_map_iff in Hs as [[k sum] [<- Hin]].
    exists sum. split; [exact Hin|]. simpl. apply round3_near.
  - destruct Hemit as [_ Hemit]. rewrite Hemit in Hs. contradiction.
Qed.

Lemma emitted_value_close_to_average_witness :
  exists d' r s sum,
    report_boundary boundary_external after_first_window = Ok (d', r) /\
    In s (scalars r) /\
    In (series s, sum) (_readouts (self after_first_window)) /\
    Qabs (value s - sum / 2) <= 1 # 2000.
Proof.
  destruct (report_boundary boundary_external after_first_window)
    as [[d' r]|e] eqn:E; [|vm_compute in E; discriminate].
  destruct (scalars r) as [|s rest] eqn:Es.
  - exfalso. vm_compute in E. injection E as _ Hr. rewrite <- Hr in Es.
    discriminate Es.
  - assert (Hin : In s (scalars r)) by (rewrite Es; now left).
    destruct (emitted_value_close_to_average _ _ _ _ s E Hin) as [sum [Hsum Hnear]].
    exists d', r, s, sum. split; [reflexivity|]. split; [exact Hin|].
    split; [exact Hsum|exact Hnear].
Defined.

(** ** Runs of the daemon *)

(** A run that is still going on composes with what follows. *)
Lemma daemon_app evs1 :
  forall evs2 d d1 out1,
    _daemon evs1 d = Some (Running d1, out1) ->
    _daemon (evs1 ++ evs2) d
    = match _daemon evs2 d1 with
      | Some (th, out2) => Some (th, (out1 ++ out2)%list)
      | None => None
      end.
Proof.
  induction evs1 as [|ev rest IH]; intros evs2 d d1 out1 H; simpl in H.
  - injection H as <- <-. simpl. now destruct (_daemon evs2 d) as [[th out2]|].
  - simpl. destruct (daemon_step ev d) as [[[d2|d2|e] out]|]; try discriminate.
    + destruct (_daemon rest d2) as [[th2 out2]|] eqn:E; [|discriminate].
      injection H as -> <-.
      rewrite (IH evs2 d2 d1 out2 E).
      destruct (_daemon evs2 d1) as [[th3 out3]|]; [|reflexivity].
      now rewrite app_assoc.
    + destruct rest; discriminate.
    + destruct rest; discriminate.
Qed.

(** What a completed boundary does to the counters of the loop. *)
Lemma report_boundary_counts b d d' r :
  report_boundary b d = Ok (d', r) ->
  reported (locals d') = (reported (locals d) + 1)%Z /\
  seconds_since_started (locals d')
    = (seconds_since_started (locals d) + py_round (elapsed b))%Z /\
  last_report (locals d') = last_report (locals d).
Proof.
  intros H. apply report_boundary_inv in H as (avg & _ & Hsel & _).
  apply select_iteration_locals in Hsel as (Hsec & Hrep & Hlast & _).
  simpl in Hsec, Hrep, Hlast. auto.
Qed.

Lemma rounded_sum_near l :
  Qabs (inject_Z (Zsum (map py_round l)) - Qsum l)
  <= inject_Z (Z.of_nat (List.length l)) * (1 # 2).
Proof.
  induction l as [|x l IH].
  - simpl. discriminate.
  - cbn [map Zsum Qsum fold_right List.length]. fold (Zsum (map py_round l)).
    fold (Qsum l). rewrite Nat2Z.inj_succ. unfold Z.succ.
    rewrite !inject_Z_plus. change (inject_Z 1) with 1.
    pose proof (py_round_near x) as Hx.
    apply Qabs_Qle_condition in Hx, IH. apply Qabs_Qle_condition.
    remember (inject_Z (py_round x)) as a. clear Heqa.
    remember (inject_Z (Zsum (map py_round l))) as s. clear Heqs.
    remember (inject_Z (Z.of_nat (List.length l))) as n. clear Heqn.
    remember (Qsum l) as t. clear Heqt.
    split; lra.
Qed.

(** The counters of the loop along a run that no exception ended. *)
Lemma run_counters evs :
  forall d th out d',
    _daemon evs d = Some (th, out) ->
    thread_daemon th = Some d' ->
    List.length out
      = List.length (window_lengths evs (last_report (locals d))) /\
    reported (locals d')
      = (reported (locals d) + Z.of_nat (List.length out))%Z /\
    seconds_since_started (locals d')
      = (seconds_since_started (locals d)
         + Zsum (map py_round
                   (window_lengths evs (last_report (locals d)))))%Z.
Proof.
  induction evs as [|ev rest IH]; intros d th out d' Hrun Hth; simpl in Hrun.
  - injection Hrun as <- <-. simpl in Hth. injection Hth as <-.
    simpl. repeat split; lia.
  - destruct ev as [t60 a q t117 t118|t60 t72 tb it t58|t60]; simpl in Hrun;
      destruct (window_open _ d); try discriminate.
    + destruct (_daemon rest _) as [[th2 out2]|] eqn:E; [|discriminate].
      injection Hrun as <- <-. exact (IH _ _ _ _ E Hth).
    + destruct (report_boundary _ d) as [[d2 r]|e] eqn:Eb.
      * destruct (_daemon rest _) as [[th2 out2]|] eqn:E; [|discriminate].
        injection Hrun as <- <-.
        destruct (report_boundary_counts _ _ _ _ Eb) as (Hrep & Hsec & _).
        simpl in Hsec.
        destruct (IH _ _ _ _ E Hth) as (Hlen & Hr & Hs). simpl in Hlen, Hr, Hs.
        cbn [window_lengths map Zsum fold_right List.length app].
        fold (Zsum (map py_round (window_lengths rest t58))).
        rewrite Hr, Hs, Hrep, Hsec, Hlen. repeat split; lia.
      * destruct rest; [|discriminate]. injection Hrun as <- _. discriminate.
    + destruct rest; [|discriminate]. injection Hrun as <- <-.
      simpl in Hth. injection Hth as <-. simpl. repeat split; lia.
Qed.

(** X2. Along a run that no exception ended, one report is made per closed
    window, [reported] counts them, and [seconds_since_started] grows by the
    sum of the rounded window lengths: it is off the wall time spent in
    those windows by at most half a second per report. *)
Theorem seconds_since_started_is_sum_of_rounded_windows evs d th out d' :
  _daemon evs d = Some (th, out) ->
  thread_daemon th = Some d' ->
  let windows := window_lengths evs (last_report (locals d)) in
  List.length out = List.length windows /\
  reported (locals d') = (reported (locals d) + Z.of_nat (List.length out))%Z /\
  seconds_since_started (locals d')
    = (seconds_since_started (locals d) + Zsum (map py_round windows))%Z /\
  Qabs (inject_Z (seconds_since_started (locals d')
                  - seconds_since_started (locals d))
        - Qsum windows)
    <= inject_Z (Z.of_nat (List.length out)) * (1 # 2).
Proof.
  intros Hrun Hth windows.
  destruct (run_counters evs d th out d'
              Hrun Hth) as (Hlen & Hrep & Hsec).
  fold windows in Hlen, Hsec.
  repeat split; auto.
  rewrite Hsec, Hlen.
  replace (seconds_since_started (locals d) + Zsum (map py_round windows)
           - seconds_since_started (locals d))%Z
    with (Zsum (map py_round windows)) by lia.
  apply rounded_sum_near.
Qed.

Lemma seconds_since_started_is_sum_of_rounded_windows_witness :
  exists d out,
    _daemon stalled_run (start 1000 ten_second_monitor) = Some (Running d, out) /\
    reported (locals d) = 3%Z /\
    seconds_since_started (locals d) = 30%Z.
Proof.
  destruct (_daemon stalled_run (start 1000 ten_second_monitor))
    as [[[d|d|e] out]|] eqn:E; try (vm_compute in E; discriminate).
  exists d, out. split; [reflexivity|].
  destruct (seconds_since_started_is_sum_of_rounded_windows stalled_run
              _ _ _ d E eq_refl) as (Hlen & Hrep & Hsec & _).
  split.
  - rewrite Hrep, Hlen. reflexivity.
  - rewrite Hsec. reflexivity.
Defined.

(** The parameters of the monitor are never written after [__init__]. *)
Lemma update_readouts_config a q t1 t2 m :
  let m' := fst (_update_readouts a q t1 t2 m) in
  _sample_frequency m' = _sample_frequency m /\
  _report_frequency m' = _report_frequency m /\
  _first_report_sec m' = _first_report_sec m /\
  _wait_for_first_iteration m' = _wait_for_first_iteration m.
Proof.
  unfold _update_readouts, _machine_stats.
  destruct (host_stats a) as [h|]; [|simpl; auto].
  destruct (_gpustat m).
  - destruct (gpu_try q h) as [stats' [u|x]].
    + destruct (fold_readouts _ _ _ _) as [acc [u'|e]]; simpl; auto.
    + destruct (3 <=? _gpustat_fail m + 1)%Z;
        destruct (fold_readouts _ _ _ _) as [acc [u'|e]]; simpl; auto.
  - destruct (fold_readouts _ _ _ _) as [acc [u'|e]]; simpl; auto.
Qed.

Lemma report_boundary_config b d d' r :
  report_boundary b d = Ok (d', r) ->
  _sample_frequency (self d') = _sample_frequency (self d) /\
  _report_frequency (self d') = _report_frequency (self d) /\
  _first_report_sec (self d') = _first_report_sec (self d) /\
  _wait_for_first_iteration (self d') = _wait_for_first_iteration (self d).
Proof.
  intros H. apply report_boundary_inv in H as (avg & _ & _ & H).
  assert (Hm : forall s fb,
             let m := fst (decide_fallback b s (self d) fb) in
             _sample_frequency m = _sample_frequency (self d) /\
             _report_frequency m = _report_frequency (self d) /\
             _first_report_sec m = _first_report_sec (self d) /\
             _wait_for_first_iteration m = _wait_for_first_iteration (self d)).
  { intros s fb. unfold decide_fallback. destruct fb; [simpl; auto|].
    destruct (tensorboard_used b); [simpl; auto|].
    destruct (Qle_bool _ _); simpl; auto. }
  destruct (fallback_to_sec_as_iterations (locals d')); destruct H as [-> _];
    [simpl|]; apply Hm.
Qed.

Lemma daemon_config evs d th out d' :
  _daemon evs d = Some (th, out) -> thread_daemon th = Some d' ->
  _report_frequency (self d') = _report_frequency (self d) /\
  _first_report_sec (self d') = _first_report_sec (self d) /\
  _wait_for_first_iteration (self d') = _wait_for_first_iteration (self d).
Proof.
  intros Hrun Hth.
  apply (daemon_preserves
           (fun x => _report_frequency (self x) = _report_frequency (self d) /\
                     _first_report_sec (self x) = _first_report_sec (self d) /\
                     _wait_for_first_iteration (self x)
                     = _wait_for_first_iteration (self d)))
    with (evs := evs) (d := d) (th := th) (out := out); auto.
  - intros a q t1 t2 d0 (H1 & H2 & H3). unfold sample_tick. simpl.
    destruct (update_readouts_config a q t1 t2 (self d0)) as (_ & -> & -> & ->).
    auto.
  - intros b d0 d1 r (H1 & H2 & H3) Hb.
    destruct (report_boundary_config b d0 d1 r Hb) as (_ & -> & -> & ->). auto.
Qed.

(** X3. The window the loop is in is measured against [first_report_sec]
    until the first report is made and against [report_frequency_sec] ever
    after; a [first_report_sec] that is [None] or 0 stands for
    [report_frequency_sec]. *)
Theorem first_window_uses_first_report_sec
  gpustat now sf rf fr w t58 evs th out d :
  _daemon evs (start t58 (__init__ gpustat now sf rf fr w)) = Some (th, out) ->
  thread_daemon th = Some d ->
  current_report_frequency d
  = match out with
    | [] => match fr with
            | Some f => if Qeq_bool f 0 then rf else f
            | None => rf
            end
    | _ :: _ => rf
    end.
Proof.
  intros Hrun Hth.
  destruct (run_counters evs _ _ _ _ Hrun Hth)
    as (_ & Hrep & _).
  destruct (daemon_config evs _ _ _ _ Hrun Hth) as (Hrf & Hfr & _).
  unfold current_report_frequency. rewrite Hrep, Hrf, Hfr.
  simpl reported. destruct out as [|r0 out'].
  - simpl. unfold __init__. now destruct gpustat.
  - assert (E : (0 + Z.of_nat (List.length (r0 :: out')) =? 0)%Z = false)
      by (apply Z.eqb_neq; simpl List.length; lia).
    rewrite E. unfold __init__. now destruct gpustat.
Qed.

Lemma first_window_uses_first_report_sec_witness :
  exists d r,
    _daemon [Sample 1000 (host_answers 25 0 0) (Ok []) 1005 1005;
             Report 1005 1005 true 7 1005]
            (start 1000 (__init__ true 1000 (1 # 5) 30 (Some 5) 180))
      = Some (Running d, [r]) /\
    current_report_frequency (start 1000 (__init__ true 1000 (1 # 5) 30 (Some 5) 180))
      = 5 /\
    current_report_frequency d = 30.
Proof.
  destruct (_daemon _ _) as [[[d|d|e] out]|] eqn:E; try (vm_compute in E; discriminate).
  destruct out as [|r [|r' out']]; try (vm_compute in E; discriminate).
  exists d, r. split; [reflexivity|]. split.
  - exact (first_window_uses_first_report_sec true 1000 (1 # 5) 30 (Some 5) 180
             1000 [] (Running _) [] _ eq_refl eq_refl).
  - exact (first_window_uses_first_report_sec true 1000 (1 # 5) 30 (Some 5) 180
             1000 _ (Running d) [r] d E eq_refl).
Defined.

(** ** Resolving the fallback mode *)

Lemma decide_fallback_console b s m fb :
  console (fst (decide_fallback b s m fb))
  = match fb with
    | None =>
        if negb (tensorboard_used b) && Qle_bool (_wait_for_first_iteration m) (inject_Z s)
        then (console m ++ [msg_fallback])%list
        else console m
    | Some _ => console m
    end.
Proof.
  unfold decide_fallback. destruct fb; [reflexivity|].
  destruct (tensorboard_used b); [reflexivity|].
  now destruct (Qle_bool _ _).
Qed.

Lemma report_boundary_console b d d' r :
  report_boundary b d = Ok (d', r) ->
  console (self d')
  = console (fst (decide_fallback b
                    (seconds_since_started (locals d) + py_round (elapsed b))%Z
                    (self d) (fallback_to_sec_as_iterations (locals d)))).
Proof.
  intros H. apply report_boundary_inv in H as (avg & _ & _ & H).
  destruct (fallback_to_sec_as_iterations (locals d')); destruct H as [-> _];
    reflexivity.
Qed.

(** X4. The boundary at which the mode is still unresolved settles it as
    follows: external mode if tensorboard is in use; otherwise seconds mode,
    with one line on the console, if [seconds_since_started] has reached the
    grace period; otherwise external mode if the task's iteration differs
    from [last_iteration], and unresolved again if it does not. *)
Theorem unresolved_boundary_decision b d d' r :
  report_boundary b d = Ok (d', r) ->
  fallback_to_sec_as_iterations (locals d) = None ->
  let seconds := (seconds_since_started (locals d) + py_round (elapsed b))%Z in
  let grace_over :=
    Qle_bool (_wait_for_first_iteration (self d)) (inject_Z seconds) in
  fallback_to_sec_as_iterations (locals d')
  = (if tensorboard_used b then Some false
     else if grace_over then Some true
     else if (get_last_iteration b =? last_iteration (locals d))%Z then None
     else Some false) /\
  console (self d')
  = (if negb (tensorboard_used b) && grace_over
     then (console (self d) ++ [msg_fallback])%list
     else console (self d)).
Proof.
  intros H Hnone seconds grace_over.
  pose proof (report_boundary_console b d d' r H) as Hc.
  rewrite decide_fallback_console, Hnone in Hc. fold seconds grace_over in Hc.
  split; [|exact Hc].
  apply report_boundary_inv in H as (avg & _ & Hsel & _).
  rewrite Hnone in Hsel. fold seconds in Hsel.
  unfold decide_fallback in Hsel. fold grace_over in Hsel.
  destruct (tensorboard_used b); simpl in Hsel.
  - apply select_iteration_locals in Hsel as (_ & _ & _ & Hfb). exact Hfb.
  - destruct grace_over; simpl in Hsel.
    + apply select_iteration_locals in Hsel as (_ & _ & _ & Hfb). apply Hfb.
    + unfold select_iteration in Hsel. simpl in Hsel.
      destruct (get_last_iteration b =? last_iteration (locals d))%Z.
      * destruct (last_iteration_interval (locals d)) as [iv|].
        -- destruct (extrapolate _ _ _) as [x|]; [simpl in Hsel|discriminate].
           injection Hsel as _ <-. reflexivity.
        -- injection Hsel as _ <-. reflexivity.
      * injection Hsel as _ <-. reflexivity.
Qed.

Lemma unresolved_boundary_decision_witness :
  exists d' r,
    report_boundary boundary_30s
      {| self := default_monitor;
         locals :=
           {| seconds_since_started := 150; reported := 5; last_iteration := 0;
              last_iteration_ts := 0; last_iteration_interval := None;
              repeated_iterations := 5;
              fallback_to_sec_as_iterations := None; last_report := 1150 |} |}
    = Ok (d', r) /\
    fallback_to_sec_as_iterations (locals d') = Some true /\
    console (self d') = [msg_fallback].
Proof.
  destruct (report_boundary boundary_30s _) as [[d' r]|e] eqn:E;
    [|vm_compute in E; discriminate].
  exists d', r. split; [reflexivity|].
  exact (unresolved_boundary_decision _ _ _ _ E eq_refl).
Defined.

(** *** The console *)

Lemma count_lines_app line l1 l2 :
  count_lines line (l1 ++ l2) = (count_lines line l1 + count_lines line l2)%nat.
Proof. unfold count_lines. now rewrite filter_app, length_app. Qed.

(** A fold attempt writes at most the gpu line. *)
Lemma update_readouts_console a q t1 t2 m :
  console (fst (_update_readouts a q t1 t2 m)) = console m \/
  console (fst (_update_readouts a q t1 t2 m)) = (console m ++ [msg_gpu_off])%list.
Proof.
  unfold _update_readouts, _machine_stats.
  destruct (host_stats a) as [h|]; [|simpl; auto].
  destruct (_gpustat m).
  - destruct (gpu_try q h) as [stats' [u|x]].
    + destruct (fold_readouts _ _ _ _) as [acc [u'|e]]; simpl; auto.
    + destruct (3 <=? _gpustat_fail m + 1)%Z;
        destruct (fold_readouts _ _ _ _) as [acc [u'|e]]; simpl; auto.
  - destruct (fold_readouts _ _ _ _) as [acc [u'|e]]; simpl; auto.
Qed.

(** X5. From [__init__] on, the console holds the line about falling back
    to seconds exactly once when the daemon is in seconds mode and not at
    all otherwise: the warning is written once, by the boundary that
    activates seconds mode. *)
Theorem fallback_warning_written_once
  gpustat now sf rf fr w t58 evs th out d :
  _daemon evs (start t58 (__init__ gpustat now sf rf fr w)) = Some (th, out) ->
  thread_daemon th = Some d ->
  count_lines msg_fallback (console (self d))
  = match fallback_to_sec_as_iterations (locals d) with
    | Some true => 1%nat
    | _ => 0%nat
    end.
Proof.
  apply (daemon_preserves
           (fun x => count_lines msg_fallback (console (self x))
                     = match fallback_to_sec_as_iterations (locals x) with
                       | Some true => 1%nat
                       | _ => 0%nat
                       end)).
  - intros a q t1 t2 d0 H. unfold sample_tick. simpl.
    destruct (update_readouts_console a q t1 t2 (self d0)) as [-> | ->];
      [exact H|].
    rewrite count_lines_app. change (count_lines msg_fallback [msg_gpu_off]) with 0%nat.
    now rewrite Nat.add_0_r.
  - intros b d0 d1 r H Hb.
    destruct (fallback_to_sec_as_iterations (locals d0)) as [mode|] eqn:Em.
    + destruct (report_boundary_mode b d0 d1 r mode Hb Em) as (-> & _).
      rewrite (report_boundary_console b d0 d1 r Hb), decide_fallback_console, Em.
      exact H.
    + destruct (unresolved_boundary_decision b d0 d1 r Hb Em) as [-> ->].
      destruct (tensorboard_used b); simpl; [exact H|].
      destruct (Qle_bool _ _); simpl.
      * rewrite count_lines_app, H. reflexivity.
      * destruct (get_last_iteration b =? last_iteration (locals d0))%Z; exact H.
  - intros t d0 H. exact H.
  - simpl. unfold __init__. now destruct gpustat.
Qed.

Lemma fallback_warning_written_once_witness :
  exists d out,
    _daemon quarter_second_run (start 1000 quarter_second_monitor)
      = Some (Running d, out) /\
    fallback_to_sec_as_iterations (locals d) = Some true /\
    count_lines msg_fallback (console (self d)) = 1%nat.
Proof.
  destruct (_daemon quarter_second_run (start 1000 quarter_second_monitor))
    as [[[d|d|e] out]|] eqn:E; try (vm_compute in E; discriminate).
  exists d, out. split; [reflexivity|].
  assert (F : fallback_to_sec_as_iterations (locals d) = Some true).
  { vm_compute in E. injection E as <- _. reflexivity. }
  split; [exact F|].
  rewrite (fallback_warning_written_once true 1000 10 (1 # 4) None 0 1000
             quarter_second_run (Running d) out d E eq_refl), F.
  reflexivity.
Defined.

(** *** Before the mode is resolved *)

Lemma update_readouts_num a q t1 t2 m :
  (_num_readouts m <= _num_readouts (fst (_update_readouts a q t1 t2 m)))%Z.
Proof.
  pose proof (machine_stats_sampling_state a q m) as (_ & Hn & _).
  unfold _update_readouts.
  destruct (_machine_stats a q m) as [m1 [stats|e]]; simpl in *; [|lia].
  destruct (fold_readouts _ _ _ _) as [acc [u|e]]; simpl; lia.
Qed.

(** X6. As long as the mode is unresolved nothing is emitted and nothing is
    dropped: if a run ends with the mode unresolved, it started unresolved,
    none of its reports holds a scalar, and the fold count has not gone
    down, so every fold of the run is still in the accumulator. *)
Theorem nothing_emitted_before_resolution evs :
  forall d th out d',
    _daemon evs d = Some (th, out) ->
    thread_daemon th = Some d' ->
    fallback_to_sec_as_iterations (locals d') = None ->
    fallback_to_sec_as_iterations (locals d) = None /\
    Forall (fun r => scalars r = []) out /\
    (_num_readouts (self d) <= _num_readouts (self d'))%Z.
Proof.
  induction evs as [|ev rest IH]; intros d th out d' Hrun Hth Hnone;
    simpl in Hrun.
  - injection Hrun as <- <-. simpl in Hth. injection Hth as <-.
    repeat split; [exact Hnone|constructor|lia].
  - destruct ev as [t60 a q t117 t118|t60 t72 tb it t58|t60]; simpl in Hrun;
      destruct (window_open _ d); try discriminate.
    + destruct (_daemon rest _) as [[th2 out2]|] eqn:E; [|discriminate].
      injection Hrun as <- <-.
      destruct (IH _ _ _ _ E Hth Hnone) as (H1 & H2 & H3).
      repeat split; [exact H1|exact H2|].
      simpl in H3. pose proof (update_readouts_num a q t117 t118 (self d)). lia.
    + destruct (report_boundary _ d) as [[d2 r]|e] eqn:Eb.
      * destruct (_daemon rest _) as [[th2 out2]|] eqn:E; [|discriminate].
        injection Hrun as <- <-.
        destruct (IH _ _ _ _ E Hth Hnone) as (H1 & H2 & H3). simpl in H1, H3.
        assert (Hd : fallback_to_sec_as_iterations (locals d) = None).
        { destruct (fallback_to_sec_as_iterations (locals d)) as [mode|] eqn:Em;
            [|reflexivity].
          destruct (report_boundary_mode _ _ _ _ mode Eb Em) as (Hm & _).
          congruence. }
        pose proof (boundary_accumulator _ _ _ _ Eb) as Hacc.
        apply report_boundary_inv in Eb as (avg & _ & _ & Hemit).
        rewrite H1 in Hacc, Hemit.
        destruct Hacc as [_ Hn]. destruct Hemit as [_ Hs].
        repeat split; [exact Hd|constructor; [exact Hs|exact H2]|lia].
      * destruct rest; [|discriminate]. injection Hrun as <- _. discriminate.
    + destruct rest; [|discriminate]. injection Hrun as <- <-.
      simpl in Hth. injection Hth as <-.
      repeat split; [exact Hnone|constructor|lia].
Qed.

Lemma nothing_emitted_before_resolution_witness :
  exists d r,
    _daemon first_window_unresolved (start 1000 one_second_monitor)
      = Some (Running d, [r]) /\
    scalars r = [] /\
    (0 <= _num_readouts (self d))%Z.
Proof.
  destruct (_daemon first_window_unresolved (start 1000 one_second_monitor))
    as [[[d|d|e] out]|] eqn:E; try (vm_compute in E; discriminate).
  destruct out as [|r [|r' out']]; try (vm_compute in E; discriminate).
  exists d, r. split; [reflexivity|].
  assert (F : fallback_to_sec_as_iterations (locals d) = None).
  { vm_compute in E. injection E as <- _. reflexivity. }
  destruct (nothing_emitted_before_resolution first_window_unresolved
              _ _ _ d E eq_refl F) as (_ & Hout & Hnum).
  split; [now inversion Hout|exact Hnum].
Defined.

(** *** Extrapolating a stalled counter *)

Lemma average_items_raise items n e :
  average_items items n = Raise e -> e = ZeroDivisionError.
Proof.
  induction items as [|[k v] rest IH]; simpl; [discriminate|].
  unfold py_div. destruct (Qeq_bool (inject_Z n) 0); simpl.
  - now intros [= <-].
  - destruct (average_items rest n); simpl; [discriminate|].
    intros [= ->]. now apply IH.
Qed.

(** X7. An interval whose time part is 0 (the iteration changed at a
    boundary whose [seconds_since_started] was that of the change before)
    is fatal at the next stalled boundary in external mode: the
    extrapolation divides by it, and the [ZeroDivisionError] is raised
    outside any [try] and ends the thread. *)
Theorem stalled_boundary_with_zero_time_delta_raises b d d0 :
  fallback_to_sec_as_iterations (locals d) = Some false ->
  last_iteration_interval (locals d) = Some (d0, 0%Z) ->
  get_last_iteration b = last_iteration (locals d) ->
  report_boundary b d = Raise ZeroDivisionError /\
  forall t60 t72 t58,
    window_open t60 d = false ->
    daemon_step (Report t60 t72 (tensorboard_used b) (get_last_iteration b) t58) d
    = Some (Died ZeroDivisionError, []).
Proof.
  intros Hmode Hiv Hsame.
  assert (Hany : forall b', get_last_iteration b' = last_iteration (locals d) ->
                            report_boundary b' d = Raise ZeroDivisionError).
  { intros b' Hsame'. unfold report_boundary.
    destruct (_get_average_readouts (self d)) as [avg|e] eqn:Ea; simpl.
    - rewrite Hmode. simpl. unfold select_iteration. simpl.
      rewrite Hsame', Z.eqb_refl, Hiv. reflexivity.
    - unfold _get_average_readouts in Ea. apply average_items_raise in Ea.
      now subst e. }
  split; [now apply Hany|].
  intros t60 t72 t58 Hclosed. simpl. rewrite Hclosed.
  rewrite Hany; [reflexivity|exact Hsame].
Qed.

Lemma stalled_boundary_with_zero_time_delta_raises_witness :
  exists d r,
    _daemon quarter_second_first_window (start 1000 quarter_second_external_monitor)
      = Some (Running d, [r]) /\
    report_iteration r = 3%Z /\
    last_iteration_interval (locals d) = Some (3, 0)%Z /\
    report_boundary boundary_still_at_3 d = Raise ZeroDivisionError.
Proof.
  destruct (_daemon quarter_second_first_window
              (start 1000 quarter_second_external_monitor))
    as [[[d|d|e] out]|] eqn:E; try (vm_compute in E; discriminate).
  destruct out as [|r [|r' out']]; try (vm_compute in E; discriminate).
  exists d, r. split; [reflexivity|].
  assert (F : report_iteration r = 3%Z /\
              fallback_to_sec_as_iterations (locals d) = Some false /\
              last_iteration_interval (locals d) = Some (3, 0)%Z /\
              last_iteration (locals d) = 3%Z).
  { vm_compute in E. injection E as <- <-. repeat split. }
  destruct F as (F1 & F2 & F3 & F4).
  split; [exact F1|]. split; [exact F3|].
  apply (stalled_boundary_with_zero_time_delta_raises boundary_still_at_3 d 3 F2 F3).
  now rewrite F4.
Defined.

(** X8. At a stalled boundary in external mode with a known interval whose
    iteration part is not negative and whose time part is positive, and
    with [seconds_since_started] not before the last change, the
    synthesized iteration is not below the last polled one. *)
Theorem extrapolation_not_below_last_iteration b l d0 d1 :
  fallback_to_sec_as_iterations l <> Some true ->
  get_last_iteration b = last_iteration l ->
  last_iteration_interval l = Some (d0, d1) ->
  (0 <= d0)%Z -> (0 < d1)%Z ->
  (last_iteration_ts l <= seconds_since_started l)%Z ->
  exists it l',
    select_iteration b l = Ok (it, l') /\
    (last_iteration l <= it)%Z /\
    last_iteration l' = last_iteration l /\
    last_iteration_interval l' = Some (d0, d1) /\
    repeated_iterations l' = (repeated_iterations l + 1)%Z.
Proof.
  intros Hmode Hsame Hiv H0 H1 Hts.
  unfold select_iteration.
  rewrite Hsame, Z.eqb_refl, Hiv. unfold extrapolate, py_div. simpl fst. simpl snd.
  assert (Hd1 : Qeq_bool (inject_Z d1) 0 = false).
  { destruct (Qeq_bool (inject_Z d1) 0) eqn:E; [|reflexivity].
    apply Qeq_bool_iff in E. pose proof (inject_Z_pos d1 H1) as P.
    rewrite E in P. discriminate. }
  rewrite Hd1. simpl bind.
  assert (Hx : 0 <= (95 # 100) * inject_Z d0
                    * inject_Z (seconds_since_started l - last_iteration_ts l)
                    / inject_Z d1).
  { apply Qle_shift_div_l; [now apply inject_Z_pos|]. rewrite Qmult_0_l.
    apply Qmult_le_0_compat; [apply Qmult_le_0_compat; [discriminate|]|].
    - change 0 with (inject_Z 0). rewrite <- Zle_Qle. exact H0.
    - change 0 with (inject_Z 0). rewrite <- Zle_Qle. lia. }
  apply py_int_nonneg in Hx as [Hx _].
  destruct (fallback_to_sec_as_iterations l) as [[|]|]; try congruence;
    (eexists; eexists; split; [reflexivity|]; simpl; repeat split; auto; lia).
Qed.

Lemma extrapolation_not_below_last_iteration_witness :
  exists it l',
    select_iteration boundary_stalled stalled_locals = Ok (it, l') /\
    (5 <= it)%Z.
Proof.
  destruct (extrapolation_not_below_last_iteration boundary_stalled stalled_locals 5 10)
    as (it & l' & Hsel & Hle & _); try reflexivity; try discriminate.
  exists it, l'. split; [exact Hsel|exact Hle].
Defined.

(** ** The accelerator *)

(** One fold attempt, seen from the accelerator fields and the console. *)
Lemma update_readouts_gpu_step a q t1 t2 m :
  let m' := fst (_update_readouts a q t1 t2 m) in
  if _gpustat m && gpu_block_fails a q then
    _gpustat_fail m' = (_gpustat_fail m + 1)%Z /\
    _gpustat m' = negb (3 <=? _gpustat_fail m + 1)%Z /\
    console m' = (if (3 <=? _gpustat_fail m + 1)%Z
                  then (console m ++ [msg_gpu_off])%list else console m)
  else
    _gpustat_fail m' = _gpustat_fail m /\
    _gpustat m' = _gpustat m /\
    console m' = console m.
Proof.
  unfold _update_readouts, _machine_stats, gpu_block_fails.
  destruct (host_stats a) as [h|]; [|rewrite andb_false_r; simpl; auto].
  destruct (_gpustat m) eqn:Eg; simpl andb.
  - destruct (gpu_try q h) as [stats' [u|x]].
    + destruct (fold_readouts _ _ _ _) as [acc [u'|e]]; simpl; auto.
    + destruct (3 <=? _gpustat_fail m + 1)%Z;
        destruct (fold_readouts _ _ _ _) as [acc [u'|e]]; simpl; auto.
  - destruct (fold_readouts _ _ _ _) as [acc [u'|e]]; simpl; auto.
Qed.

Lemma gpu_state_after_step n a q t1 t2 m :
  gpu_state_after n m ->
  gpu_state_after (if gpu_block_fails a q then S n else n)
    (fst (_update_readouts a q t1 t2 m)).
Proof.
  intros (Hf & Hg & Hc).
  pose proof (update_readouts_gpu_step a q t1 t2 m) as Hstep. simpl in Hstep.
  unfold gpu_state_after.
  destruct (gpu_block_fails a q); rewrite Hg in Hstep.
  - destruct (n <? 3)%nat eqn:En; simpl in Hstep;
      destruct Hstep as (-> & -> & ->); rewrite Hf.
    + apply Nat.ltb_lt in En.
      destruct (3 <=? Z.min 3 (Z.of_nat n) + 1)%Z eqn:E3.
      * apply Z.leb_le in E3. assert (n = 2)%nat by lia. subst n.
        rewrite count_lines_app, Hc. repeat split.
      * apply Z.leb_gt in E3. assert (S n < 3)%nat by lia.
        assert (E1 : (S n <? 3)%nat = true) by now apply Nat.ltb_lt.
        assert (E2 : (3 <=? S n)%nat = false) by (apply Nat.leb_gt; lia).
        assert (E4 : (3 <=? n)%nat = false) by (apply Nat.leb_gt; lia).
        rewrite E1, E2. rewrite E4 in Hc. repeat split; [lia|exact Hc].
    + apply Nat.ltb_ge in En.
      assert (E1 : (S n <? 3)%nat = false) by (apply Nat.ltb_ge; lia).
      assert (E2 : (3 <=? S n)%nat = true) by (apply Nat.leb_le; lia).
      assert (E4 : (3 <=? n)%nat = true) by (apply Nat.leb_le; lia).
      rewrite E1, E2. rewrite E4 in Hc. repeat split; [lia|exact Hc].
  - rewrite andb_false_r in Hstep. destruct Hstep as (-> & -> & ->). auto.
Qed.

Lemma gpu_state_after_boundary n b d d' r :
  report_boundary b d = Ok (d', r) ->
  gpu_state_after n (self d) -> gpu_state_after n (self d').
Proof.
  intros Hb (Hf & Hg & Hc). unfold gpu_state_after.
  destruct (report_boundary_gpu b d d' r Hb) as [-> ->].
  repeat split; auto.
  rewrite (report_boundary_console b d d' r Hb), decide_fallback_console.
  destruct (fallback_to_sec_as_iterations (locals d)); [exact Hc|].
  destruct (negb _ && _); [|exact Hc].
  rewrite count_lines_app, Hc. change (count_lines msg_gpu_off [msg_fallback]) with 0%nat.
  apply Nat.add_0_r.
Qed.

Lemma gpu_state_after_run evs :
  forall n d th out d',
    gpu_state_after n (self d) ->
    _daemon evs d = Some (th, out) ->
    thread_daemon th = Some d' ->
    gpu_state_after (n + gpu_failures evs) (self d').
Proof.
  induction evs as [|ev rest IH]; intros n d th out d' Hinv Hrun Hth;
    simpl in Hrun.
  - injection Hrun as <- _. simpl in Hth. injection Hth as <-.
    unfold gpu_failures. simpl. now rewrite Nat.add_0_r.
  - destruct ev as [t60 a q t117 t118|t60 t72 tb it t58|t60]; simpl in Hrun;
      destruct (window_open _ d); try discriminate.
    + destruct (_daemon rest _) as [[th2 out2]|] eqn:E; [|discriminate].
      injection Hrun as <- _.
      pose proof (gpu_state_after_step n a q t117 t118 (self d) Hinv) as Hstep.
      pose proof (IH _ (sample_tick a q t117 t118 d) _ _ _ Hstep E Hth) as H.
      unfold gpu_failures in *. simpl.
      destruct (gpu_block_fails a q); simpl List.length;
        [now rewrite Nat.add_succ_r|exact H].
    + destruct (report_boundary _ d) as [[d2 r]|e] eqn:Eb.
      * destruct (_daemon rest _) as [[th2 out2]|] eqn:E; [|discriminate].
        injection Hrun as <- _.
        exact (IH n (reopen t58 d2) _ _ _
                 (gpu_state_after_boundary n _ _ _ _ Eb Hinv) E Hth).
      * destruct rest; [|discriminate]. injection Hrun as <- _. discriminate.
    + destruct rest; [|discriminate]. injection Hrun as <- _.
      simpl in Hth. injection Hth as <-.
      unfold gpu_failures. simpl. now rewrite Nat.add_0_r.
Qed.

(** X9. With [gpustat] available, the failure counter after a run is the
    number of sample ticks at which the gpu block raised, capped at 3:
    a tick at which the query succeeds does not reset it, so the three
    failures need not be consecutive. Accelerator querying is on exactly
    while that number is below 3, and the console holds the switching-off
    line once from the third failure on and not before. *)
Theorem gpu_failures_are_cumulative now sf rf fr w t58 evs th out d :
  _daemon evs (start t58 (__init__ true now sf rf fr w)) = Some (th, out) ->
  thread_daemon th = Some d ->
  _gpustat_fail (self d) = Z.min 3 (Z.of_nat (gpu_failures evs)) /\
  _gpustat (self d) = (gpu_failures evs <? 3)%nat /\
  count_lines msg_gpu_off (console (self d))
  = (if (3 <=? gpu_failures evs)%nat then 1 else 0)%nat.
Proof.
  intros Hrun Hth.
  apply (gpu_state_after_run evs 0 (start t58 (__init__ true now sf rf fr w)) th out d);
    [|exact Hrun|exact Hth].
  repeat split.
Qed.

Lemma gpu_failures_are_cumulative_witness :
  exists d,
    _daemon gpu_flaky_run (start 1000 default_monitor) = Some (Running d, []) /\
    gpu_failures gpu_flaky_run = 3%nat /\
    _gpustat_fail (self d) = 3%Z /\
    _gpustat (self d) = false.
Proof.
  destruct (_daemon gpu_flaky_run (start 1000 default_monitor))
    as [[[d|d|e] out]|] eqn:E; try (vm_compute in E; discriminate).
  destruct out as [|r out]; [|vm_compute in E; discriminate].
  exists d. split; [reflexivity|]. split; [reflexivity|].
  destruct (gpu_failures_are_cumulative 1000 2 30 None 180 1000 gpu_flaky_run
              (Running d) [] d E eq_refl) as (Hf & Hg & _).
  split; [exact Hf|exact Hg].
Defined.

(** *** The keys of the devices *)

Lemma string_of_uint_sep d :
  forall d' s s',
    (NilEmpty.string_of_uint d ++ String "_" s
     = NilEmpty.string_of_uint d' ++ String "_" s')%string ->
    d = d' /\ s = s'.
Proof.
  induction d; intros d' s s' H; destruct d'; simpl in H;
    try discriminate;
    try (injection H as H; apply IHd in H as [-> ->]; split; reflexivity).
  injection H as ->. split; reflexivity.
Qed.

(** Different devices or different readings have different keys. *)
Lemma gpu_key_inj i name j name' :
  gpu_key i name = gpu_key j name' -> i = j /\ name = name'.
Proof.
  unfold gpu_key, format_d. simpl. intros H. injection H as H.
  apply string_of_uint_sep in H as [H ->].
  split; [now apply DecimalNat.Unsigned.to_uint_inj|reflexivity].
Qed.

Lemma writes_within_assign (P : string -> Prop) k e :
  P k -> writes_within P (assign k e).
Proof.
  intros Hk d d' r H k' Hk'. unfold assign in H.
  destruct e as [v|x]; injection H as <- _; [|reflexivity].
  apply get_set_other. intros ->. contradiction.
Qed.

Lemma writes_within_seq (P : string -> Prop) c1 c2 :
  writes_within P c1 -> writes_within P c2 -> writes_within P (seq c1 c2).
Proof.
  intros H1 H2 d d' r H k Hk. unfold seq in H.
  destruct (c1 d) as [d1 [u|x]] eqn:E1.
  - rewrite (H2 _ _ _ H k Hk). exact (H1 _ _ _ E1 k Hk).
  - injection H as <- _. exact (H1 _ _ _ E1 k Hk).
Qed.

Lemma writes_within_gpu_body i0 i g :
  (i0 <= i)%nat ->
  writes_within (fun k => exists j name, (i0 <= j)%nat /\ k = gpu_key j name)
    (gpu_body i g).
Proof.
  intros Hi. unfold gpu_body.
  repeat (apply writes_within_seq; [apply writes_within_assign; eauto|]).
  apply writes_within_assign; eauto.
Qed.

Lemma writes_within_gpu_loop gpus :
  forall i0 i, (i0 <= i)%nat ->
    writes_within (fun k => exists j name, (i0 <= j)%nat /\ k = gpu_key j name)
      (gpu_loop i gpus).
Proof.
  induction gpus as [|g rest IH]; intros i0 i Hi; simpl.
  - intros d d' r [= <- _] k _. reflexivity.
  - apply writes_within_seq; [now apply writes_within_gpu_body|].
    apply IH. lia.
Qed.

(** The body of the loop on a device with all its readings. *)
Lemma gpu_body_values i g d t u used total :
  gpu_readings g = Some (t, u, used, total) ->
  exists d',
    gpu_body i g d = (d', Ok tt) /\
    Dict.get d' (gpu_key i "temperature") = Some (inject_Z t) /\
    Dict.get d' (gpu_key i "utilization") = Some (inject_Z u) /\
    Dict.get d' (gpu_key i "mem_usage")
      = Some (100 * inject_Z used / inject_Z total) /\
    Dict.get d' (gpu_key i "mem_free_gb")
      = Some (inject_Z (total - used) / 1024) /\
    Dict.get d' (gpu_key i "mem_used_gb") = Some (inject_Z used / 1024).
Proof.
  unfold gpu_readings. intros H.
  destruct (temperature_gpu g) as [t'|] eqn:Et; [|discriminate].
  destruct (utilization_gpu g) as [u'|] eqn:Eu; [|discriminate].
  destruct (memory_used g) as [used'|] eqn:Em; [|discriminate].
  destruct (memory_total g) as [total'|] eqn:Eo; [|discriminate].
  destruct (total' =? 0)%Z eqn:E0; [discriminate|].
  injection H as -> -> -> ->. apply Z.eqb_neq in E0.
  assert (Hdiv : Qeq_bool (inject_Z total) 0 = false).
  { destruct (Qeq_bool (inject_Z total) 0) eqn:E; [|reflexivity].
    apply Qeq_bool_iff in E. unfold Qeq in E. simpl in E. lia. }
  unfold gpu_body, seq, assign. rewrite Et, Eu, Em, Eo. simpl.
  unfold py_div. rewrite Hdiv. simpl.
  eexists. split; [reflexivity|].
  assert (Hne : forall n n', n <> n' -> gpu_key i n <> gpu_key i n').
  { intros n n' Hn E. apply gpu_key_inj in E as [_ E]. contradiction. }
  repeat split;
    repeat (first [ apply get_set_same
                  | rewrite get_set_other by (apply Hne; discriminate) ]).
Qed.

(** The body of the loop on a device with a reading missing, or without
    memory. *)
Lemma gpu_body_raises i g d :
  gpu_readings g = None -> exists d' e, gpu_body i g d = (d', Raise e).
Proof.
  unfold gpu_readings, gpu_body, seq, assign. intros H.
  destruct (temperature_gpu g) as [t|]; simpl; [|eauto].
  destruct (utilization_gpu g) as [u|]; simpl; [|eauto].
  destruct (memory_used g) as [used|]; simpl; [|eauto].
  destruct (memory_total g) as [total|]; simpl; [|eauto].
  destruct (total =? 0)%Z eqn:E0; [|discriminate].
  apply Z.eqb_eq in E0. subst total. simpl. eauto.
Qed.

Lemma gpu_loop_values gpus :
  forall i0 d,
    (forall g, In g gpus -> gpu_readings g <> None) ->
    exists d',
      gpu_loop i0 gpus d = (d', Ok tt) /\
      forall j g t u used total,
        nth_error gpus j = Some g ->
        gpu_readings g = Some (t, u, used, total) ->
        Dict.get d' (gpu_key (i0 + j) "temperature") = Some (inject_Z t) /\
        Dict.get d' (gpu_key (i0 + j) "utilization") = Some (inject_Z u) /\
        Dict.get d' (gpu_key (i0 + j) "mem_usage")
          = Some (100 * inject_Z used / inject_Z total) /\
        Dict.get d' (gpu_key (i0 + j) "mem_free_gb")
          = Some (inject_Z (total - used) / 1024) /\
        Dict.get d' (gpu_key (i0 + j) "mem_used_gb") = Some (inject_Z used / 1024).
Proof.
  induction gpus as [|g0 rest IH]; intros i0 d Hall; simpl.
  - exists d. split; [reflexivity|]. intros [|j]; discriminate.
  - destruct (gpu_readings g0) as [[[[t0 u0] used0] total0]|] eqn:E0;
      [|exfalso; apply (Hall g0); [now left|exact E0]].
    destruct (gpu_body_values i0 g0 d _ _ _ _ E0) as (d1 & Hb & Hvals).
    destruct (IH (S i0) d1) as (d' & Hl & Hrest);
      [intros g Hg; apply Hall; now right|].
    exists d'. split; [unfold seq; now rewrite Hb|].
    intros [|j] g t u used total Hnth Hr.
    + simpl in Hnth. injection Hnth as <-. rewrite E0 in Hr.
      injection Hr as <- <- <- <-. rewrite Nat.add_0_r.
      assert (Hkeep : forall name,
                 Dict.get d' (gpu_key i0 name) = Dict.get d1 (gpu_key i0 name)).
      { intros name.
        apply (writes_within_gpu_loop rest (S i0) (S i0) (le_n _) d1 d' _ Hl).
        intros (j & name' & Hj & E). apply gpu_key_inj in E as [-> _]. lia. }
      rewrite !Hkeep. exact Hvals.
    + simpl in Hnth. rewrite <- Nat.add_succ_comm.
      exact (Hrest j g t u used total Hnth Hr).
Qed.

Lemma not_gpu_key_of_host k :
  startswith k "gpu_" = false -> forall j name, k <> gpu_key j name.
Proof. intros H j name ->. rewrite gpu_key_startswith in H. discriminate. Qed.

(** X10. When the query succeeds and every device has its four readings
    and some memory, [_machine_stats] leaves the monitor as it is and
    returns a snapshot with the host readings under their keys and five
    readings per device [i]: temperature, utilization, used memory in
    percent of the total, and free and used memory divided by 1024
    (gigabytes, the query answering in megabytes). *)
Theorem healthy_gpus_add_five_readings_each a gpus m h :
  host_stats a = Ok h ->
  _gpustat m = true ->
  (forall g, In g gpus -> gpu_readings g <> None) ->
  exists stats,
    _machine_stats a (Ok gpus) m = (m, Ok stats) /\
    (forall k, startswith k "gpu_" = false -> Dict.get stats k = Dict.get h k) /\
    forall i g t u used total,
      nth_error gpus i = Some g ->
      gpu_readings g = Some (t, u, used, total) ->
      Dict.get stats (gpu_key i "temperature") = Some (inject_Z t) /\
      Dict.get stats (gpu_key i "utilization") = Some (inject_Z u) /\
      Dict.get stats (gpu_key i "mem_usage")
        = Some (100 * inject_Z used / inject_Z total) /\
      Dict.get stats (gpu_key i "mem_free_gb")
        = Some (inject_Z (total - used) / 1024) /\
      Dict.get stats (gpu_key i "mem_used_gb") = Some (inject_Z used / 1024).
Proof.
  intros Hh Hg Hall.
  destruct (gpu_loop_values gpus 0 h Hall) as (stats & Hl & Hvals).
  exists stats. split; [|split].
  - unfold _machine_stats. rewrite Hh, Hg. simpl. now rewrite Hl.
  - intros k Hk. now apply (writes_only_gpu_loop gpus 0 h stats _ Hl).
  - exact Hvals.
Qed.

Lemma healthy_gpus_add_five_readings_each_witness :
  exists stats,
    _machine_stats (host_answers 25 0 0) (Ok [gpu_healthy]) default_monitor
      = (default_monitor, Ok stats) /\
    Dict.get stats (gpu_key 0 "mem_usage") = Some (100 * 100 / 1000) /\
    Dict.get stats (gpu_key 0 "mem_free_gb") = Some (900 / 1024).
Proof.
  destruct (healthy_gpus_add_five_readings_each (host_answers 25 0 0)
              [gpu_healthy] default_monitor _ eq_refl eq_refl)
    as (stats & Hs & _ & Hvals).
  - intros g [<-|[]]. discriminate.
  - exists stats. split; [exact Hs|].
    destruct (Hvals 0%nat gpu_healthy 50 10 100 1000 eq_refl eq_refl)%Z
      as (_ & _ & H3 & H4 & _).
    split; [exact H3|exact H4].
Defined.

(** X11. Once psutil has answered, the gpu block raises exactly when the
    query raises or some device lacks a reading or has no memory; it then
    counts as one failure whatever the other devices say. *)
Theorem gpu_block_fails_iff_unreadable a h gpus :
  host_stats a = Ok h ->
  gpu_block_fails a (Ok gpus)
  = negb (forallb (fun g => match gpu_readings g with
                            | Some _ => true
                            | None => false
                            end) gpus) /\
  forall e, gpu_block_fails a (Raise e) = true.
Proof.
  intros Hh. unfold gpu_block_fails. rewrite Hh. split; [|reflexivity].
  simpl. generalize 0%nat h. clear Hh.
  induction gpus as [|g rest IH]; intros i d; simpl; [reflexivity|].
  unfold seq.
  destruct (gpu_readings g) as [[[[t u] used] total]|] eqn:E; simpl.
  - destruct (gpu_body_values i g d _ _ _ _ E) as (d1 & -> & _). apply IH.
  - destruct (gpu_body_raises i g d E) as (d1 & e & ->). reflexivity.
Qed.

Lemma gpu_block_fails_iff_unreadable_witness :
  gpu_block_fails (host_answers 25 0 0)
    (Ok [gpu_healthy;
         {| temperature_gpu := Some 40%Z; utilization_gpu := None;
            memory_used := Some 1%Z; memory_total := Some 2%Z |}])
  = true.
Proof.
  destruct (gpu_block_fails_iff_unreadable (host_answers 25 0 0) _
              [gpu_healthy;
               {| temperature_gpu := Some 40%Z; utilization_gpu := None;
                  memory_used := Some 1%Z; memory_total := Some 2%Z |}]
              eq_refl) as [-> _].
  reflexivity.
Defined.

(** ** Snapshots *)

Lemma py_max_upper ts :
  forall t, t <= py_max t ts /\ forall x, In x ts -> x <= py_max t ts.
Proof.
  unfold py_max. induction ts as [|y ts IH]; intros t; simpl.
  - split; [apply Qle_refl|tauto].
  - destruct (IH (Qmax t y)) as [H1 H2].
    assert (Ht : t <= Qmax t y /\ y <= Qmax t y).
    { unfold Qmax. destruct (Qle_bool t y) eqn:E.
      - apply Qle_bool_iff in E. split; [exact E|apply Qle_refl].
      - split; [apply Qle_refl|].
        apply Qlt_le_weak, Qnot_le_lt. intros H. apply Qle_bool_iff in H. congruence. }
    split; [apply Qle_trans with (Qmax t y); tauto|].
    intros x [<-|Hx]; [apply Qle_trans with (Qmax t y); tauto|auto].
Qed.

Lemma Qmax_cases t y : Qmax t y = t \/ Qmax t y = y.
Proof. unfold Qmax. destruct (Qle_bool t y); auto. Qed.

Lemma py_max_in ts : forall t, In (py_max t ts) (t :: ts).
Proof.
  unfold py_max. induction ts as [|y ts IH]; intros t; [now left|].
  change (fold_left Qmax (y :: ts) t) with (fold_left Qmax ts (Qmax t y)).
  destruct (IH (Qmax t y)) as [H|H].
  - rewrite <- H. destruct (Qmax_cases t y) as [-> | ->]; simpl; auto.
  - simpl. auto.
Qed.

(** X12. In a snapshot, [cpu_usage] is the mean of the per-core readings,
    the memory readings are bytes divided by 2^30, the four cumulative
    counters are bytes divided by 2^20, [disk_free_percent] is what the
    used percentage leaves of 100, and [cpu_temperature] is there exactly
    when the platform has core sensors and is then the highest of their
    readings. *)
Theorem host_snapshot_readings a h cpu used available percent temps
  sent recv rd wr :
  host_stats a = Ok h ->
  cpu_percent a = Ok cpu ->
  virtual_memory a = Ok (used, available) ->
  disk_usage_percent a = Ok percent ->
  sensors_coretemp a = Ok temps ->
  net_io_counters a = Ok (sent, recv) ->
  disk_io_counters a = Ok (rd, wr) ->
  (exists u, Dict.get h "cpu_usage" = Some u /\
             u * inject_Z (Z.of_nat (List.length cpu)) == py_sum cpu) /\
  (exists g, Dict.get h "memory_used_gb" = Some g /\
             g == inject_Z used / inject_Z (2 ^ 30)) /\
  (exists g, Dict.get h "memory_free_gb" = Some g /\
             g == inject_Z available / inject_Z (2 ^ 30)) /\
  (exists f, Dict.get h "disk_free_percent" = Some f /\ f + percent == 100) /\
  Dict.get h "network_tx_mbs" = Some (inject_Z sent / inject_Z (2 ^ 20)) /\
  Dict.get h "network_rx_mbs" = Some (inject_Z recv / inject_Z (2 ^ 20)) /\
  Dict.get h "io_read_mbs" = Some (inject_Z rd / inject_Z (2 ^ 20)) /\
  Dict.get h "io_write_mbs" = Some (inject_Z wr / inject_Z (2 ^ 20)) /\
  match temps with
  | [] => Dict.get h "cpu_temperature" = None
  | _ :: _ =>
      exists m, Dict.get h "cpu_temperature" = Some m /\
                In m temps /\ forall x, In x temps -> x <= m
  end.
Proof.
  unfold host_stats. intros H Hc Hv Hd Hs Hn Hi.
  rewrite Hc, Hv, Hd, Hs, Hn, Hi in H. simpl in H.
  destruct (py_div _ _) as [avg|] eqn:Ea; [simpl in H|discriminate].
  apply py_div_ok in Ea as [Hn0 ->].
  assert (Hmean : py_sum cpu / inject_Z (Z.of_nat (List.length cpu))
                  * inject_Z (Z.of_nat (List.length cpu)) == py_sum cpu)
    by (field; exact Hn0).
  assert (Hgb : forall x, bytes_to_megabytes x / 1024 == inject_Z x / inject_Z (2 ^ 30)).
  { intros x. unfold bytes_to_megabytes, bytes_per_megabyte.
    change (inject_Z (1024 ^ 2)) with (1048576 # 1).
    change (inject_Z (2 ^ 30)) with (1073741824 # 1).
    field. }
  assert (Hhead :
            forall h0 : Dict.t Q,
              Dict.get h0 "cpu_usage"
                = Some (py_sum cpu / inject_Z (Z.of_nat (List.length cpu))) ->
              Dict.get h0 "memory_used_gb" = Some (bytes_to_megabytes used / 1024) ->
              Dict.get h0 "memory_free_gb"
                = Some (bytes_to_megabytes available / 1024) ->
              Dict.get h0 "disk_free_percent" = Some (100 - percent) ->
              (exists u, Dict.get h0 "cpu_usage" = Some u /\
                         u * inject_Z (Z.of_nat (List.length cpu)) == py_sum cpu) /\
              (exists g, Dict.get h0 "memory_used_gb" = Some g /\
                         g == inject_Z used / inject_Z (2 ^ 30)) /\
              (exists g, Dict.get h0 "memory_free_gb" = Some g /\
                         g == inject_Z available / inject_Z (2 ^ 30)) /\
              (exists f, Dict.get h0 "disk_free_percent" = Some f /\
                         f + percent == 100)).
  { intros h0 H1 H2 H3 H4.
    split; [eexists; split; [exact H1|exact Hmean]|].
    split; [eexists; split; [exact H2|apply Hgb]|].
    split; [eexists; split; [exact H3|apply Hgb]|].
    eexists; split; [exact H4|ring]. }
  destruct temps as [|t ts]; injection H as <-.
  - match goal with |- context [Dict.get ?h0 "cpu_usage"] =>
      destruct (Hhead h0 eq_refl eq_refl eq_refl eq_refl) as (A & B & C & D) end.
    repeat (split; [assumption || reflexivity|]). reflexivity.
  - match goal with |- context [Dict.get ?h0 "cpu_usage"] =>
      destruct (Hhead h0 eq_refl eq_refl eq_refl eq_refl) as (A & B & C & D) end.
    repeat (split; [assumption || reflexivity|]).
    exists (py_max t ts). split; [reflexivity|].
    split; [apply py_max_in|].
    intros x [Hx|Hx];
      [rewrite <- Hx; exact (proj1 (py_max_upper ts t))
      |exact (proj2 (py_max_upper ts t) x Hx)].
Qed.

Lemma host_snapshot_readings_witness :
  exists h m,
    host_stats
      {| cpu_percent := Ok [10; 30];
         virtual_memory := Ok (2147483648, 1073741824)%Z;
         disk_usage_percent := Ok 40;
         sensors_coretemp := Ok [55; 61; 58];
         net_io_counters := Ok (1048576, 2097152)%Z;
         disk_io_counters := Ok (0, 0)%Z |} = Ok h /\
    Dict.get h "cpu_temperature" = Some m /\ m == 61.
Proof.
  destruct (host_stats _) as [h|e] eqn:E; [|vm_compute in E; discriminate].
  destruct (host_snapshot_readings _ h _ _ _ _ _ _ _ _ _ E
              eq_refl eq_refl eq_refl eq_refl eq_refl eq_refl)
    as (_ & _ & _ & _ & _ & _ & _ & _ & m & Hm & Hin & Hmax).
  exists h, m. split; [reflexivity|]. split; [exact Hm|].
  apply Qle_antisym.
  - destruct Hin as [<-|[<-|[<-|[]]]]; discriminate.
  - apply Hmax. right. now left.
Defined.

(** X13. [_machine_stats] returns a snapshot exactly when psutil answers
    all six calls and reports at least one core, whatever the gpu query
    does; otherwise it raises and leaves the monitor as it was, and with an
    empty list of cores the exception is [ZeroDivisionError]. *)
Theorem machine_stats_raises_only_for_psutil a q m :
  (psutil_ok a = true ->
   exists stats, snd (_machine_stats a q m) = Ok stats) /\
  (psutil_ok a = false ->
   exists e, _machine_stats a q m = (m, Raise e)) /\
  (cpu_percent a = Ok [] ->
   _machine_stats a q m = (m, Raise ZeroDivisionError)).
Proof.
  assert (Hhost : (psutil_ok a = true -> exists h, host_stats a = Ok h) /\
                  (psutil_ok a = false -> exists e, host_stats a = Raise e) /\
                  (cpu_percent a = Ok [] -> host_stats a = Raise ZeroDivisionError)).
  { unfold psutil_ok, host_stats.
    destruct (cpu_percent a) as [[|c cpu]|e1];
      [split; [discriminate|split; [simpl; eauto|reflexivity]]| |
       split; [discriminate|split; [simpl; eauto|discriminate]]].
    cbn [bind].
    assert (E : py_div (py_sum (c :: cpu))
                  (inject_Z (Z.of_nat (List.length (c :: cpu))))
                = Ok (py_sum (c :: cpu)
                      / inject_Z (Z.of_nat (List.length (c :: cpu))))).
    { unfold py_div. destruct (Qeq_bool _ 0) eqn:E; [|reflexivity].
      apply Qeq_bool_iff in E. unfold Qeq in E. simpl in E. lia. }
    rewrite E. cbn [bind].
    destruct (virtual_memory a) as [[used av]|e2]; simpl;
      [|split; [discriminate|split; [eauto|discriminate]]].
    destruct (disk_usage_percent a) as [p|e3]; simpl;
      [|split; [discriminate|split; [eauto|discriminate]]].
    destruct (sensors_coretemp a) as [temps|e4]; simpl;
      [|split; [discriminate|split; [eauto|discriminate]]].
    destruct (net_io_counters a) as [[sent recv]|e5]; simpl;
      [|split; [discriminate|split; [eauto|discriminate]]].
    destruct (disk_io_counters a) as [[rd wr]|e6]; simpl;
      [|split; [discriminate|split; [eauto|discriminate]]].
    split; [eauto|split; discriminate]. }
  destruct Hhost as (Hok & Hraise & Hempty).
  split; [|split].
  - intros H. destruct (Hok H) as [h Hh]. unfold _machine_stats. rewrite Hh.
    destruct (_gpustat m); [|simpl; eauto].
    destruct (gpu_try q h) as [stats' [u|x]]; [simpl; eauto|].
    destruct (3 <=? _gpustat_fail m + 1)%Z; simpl; eauto.
  - intros H. destruct (Hraise H) as [e He]. exists e.
    now apply machine_stats_host_raise.
  - intros H. now apply machine_stats_host_raise, Hempty.
Qed.

Lemma machine_stats_raises_only_for_psutil_witness :
  (exists stats,
     snd (_machine_stats (host_answers 25 0 0) (Raise ProviderError) default_monitor)
     = Ok stats) /\
  _machine_stats
    {| cpu_percent := Ok [];
       virtual_memory := Ok (0, 0)%Z;
       disk_usage_percent := Ok 0;
       sensors_coretemp := Ok [];
       net_io_counters := Ok (0, 0)%Z;
       disk_io_counters := Ok (0, 0)%Z |}
    (Ok [gpu_healthy]) default_monitor
  = (default_monitor, Raise ZeroDivisionError).
Proof.
  split.
  - apply (machine_stats_raises_only_for_psutil (host_answers 25 0 0)
             (Raise ProviderError) default_monitor). reflexivity.
  - apply machine_stats_raises_only_for_psutil. reflexivity.
Defined.

(** ** Windows of folds *)

Lemma machine_stats_host_keys a q m h :
  host_stats a = Ok h ->
  exists m1 stats,
    _machine_stats a q m = (m1, Ok stats) /\
    forall k, startswith k "gpu_" = false -> Dict.get stats k = Dict.get h k.
Proof.
  intros Hh. unfold _machine_stats. rewrite Hh.
  destruct (_gpustat m); [|eauto].
  destruct (gpu_try q h) as [stats' [u|x]] eqn:Et.
  - exists m, stats'. split; [reflexivity|].
    intros k Hk. now apply (writes_only_gpu_try q h stats' _ Et).
  - destruct (3 <=? _gpustat_fail m + 1)%Z; eexists; exists stats';
      (split; [reflexivity|]);
      intros k Hk; now apply (writes_only_gpu_try q h stats' _ Et).
Qed.

(** A fold for which psutil answers and the clock has moved completes. *)
Lemma update_readouts_completes a q t1 t2 m h :
  host_stats a = Ok h ->
  ~ t1 - _previous_readouts_ts m == 0 ->
  exists m',
    _update_readouts a q t1 t2 m = (m', Ok tt) /\
    _num_readouts m' = (_num_readouts m + 1)%Z /\
    _previous_readouts_ts m' = t2 /\
    forall k v,
      startswith k "gpu_" = false -> endswith k "_mbs" = false ->
      Dict.get h k = Some v ->
      Dict.get (_readouts m') k = Some (Dict.get_default (_readouts m) k 0 + v).
Proof.
  intros Hh He.
  pose proof (machine_stats_sampling_state a q m) as (Hr & Hn & Hp & Hts).
  destruct (machine_stats_host_keys a q m h Hh) as (m1 & stats & Hm & Hkeys).
  unfold _update_readouts. rewrite Hm in *. simpl in Hr, Hn, Hp, Hts. simpl.
  rewrite Hts.
  destruct (fold_readouts_total stats (_previous_readouts m1) _ (_readouts m1) He)
    as [acc Hf].
  rewrite Hf. eexists. split; [reflexivity|]. simpl.
  split; [now rewrite Hn|]. split; [reflexivity|].
  intros k v Hg Hmbs Hk.
  destruct (fold_readouts_ok _ _ _ _ _ (machine_stats_nodup _ _ _ _ _ Hm) Hf)
    as [Hin _].
  rewrite <- (Hkeys k Hg) in Hk.
  destruct (Hin k v (get_in _ _ _ Hk)) as (x & Hx & Hacc).
  unfold fold_value in Hx. rewrite Hmbs in Hx. injection Hx as <-.
  now rewrite Hacc, Hr.
Qed.

Lemma window_sum k :
  startswith k "gpu_" = false -> endswith k "_mbs" = false ->
  forall evs d th out d' vs,
    window_readings k evs = Some vs ->
    clock_moves (_previous_readouts_ts (self d)) evs = true ->
    _daemon evs d = Some (th, out) ->
    thread_daemon th = Some d' ->
    _num_readouts (self d')
      = (_num_readouts (self d) + Z.of_nat (List.length vs))%Z /\
    Dict.get_default (_readouts (self d')) k 0
      == Dict.get_default (_readouts (self d)) k 0 + Qsum vs /\
    (Dict.get (_readouts (self d)) k <> None \/ vs <> [] ->
     Dict.get (_readouts (self d')) k <> None).
Proof.
  intros Hg Hmbs.
  induction evs as [|ev rest IH]; intros d th out d' vs Hread Hclock Hrun Hth.
  - simpl in Hread, Hrun. injection Hread as <-. injection Hrun as <- _.
    simpl in Hth. injection Hth as <-. simpl.
    split; [lia|]. split; [ring|]. intros [H|H]; [exact H|congruence].
  - destruct ev as [t60 a q t117 t118| |]; try discriminate.
    simpl in Hread, Hclock, Hrun.
    destruct (host_stats a) as [h|] eqn:Eh; [|discriminate].
    destruct (Dict.get h k) as [v|] eqn:Ek; [|discriminate].
    destruct (window_readings k rest) as [vs'|] eqn:Er; [|discriminate].
    injection Hread as <-.
    apply andb_prop in Hclock as [Hmove Hclock'].
    assert (He : ~ t117 - _previous_readouts_ts (self d) == 0).
    { intros E. apply Qeq_bool_iff in E. rewrite E in Hmove. discriminate. }
    destruct (window_open t60 d); [|discriminate].
    destruct (_daemon rest _) as [[th2 out2]|] eqn:E; [|discriminate].
    injection Hrun as <- _.
    destruct (update_readouts_completes a q t117 t118 (self d) h Eh He)
      as (m' & Hu & Hn & Hts & Hval).
    assert (Hself : self (sample_tick a q t117 t118 d) = m')
      by (unfold sample_tick; simpl; now rewrite Hu).
    specialize (IH (sample_tick a q t117 t118 d) th2 out2 d' vs' eq_refl).
    rewrite Hself, Hts in IH.
    destruct (IH Hclock' E Hth) as (IHn & IHs & IHk).
    split; [rewrite IHn, Hn; simpl List.length; lia|].
    split.
    + rewrite IHs. unfold Dict.get_default at 1.
      rewrite (Hval k v Hg Hmbs Ek). simpl. ring.
    + intros _. apply IHk. left. rewrite (Hval k v Hg Hmbs Ek). discriminate.
Qed.

Lemma average_items_total items n :
  n <> 0%Z ->
  average_items items n
  = Ok (map (fun kv => (fst kv, snd kv / inject_Z n)) items).
Proof.
  intros Hn. induction items as [|[k v] rest IH]; simpl; [reflexivity|].
  unfold py_div.
  assert (E : Qeq_bool (inject_Z n) 0 = false).
  { destruct (Qeq_bool (inject_Z n) 0) eqn:E; [|reflexivity].
    apply Qeq_bool_iff in E. unfold Qeq in E. simpl in E. lia. }
  rewrite E. simpl. rewrite IH. reflexivity.
Qed.

Lemma get_map_values (f : Q -> Q) (d : Dict.t Q) k :
  Dict.get (map (fun kv => (fst kv, f (snd kv))) d) k
  = option_map f (Dict.get d k).
Proof.
  induction d as [|[k0 v0] r IH]; simpl; [reflexivity|].
  now destruct (String.eqb k0 k).
Qed.

Lemma Qsum_const vs c :
  (forall v, In v vs -> v == c) ->
  Qsum vs == inject_Z (Z.of_nat (List.length vs)) * c.
Proof.
  induction vs as [|v vs IH]; intros H.
  - simpl. ring.
  - cbn [Qsum fold_right List.length]. fold (Qsum vs).
    rewrite Nat2Z.inj_succ. unfold Z.succ. rewrite inject_Z_plus.
    rewrite IH by (intros x Hx; apply H; now right).
    rewrite (H v) by now left. change (inject_Z 1) with 1. ring.
Qed.

(** X14. Over a window that starts with an empty accumulator and in which
    every fold completes, the average the boundary will report for a key
    that is neither a cumulative counter nor a gpu key is the mean of the
    readings of that key at the ticks of the window, and the fold count is
    the number of ticks; a reading that is the same at every tick is its own
    average. *)
Theorem window_average_is_mean k evs d th out d1 vs :
  startswith k "gpu_" = false ->
  endswith k "_mbs" = false ->
  _readouts (self d) = Dict.empty ->
  _num_readouts (self d) = 0%Z ->
  window_readings k evs = Some vs ->
  vs <> [] ->
  clock_moves (_previous_readouts_ts (self d)) evs = true ->
  _daemon evs d = Some (th, out) ->
  thread_daemon th = Some d1 ->
  _get_num_readouts (self d1) = Z.of_nat (List.length vs) /\
  exists average_readouts a,
    _get_average_readouts (self d1) = Ok average_readouts /\
    Dict.get average_readouts k = Some a /\
    a * inject_Z (Z.of_nat (List.length vs)) == Qsum vs /\
    forall c, (forall v, In v vs -> v == c) -> a == c.
Proof.
  intros Hg Hmbs Hempty Hzero Hread Hne Hclock Hrun Hth.
  destruct (window_sum k Hg Hmbs evs d th out d1 vs Hread Hclock Hrun Hth)
    as (Hn & Hs & Hk).
  rewrite Hzero in Hn. rewrite Hempty in Hs. simpl in Hn.
  unfold Dict.get_default in Hs. simpl in Hs.
  destruct (Dict.get (_readouts (self d1)) k) as [s|] eqn:Es;
    [|exfalso; apply Hk; [now right|reflexivity]].
  assert (Hlen : Z.of_nat (List.length vs) <> 0%Z)
    by (destruct vs; [congruence|simpl List.length; lia]).
  assert (HlenQ : ~ inject_Z (Z.of_nat (List.length vs)) == 0).
  { intros E. unfold Qeq in E. simpl in E. lia. }
  split; [exact Hn|].
  unfold _get_average_readouts. unfold _get_num_readouts in Hn. rewrite Hn.
  rewrite (average_items_total _ _ Hlen).
  eexists. exists (s / inject_Z (Z.of_nat (List.length vs))).
  split; [reflexivity|]. split.
  - rewrite (get_map_values (fun v => v / inject_Z (Z.of_nat (List.length vs)))).
    now rewrite Es.
  - assert (Hmean : s / inject_Z (Z.of_nat (List.length vs))
                    * inject_Z (Z.of_nat (List.length vs)) == Qsum vs).
    { rewrite <- (Qplus_0_l (Qsum vs)), <- Hs. field. exact HlenQ. }
    split; [exact Hmean|].
    intros c Hc. rewrite (Qsum_const vs c Hc) in Hmean.
    apply (Qmult_inj_r _ _ (inject_Z (Z.of_nat (List.length vs))) HlenQ).
    rewrite Hmean. ring.
Qed.

Lemma window_average_is_mean_witness :
  exists d1 average_readouts a,
    _daemon steady_window (start 1000 three_halves_monitor)
      = Some (Running d1, []) /\
    _get_num_readouts (self d1) = 3%Z /\
    _get_average_readouts (self d1) = Ok average_readouts /\
    Dict.get average_readouts "cpu_usage" = Some a /\
    a == 25.
Proof.
  destruct (_daemon steady_window (start 1000 three_halves_monitor))
    as [[[d1|d1|e] out]|] eqn:E; try (vm_compute in E; discriminate).
  destruct out as [|r out]; [|vm_compute in E; discriminate].
  destruct (window_average_is_mean "cpu_usage" steady_window
              (start 1000 three_halves_monitor) (Running d1) [] d1
              [25 / 1; 25 / 1; 25 / 1])
    as (Hn & avg & a & Havg & Ha & _ & Hconst);
    try reflexivity; try discriminate; try exact E.
  exists d1, avg, a. split; [reflexivity|]. split; [exact Hn|].
  split; [exact Havg|]. split; [exact Ha|].
  apply Hconst. intros v [<-|[<-|[<-|[]]]]; reflexivity.
Defined.

(** ** What a report holds *)

Lemma daemon_reports (P : daemon -> Prop) (Q : report -> Prop) :
  (forall a q t1 t2 d, P d -> P (sample_tick a q t1 t2 d)) ->
  (forall b d d' r, P d -> report_boundary b d = Ok (d', r) -> P d' /\ Q r) ->
  (forall t d, P d -> P (reopen t d)) ->
  forall evs d th out,
    P d -> _daemon evs d = Some (th, out) -> Forall Q out.
Proof.
  intros Hs Hr Ho evs.
  induction evs as [|ev rest IH]; intros d th out HP Hrun; simpl in Hrun.
  - injection Hrun as _ <-. constructor.
  - destruct ev as [t60 a q t117 t118|t60 t72 tb it t58|t60]; simpl in Hrun;
      destruct (window_open _ d); try discriminate.
    + destruct (_daemon rest _) as [[th2 out2]|] eqn:E; [|discriminate].
      injection Hrun as _ <-. simpl.
      exact (IH _ _ _ (Hs a q t117 t118 d HP) E).
    + destruct (report_boundary _ d) as [[d2 r]|e] eqn:Eb.
      * destruct (_daemon rest _) as [[th2 out2]|] eqn:E; [|discriminate].
        injection Hrun as _ <-. destruct (Hr _ _ _ _ HP Eb) as [HP2 HQ].
        simpl. constructor; [exact HQ|].
        exact (IH _ _ _ (Ho t58 d2 HP2) E).
      * destruct rest; [|discriminate]. injection Hrun as _ <-. constructor.
    + destruct rest; [|discriminate]. injection Hrun as _ <-. constructor.
Qed.

(** What the fold loop does to the keys, whether it completes or not. *)
Lemma fold_readouts_keys items prev e :
  forall acc acc' r,
    fold_readouts items prev e acc = (acc', r) ->
    (NoDup (Dict.keys acc) -> NoDup (Dict.keys acc')) /\
    (forall k, In k (Dict.keys acc) -> In k (Dict.keys acc')) /\
    (r = Ok tt -> forall k, In k (Dict.keys items) -> In k (Dict.keys acc')).
Proof.
  induction items as [|[k0 v0] rest IH]; intros acc acc' r H; simpl in H.
  - injection H as <- <-. repeat split; auto. intros _ k [].
  - destruct (fold_value prev e k0 v0) as [x|x].
    + destruct (IH _ _ _ H) as (H1 & H2 & H3). repeat split.
      * intros Hnd. apply H1. now apply NoDup_keys_set.
      * intros k Hk. apply H2. now apply keys_set_keep.
      * intros Hr k [<-|Hk]; [apply H2, keys_set_new|now apply H3].
    + injection H as <- <-. repeat split; auto. discriminate.
Qed.

Lemma update_readouts_keys_inv a q t1 t2 m :
  accumulator_keys_inv m ->
  accumulator_keys_inv (fst (_update_readouts a q t1 t2 m)).
Proof.
  intros (Hpos & Hnd & Hhost).
  pose proof (machine_stats_sampling_state a q m) as (Hr & Hn & _).
  unfold _update_readouts.
  destruct (_machine_stats a q m) as [m1 [stats|e]] eqn:Em; simpl in Hr, Hn.
  - simpl.
    destruct (fold_readouts _ _ _ _) as [acc [[]|e]] eqn:Ef; simpl.
    + destruct (fold_readouts_keys _ _ _ _ _ _ Ef) as (H1 & _ & H3).
      unfold accumulator_keys_inv. simpl. rewrite Hr in H1. rewrite Hn.
      split; [lia|]. split; [now apply H1|].
      intros _ k Hk. apply (H3 eq_refl).
      unfold _machine_stats in Em.
      destruct (host_stats a) as [h|] eqn:Eh; [|discriminate].
      pose proof (host_stats_has_host_keys a h k Eh Hk) as Hin.
      assert (Hget : Dict.get stats k = Dict.get h k).
      { destruct (_gpustat m).
        - destruct (gpu_try q h) as [stats' [u|x]] eqn:Et.
          + injection Em as _ <-.
            apply (writes_only_gpu_try q h stats' _ Et), host_keys_not_gpu, Hk.
          + destruct (3 <=? _gpustat_fail m + 1)%Z; injection Em as _ <-;
              apply (writes_only_gpu_try q h stats' _ Et), host_keys_not_gpu, Hk.
        - now injection Em as _ <-. }
      destruct (in_dec string_dec k (Dict.keys stats)) as [Hyes|Hno]; [exact Hyes|].
      apply get_none_iff in Hno. rewrite Hget in Hno.
      apply get_none_iff in Hno. contradiction.
    + destruct (fold_readouts_keys _ _ _ _ _ _ Ef) as (H1 & H2 & _).
      unfold accumulator_keys_inv. simpl. rewrite Hr in H1, H2. rewrite Hn.
      split; [lia|]. split; [now apply H1|].
      intros Hp k Hk. apply H2. now apply Hhost.
  - simpl. unfold accumulator_keys_inv. now rewrite Hr, Hn.
Qed.

Lemma boundary_keys_inv b d d' r :
  accumulator_keys_inv (self d) ->
  report_boundary b d = Ok (d', r) ->
  accumulator_keys_inv (self d') /\ report_complete r.
Proof.
  intros (Hpos & Hnd & Hhost) Hb.
  pose proof (boundary_accumulator b d d' r Hb) as Hacc.
  apply report_boundary_inv in Hb as (avg & Havg & _ & Hemit).
  unfold _get_average_readouts in Havg.
  apply average_items_ok in Havg as [-> Hn].
  unfold accumulator_keys_inv, report_complete.
  destruct (fallback_to_sec_as_iterations (locals d')).
  - destruct Hacc as [-> ->]. destruct Hemit as [_ ->].
    split; [split; [lia|split; [constructor|lia]]|].
    assert (Hser : map series
                     (emit (report_iteration r)
                        (map (fun kv => (fst kv, snd kv / inject_Z (_num_readouts (self d))))
                           (_readouts (self d))))
                   = Dict.keys (_readouts (self d))).
    { unfold emit, Dict.keys. rewrite !map_map. reflexivity. }
    rewrite Hser. split; [exact Hnd|].
    destruct (_readouts (self d)) as [|kv rest] eqn:Er; [left; reflexivity|].
    right. intros k Hk. apply Hhost; [|exact Hk].
    assert (_num_readouts (self d) <> 0%Z) by (apply Hn; discriminate). lia.
  - destruct Hacc as [-> ->]. destruct Hemit as [_ ->].
    split; [auto|]. split; [constructor|now left].
Qed.

(** X15. Every report of a run from [__init__] holds each metric at most
    once and is either empty or holds all eight host metrics. *)
Theorem reports_hold_every_host_metric_once
  gpustat now sf rf fr w t58 evs th out :
  _daemon evs (start t58 (__init__ gpustat now sf rf fr w)) = Some (th, out) ->
  Forall report_complete out.
Proof.
  apply (daemon_reports (fun d => accumulator_keys_inv (self d)) report_complete).
  - intros a q t1 t2 d H. unfold sample_tick. simpl.
    now apply update_readouts_keys_inv.
  - intros b d d' r H Hb. now apply (boundary_keys_inv b d d' r).
  - intros t d H. exact H.
  - unfold accumulator_keys_inv, __init__.
    destruct gpustat; simpl; (split; [lia|split; [constructor|lia]]).
Qed.

Lemma reports_hold_every_host_metric_once_witness :
  exists d r,
    _daemon quarter_second_first_window (start 1000 quarter_second_external_monitor)
      = Some (Running d, [r]) /\
    map series (scalars r) = host_keys /\
    report_complete r.
Proof.
  destruct (_daemon quarter_second_first_window
              (start 1000 quarter_second_external_monitor))
    as [[[d|d|e] out]|] eqn:E; try (vm_compute in E; discriminate).
  destruct out as [|r [|r' out']]; try (vm_compute in E; discriminate).
  exists d, r. split; [reflexivity|].
  pose proof (reports_hold_every_host_metric_once true 1000 10 (1 # 4) None 180
                1000 quarter_second_first_window (Running d) [r] E) as H.
  split; [|now inversion H].
  vm_compute in E. injection E as _ <-. reflexivity.
Defined.

(** ** When a boundary ends the thread *)

Lemma average_items_raises_iff items n :
  (exists e, average_items items n = Raise e) <-> n = 0%Z /\ items <> [].
Proof.
  split.
  - intros [e H]. destruct (Z.eq_dec n 0) as [Hn|Hn].
    + split; [exact Hn|]. intros ->. discriminate.
    + rewrite (average_items_total items n Hn) in H. discriminate.
  - intros [-> Hne]. destruct items as [|[k v] rest]; [congruence|].
    exists ZeroDivisionError. reflexivity.
Qed.

(** X16. A report boundary raises in two cases only, and then it is
    [ZeroDivisionError]: the accumulator holds sums while the fold count is
    0, or the boundary is a stalled one outside seconds mode and the time
    part of the known interval is 0. In every other state it completes. *)
Theorem report_boundary_raises_iff b d :
  let seconds := (seconds_since_started (locals d) + py_round (elapsed b))%Z in
  let fallback :=
    snd (decide_fallback b seconds (self d)
           (fallback_to_sec_as_iterations (locals d))) in
  ((exists e, report_boundary b d = Raise e) <->
   (_num_readouts (self d) = 0%Z /\ _readouts (self d) <> []) \/
   (fallback <> Some true /\
    get_last_iteration b = last_iteration (locals d) /\
    exists d0, last_iteration_interval (locals d) = Some (d0, 0%Z))) /\
  (forall e, report_boundary b d = Raise e -> e = ZeroDivisionError).
Proof.
  intros seconds fallback.
  pose proof (average_items_raises_iff (_readouts (self d)) (_num_readouts (self d)))
    as Havg.
  unfold report_boundary, _get_average_readouts.
  fold seconds.
  destruct (decide_fallback b seconds (self d)
              (fallback_to_sec_as_iterations (locals d))) as [m fb] eqn:Edec.
  simpl in fallback. subst fallback.
  destruct (average_items (_readouts (self d)) (_num_readouts (self d)))
    as [avg|e0] eqn:Ea; simpl.
  - assert (Hno : ~ (_num_readouts (self d) = 0%Z /\ _readouts (self d) <> []))
      by (intros H; apply Havg in H as [e H]; discriminate).
    unfold select_iteration. simpl.
    destruct fb as [[|]|].
    + split.
      * split; [intros [e H]; discriminate|].
        intros [H|(H & _)]; [contradiction|congruence].
      * intros e H. discriminate.
    + destruct (get_last_iteration b =? last_iteration (locals d))%Z eqn:Eq.
      * apply Z.eqb_eq in Eq.
        destruct (last_iteration_interval (locals d)) as [[d0 d1]|] eqn:Eiv.
        -- unfold extrapolate, py_div. simpl fst. simpl snd.
           destruct (Qeq_bool (inject_Z d1) 0) eqn:E1; simpl.
           ++ apply Qeq_bool_iff in E1. unfold Qeq in E1. simpl in E1.
              assert (d1 = 0%Z) by lia. subst d1.
              split; [|intros e [= <-]; reflexivity].
              split; [intros _; right; repeat split; eauto; discriminate|eauto].
           ++ split; [|intros e H; discriminate].
              split; [intros [e H]; discriminate|].
              intros [H|(_ & _ & d0' & H)]; [contradiction|].
              injection H as _ ->. discriminate.
        -- simpl. split; [|intros e H; discriminate].
           split; [intros [e H]; discriminate|].
           intros [H|(_ & _ & d0' & H)]; [contradiction|discriminate].
      * simpl. apply Z.eqb_neq in Eq. split; [|intros e H; discriminate].
        split; [intros [e H]; discriminate|].
        intros [H|(_ & H & _)]; [contradiction|congruence].
    + destruct (get_last_iteration b =? last_iteration (locals d))%Z eqn:Eq.
      * apply Z.eqb_eq in Eq.
        destruct (last_iteration_interval (locals d)) as [[d0 d1]|] eqn:Eiv.
        -- unfold extrapolate, py_div. simpl fst. simpl snd.
           destruct (Qeq_bool (inject_Z d1) 0) eqn:E1; simpl.
           ++ apply Qeq_bool_iff in E1. unfold Qeq in E1. simpl in E1.
              assert (d1 = 0%Z) by lia. subst d1.
              split; [|intros e [= <-]; reflexivity].
              split; [intros _; right; repeat split; eauto; discriminate|eauto].
           ++ split; [|intros e H; discriminate].
              split; [intros [e H]; discriminate|].
              intros [H|(_ & _ & d0' & H)]; [contradiction|].
              injection H as _ ->. discriminate.
        -- simpl. split; [|intros e H; discriminate].
           split; [intros [e H]; discriminate|].
           intros [H|(_ & _ & d0' & H)]; [contradiction|discriminate].
      * simpl. apply Z.eqb_neq in Eq. split; [|intros e H; discriminate].
        split; [intros [e H]; discriminate|].
        intros [H|(_ & H & _)]; [contradiction|congruence].
  - assert (Hyes : _num_readouts (self d) = 0%Z /\ _readouts (self d) <> [])
      by (apply Havg; eauto).
    apply average_items_raise in Ea. subst e0.
    split; [split; eauto|]. now intros e [= <-].
Qed.

(** ** Without gpustat *)

(** X17. When [gpustat] could not be imported, the console gets the hint to
    install it once, at construction, and the accelerator is never asked:
    the failure counter stays 0 and the switching-off line is never
    written. With [gpustat] the hint is never written. *)
Theorem gpustat_hint_written_once gpustat now sf rf fr w t58 evs th out d :
  _daemon evs (start t58 (__init__ gpustat now sf rf fr w)) = Some (th, out) ->
  thread_daemon th = Some d ->
  count_lines msg_no_gpustat (console (self d))
  = (if gpustat then 0 else 1)%nat /\
  (gpustat = false ->
   _gpustat (self d) = false /\
   _gpustat_fail (self d) = 0%Z /\
   count_lines msg_gpu_off (console (self d)) = 0%nat).
Proof.
  apply (daemon_preserves
           (fun x =>
              count_lines msg_no_gpustat (console (self x))
              = (if gpustat then 0 else 1)%nat /\
              (gpustat = false ->
               _gpustat (self x) = false /\
               _gpustat_fail (self x) = 0%Z /\
               count_lines msg_gpu_off (console (self x)) = 0%nat))).
  - intros a q t1 t2 d0 [Hc Hoff]. unfold sample_tick. simpl. split.
    + destruct (update_readouts_console a q t1 t2 (self d0)) as [-> | ->];
        [exact Hc|].
      rewrite count_lines_app, Hc.
      change (count_lines msg_no_gpustat [msg_gpu_off]) with 0%nat.
      apply Nat.add_0_r.
    + intros Hg. destruct (Hoff Hg) as (H1 & H2 & H3).
      pose proof (update_readouts_gpu_step a q t1 t2 (self d0)) as Hstep.
      simpl in Hstep. rewrite H1 in Hstep. simpl in Hstep.
      destruct Hstep as (-> & -> & ->). auto.
  - intros b d0 d1 r [Hc Hoff] Hb.
    assert (Hcount : forall line,
               String.eqb line msg_fallback = false ->
               count_lines line (console (self d1))
               = count_lines line (console (self d0))).
    { intros line Hline.
      rewrite (report_boundary_console b d0 d1 r Hb), decide_fallback_console.
      destruct (fallback_to_sec_as_iterations (locals d0)); [reflexivity|].
      destruct (negb _ && _); [|reflexivity].
      rewrite count_lines_app. unfold count_lines at 2. simpl. rewrite Hline.
      apply Nat.add_0_r. }
    destruct (report_boundary_gpu b d0 d1 r Hb) as [Hf Hg].
    split; [rewrite Hcount by reflexivity; exact Hc|].
    intros Hno. destruct (Hoff Hno) as (H1 & H2 & H3).
    rewrite Hf, Hg, Hcount by reflexivity. auto.
  - intros t d0 H. exact H.
  - unfold __init__. destruct gpustat; simpl; split; try reflexivity;
      [discriminate|intros _; repeat split].
Qed.

Lemma gpustat_hint_written_once_witness :
  exists d,
    _daemon three_gpu_failures (start 1000 (__init__ false 1000 2 30 None 180))
      = Some (Running d, []) /\
    console (self d) = [msg_no_gpustat] /\
    _gpustat_fail (self d) = 0%Z.
Proof.
  destruct (_daemon three_gpu_failures _) as [[[d|d|e] out]|] eqn:E;
    try (vm_compute in E; discriminate).
  destruct out as [|r out]; [|vm_compute in E; discriminate].
  exists d. split; [reflexivity|].
  destruct (gpustat_hint_written_once false 1000 2 30 None 180 1000
              three_gpu_failures (Running d) [] d E eq_refl) as [_ H].
  destruct (H eq_refl) as (_ & Hf & _).
  split; [|exact Hf].
  vm_compute in E. injection E as <-. reflexivity.
Defined.

(** ** Rates of cumulative counters over a window *)

(** A completed fold, seen from a cumulative counter of the host. *)
Lemma update_readouts_completes_rate a q t1 t2 m h :
  host_stats a = Ok h ->
  ~ t1 - _previous_readouts_ts m == 0 ->
  exists m',
    _update_readouts a q t1 t2 m = (m', Ok tt) /\
    _num_readouts m' = (_num_readouts m + 1)%Z /\
    _previous_readouts_ts m' = t2 /\
    (forall k, startswith k "gpu_" = false ->
               Dict.get (_previous_readouts m') k = Dict.get h k) /\
    forall k v,
      startswith k "gpu_" = false -> endswith k "_mbs" = true ->
      Dict.get h k = Some v ->
      Dict.get (_readouts m') k
      = Some (Dict.get_default (_readouts m) k 0
              + (v - Dict.get_default (_previous_readouts m) k v)
                / (t1 - _previous_readouts_ts m)).
Proof.
  intros Hh He.
  pose proof (machine_stats_sampling_state a q m) as (Hr & Hn & Hp & Hts).
  destruct (machine_stats_host_keys a q m h Hh) as (m1 & stats & Hm & Hkeys).
  unfold _update_readouts. rewrite Hm in *. simpl in Hr, Hn, Hp, Hts. simpl.
  rewrite Hts.
  destruct (fold_readouts_total stats (_previous_readouts m1) _ (_readouts m1) He)
    as [acc Hf].
  rewrite Hf. eexists. split; [reflexivity|]. simpl.
  split; [now rewrite Hn|]. split; [reflexivity|]. split; [exact Hkeys|].
  intros k v Hg Hmbs Hk.
  destruct (fold_readouts_ok _ _ _ _ _ (machine_stats_nodup _ _ _ _ _ Hm) Hf)
    as [Hin _].
  rewrite <- (Hkeys k Hg) in Hk.
  destruct (Hin k v (get_in _ _ _ Hk)) as (x & Hx & Hacc).
  unfold fold_value in Hx. rewrite Hmbs in Hx.
  apply py_div_ok in Hx as [_ ->].
  now rewrite Hacc, Hr, Hp.
Qed.

Lemma last_cons_default (v : Q) vs c : last (v :: vs) c = last vs v.
Proof.
  revert v c. induction vs as [|x vs IH]; intros v c; [reflexivity|].
  change (last (v :: x :: vs) c) with (last (x :: vs) c).
  now rewrite (IH x c), (IH x v).
Qed.

Lemma window_rate k e :
  startswith k "gpu_" = false -> endswith k "_mbs" = true -> ~ e == 0 ->
  forall evs d th out d' vs c0,
    Dict.get (_previous_readouts (self d)) k = Some c0 ->
    window_readings k evs = Some vs ->
    evenly_spaced e (_previous_readouts_ts (self d)) evs = true ->
    _daemon evs d = Some (th, out) ->
    thread_daemon th = Some d' ->
    _num_readouts (self d')
      = (_num_readouts (self d) + Z.of_nat (List.length vs))%Z /\
    Dict.get_default (_readouts (self d')) k 0
      == Dict.get_default (_readouts (self d)) k 0 + (last vs c0 - c0) / e /\
    Dict.get (_previous_readouts (self d')) k = Some (last vs c0) /\
    (Dict.get (_readouts (self d)) k <> None \/ vs <> [] ->
     Dict.get (_readouts (self d')) k <> None).
Proof.
  intros Hg Hmbs He.
  induction evs as [|ev rest IH]; intros d th out d' vs c0 Hprev Hread Hsp Hrun Hth.
  - simpl in Hread, Hrun. injection Hread as <-. injection Hrun as <- _.
    simpl in Hth. injection Hth as <-. simpl.
    split; [lia|]. split; [field; exact He|]. split; [exact Hprev|].
    intros [H|H]; [exact H|congruence].
  - destruct ev as [t60 a q t117 t118| |]; try discriminate.
    simpl in Hread, Hsp, Hrun.
    destruct (host_stats a) as [h|] eqn:Eh; [|discriminate].
    destruct (Dict.get h k) as [v|] eqn:Ek; [|discriminate].
    destruct (window_readings k rest) as [vs'|] eqn:Er; [|discriminate].
    injection Hread as <-.
    apply andb_prop in Hsp as [Hstep Hsp'].
    apply Qeq_bool_iff in Hstep.
    assert (Hel : ~ t117 - _previous_readouts_ts (self d) == 0)
      by (rewrite Hstep; exact He).
    destruct (window_open t60 d); [|discriminate].
    destruct (_daemon rest _) as [[th2 out2]|] eqn:E; [|discriminate].
    injection Hrun as <- _.
    destruct (update_readouts_completes_rate a q t117 t118 (self d) h Eh Hel)
      as (m' & Hu & Hn & Hts & Hp' & Hval).
    assert (Hself : self (sample_tick a q t117 t118 d) = m')
      by (unfold sample_tick; simpl; now rewrite Hu).
    specialize (IH (sample_tick a q t117 t118 d) th2 out2 d' vs' v).
    rewrite Hself, Hts in IH.
    assert (Hprev' : Dict.get (_previous_readouts m') k = Some v)
      by (rewrite (Hp' k Hg); exact Ek).
    destruct (IH Hprev' eq_refl Hsp' E Hth) as (IHn & IHs & IHp & IHk).
    rewrite last_cons_default.
    split; [rewrite IHn, Hn; simpl List.length; lia|].
    split; [|split; [exact IHp|]].
    + rewrite IHs. unfold Dict.get_default at 1.
      rewrite (Hval k v Hg Hmbs Ek). unfold Dict.get_default at 2.
      rewrite Hprev, Hstep. field. exact He.
    + intros _. apply IHk. left. rewrite (Hval k v Hg Hmbs Ek). discriminate.
Qed.

(** X18. Over a window that starts with an empty accumulator and whose
    folds all complete, [e] seconds apart, the average reported for a
    cumulative counter of the host, times the [e] seconds of each of the
    folds, is the increase of the counter from the reading before the window
    to its last reading in the window: nothing the counter gained between
    two folds is lost or counted twice. *)
Theorem window_rate_is_increase_over_time k e evs d th out d1 vs c0 :
  startswith k "gpu_" = false ->
  endswith k "_mbs" = true ->
  ~ e == 0 ->
  _readouts (self d) = Dict.empty ->
  _num_readouts (self d) = 0%Z ->
  Dict.get (_previous_readouts (self d)) k = Some c0 ->
  window_readings k evs = Some vs ->
  vs <> [] ->
  evenly_spaced e (_previous_readouts_ts (self d)) evs = true ->
  _daemon evs d = Some (th, out) ->
  thread_daemon th = Some d1 ->
  exists average_readouts a,
    _get_average_readouts (self d1) = Ok average_readouts /\
    Dict.get average_readouts k = Some a /\
    a * (inject_Z (Z.of_nat (List.length vs)) * e) == last vs c0 - c0.
Proof.
  intros Hg Hmbs He Hempty Hzero Hprev Hread Hne Hsp Hrun Hth.
  destruct (window_rate k e Hg Hmbs He evs d th out d1 vs c0
              Hprev Hread Hsp Hrun Hth) as (Hn & Hs & _ & Hk).
  rewrite Hzero in Hn. rewrite Hempty in Hs. simpl in Hn.
  unfold Dict.get_default in Hs. simpl in Hs.
  destruct (Dict.get (_readouts (self d1)) k) as [s|] eqn:Es;
    [|exfalso; apply Hk; [now right|reflexivity]].
  assert (Hlen : Z.of_nat (List.length vs) <> 0%Z)
    by (destruct vs; [congruence|simpl List.length; lia]).
  assert (HlenQ : ~ inject_Z (Z.of_nat (List.length vs)) == 0).
  { intros E. unfold Qeq in E. simpl in E. lia. }
  unfold _get_average_readouts. rewrite Hn.
  rewrite (average_items_total _ _ Hlen).
  eexists. exists (s / inject_Z (Z.of_nat (List.length vs))).
  split; [reflexivity|]. split.
  - rewrite (get_map_values (fun v => v / inject_Z (Z.of_nat (List.length vs)))).
    now rewrite Es.
  - rewrite Hs. field. split; [exact He|exact HlenQ].
Qed.

Lemma window_rate_is_increase_over_time_witness :
  exists d1 average_readouts a,
    _daemon busy_window after_first_report = Some (Running d1, []) /\
    _get_average_readouts (self d1) = Ok average_readouts /\
    Dict.get average_readouts "network_tx_mbs" = Some a /\
    a == 3.
Proof.
  destruct (_daemon busy_window after_first_report)
    as [[[d1|d1|e] out]|] eqn:E; try (vm_compute in E; discriminate).
  destruct out as [|r out]; [|vm_compute in E; discriminate].
  destruct (window_rate_is_increase_over_time "network_tx_mbs" (1 # 2)
              busy_window after_first_report (Running d1) [] d1
              [2097152 # 1048576; 4194304 # 1048576] (1048576 # 1048576))
    as (avg & a & Havg & Ha & Hrate);
    try reflexivity; try discriminate; try exact E.
  exists d1, avg, a. split; [reflexivity|]. split; [exact Havg|].
  split; [exact Ha|].
  simpl in Hrate.
  apply (Qmult_inj_r _ _ (inject_Z 2 * (1 # 2))); [discriminate|].
  rewrite Hrate. reflexivity.
Defined.
